(** * highpycharts: chart builders over timestamp-indexed pandas tables

    A shallow embedding of [highpycharts.py].  The builders are straight-line
    Python over three kinds of objects: pandas data frames (mutable, shared by
    reference with the caller), a chart handle of the charting library
    (mutable, created by the builder) and plain option dictionaries.

    - Objects live in a store ([world]); a builder is a computation in a small
      state-and-exception monad over that store, so that "the caller's table
      is not changed" and "nothing was attached before the exception" are
      statements about the store.
    - A table cell is a pandas [Timestamp] (nanoseconds since the epoch, as
      [datetime64[ns]] stores it) or a number.  Numbers (float64 and int64
      cells alike) are exact rationals: rounding error, NaN and infinities of
      IEEE arithmetic are outside this model.
    - The pandas and numpy operations the source calls ([copy], [reset_index],
      [.loc], [.values.tolist()], [sort_values], [groupby], ...) are given by
      executable functions on the data-frame record; matplotlib's colormaps,
      the date-string parser and the float formatter are parameters. *)

From Stdlib Require Import ZArith QArith Qround String Ascii Bool Lia Lqa.
From Stdlib Require Import DecimalString List Permutation Sorted.
Import ListNotations.
Set Warnings "-register-all".
Local Open Scope Z_scope.

(** ** Python values *)

(** A table cell. *)
Inductive cell : Type :=
| Timestamp (ns : Z)
| Num (q : Q).

(** Python's [float]: [None] stands for [nan], the mean of an empty column. *)
Definition pyfloat := option Q.

(** Values found in option dictionaries and keyword arguments. *)
Inductive pyobj : Type :=
| PStr (s : string)
| PInt (z : Z)
| PFloat (f : pyfloat)
| PBool (b : bool)
| PDict (kv : list (string * pyobj))
| PList (l : list pyobj).

Inductive exn : Type :=
| ValueError | KeyError | IndexError | TypeError | ReferenceError.

Inductive outcome (A : Type) : Type :=
| Return (a : A)
| Raise (e : exn).
Arguments Return {A} a.
Arguments Raise {A} e.

(** [class DefaultRange(IntEnum)] *)
Inductive DefaultRange : Type :=
| one_month | three_month | six_month | ytd | year | all.

(** The [range_sel] argument: a member of the enumeration or a plain int. *)
Inductive range_arg : Type :=
| Enum (d : DefaultRange)
| PlainInt (z : Z).

(** [int(range_sel)] *)
Definition int_ (r : range_arg) : Z :=
  match r with
  | Enum one_month => 0
  | Enum three_month => 1
  | Enum six_month => 2
  | Enum ytd => 3
  | Enum year => 4
  | Enum all => 5
  | PlainInt z => z
  end.

Definition dquote : string := String (ascii_of_nat 34) EmptyString.

(** [str(i)] for an int. *)
Definition str (i : Z) : string := NilZero.string_of_int (Z.to_int i).

(** [toolz.assoc]: a copy of the dictionary with [k] bound to [v]. *)
Fixpoint assoc_list (kv : list (string * pyobj)) (k : string) (v : pyobj)
  : list (string * pyobj) :=
  match kv with
  | [] => [(k, v)]
  | (k', x) :: r => if String.eqb k k' then (k', v) :: r else (k', x) :: assoc_list r k v
  end.

Definition assoc (d : pyobj) (k : string) (v : pyobj) : pyobj :=
  match d with
  | PDict kv => PDict (assoc_list kv k v)
  | _ => d
  end.

(** ** pandas data frames *)

Record DataFrame : Type := mkDF {
  index_name : option string;
  index : list cell;
  columns : list (string * list cell)
}.

Definition names (df : DataFrame) : list string := map fst (columns df).
Definition nrows (df : DataFrame) : nat := length (index df).

Definition has_column (name : string) (df : DataFrame) : bool :=
  existsb (String.eqb name) (names df).

(** [df[name] = vals]: every column called [name] takes the new values; a new
    column is appended when there is none. *)
Definition setitem (df : DataFrame) (name : string) (vals : list cell) : DataFrame :=
  mkDF (index_name df) (index df)
    (if has_column name df
     then map (fun c => if String.eqb name (fst c) then (fst c, vals) else c) (columns df)
     else columns df ++ [(name, vals)]).

(** A [RangeIndex] of [n] rows. *)
Definition range_index (n : nat) : list cell :=
  map (fun i => Num (inject_Z (Z.of_nat i))) (seq 0 n).

(** [df.reset_index(drop=True)] *)
Definition reset_index_drop (df : DataFrame) : DataFrame :=
  mkDF None (range_index (nrows df)) (columns df).

(** [df.reset_index()]: the old index becomes the first column, under the
    index's name (["index"], or ["level_0"] when that is taken, for an unnamed
    index); pandas refuses to insert a column whose name exists already. *)
Definition reset_index (df : DataFrame) : outcome DataFrame :=
  let name := match index_name df with
              | Some n => n
              | None => if has_column "index" df then "level_0"%string else "index"%string
              end in
  if has_column name df then Raise ValueError
  else Return (mkDF None (range_index (nrows df)) ((name, index df) :: columns df)).

(** Column selection by a list of labels ([df.loc[:, labels]], [df[labels]]):
    for each label all columns of that name; [None] is pandas' [KeyError]. *)
Fixpoint loc_columns (cols : list (string * list cell)) (labels : list string)
  : option (list (list cell)) :=
  match labels with
  | [] => Some []
  | l :: rest =>
      match filter (fun c => String.eqb l (fst c)) cols with
      | [] => None
      | found =>
          match loc_columns cols rest with
          | Some r => Some (map snd found ++ r)
          | None => None
          end
      end
  end.

Definition is_timestamp (c : cell) : bool :=
  match c with Timestamp _ => true | Num _ => false end.

(** What numpy's [tolist] makes of a [datetime64[ns]] entry: the integer count
    of nanoseconds. *)
Definition item (c : cell) : cell :=
  match c with Timestamp ns => Num (inject_Z ns) | Num q => Num q end.

Definition heads (cols : list (list cell)) : list cell :=
  flat_map (fun c => match c with x :: _ => [x] | [] => [] end) cols.

Fixpoint rows_of (n : nat) (cols : list (list cell)) : list (list cell) :=
  match n with
  | O => []
  | S n' => heads cols :: rows_of n' (map (@tl cell) cols)
  end.

(** [.values.tolist()] of a selection of [n] rows: the rows as lists.  When
    every selected column is a datetime column the array is a
    [datetime64[ns]] array and its entries come out as integers; in every
    other case the array has dtype object and the cells come out as they
    are. *)
Definition values_tolist (n : nat) (cols : list (list cell)) : list (list cell) :=
  let rows := rows_of n cols in
  if forallb (forallb is_timestamp) cols then map (map item) rows else rows.

(** *** Sorting and grouping (used by [boxplot]) *)

Definition cell_leb (a b : cell) : bool :=
  match a, b with
  | Num p, Num q => Qle_bool p q
  | Timestamp s, Timestamp t => s <=? t
  | Num _, Timestamp _ => true
  | Timestamp _, Num _ => false
  end.

Definition cell_eqb (a b : cell) : bool :=
  match a, b with
  | Num p, Num q => Qeq_bool p q
  | Timestamp s, Timestamp t => s =? t
  | _, _ => false
  end.

Section Sorting.
Context {A : Type} (leb : A -> A -> bool).

Fixpoint insert (x : A) (l : list A) : list A :=
  match l with
  | [] => [x]
  | y :: r => if leb x y then x :: y :: r else y :: insert x r
  end.

Fixpoint sort (l : list A) : list A :=
  match l with
  | [] => []
  | x :: r => insert x (sort r)
  end.
End Sorting.

(** The entries of [l] at the positions [order]. *)
Definition take {A : Type} (order : list nat) (l : list A) : list A :=
  flat_map (fun i => match nth_error l i with Some x => [x] | None => [] end) order.

(** The row positions of a column in ascending order of its values. *)
Definition argsort (key : list cell) : list nat :=
  map fst (sort (fun a b => cell_leb (snd a) (snd b)) (combine (seq 0 (length key)) key)).

Definition find_column (name : string) (df : DataFrame) : option (list cell) :=
  match filter (fun c => String.eqb name (fst c)) (columns df) with
  | [] => None
  | c :: _ => Some (snd c)
  end.

(** [df.sort_values(by)] *)
Definition sort_values (df : DataFrame) (by_ : string) : option DataFrame :=
  match find_column by_ df with
  | None => None
  | Some key =>
      let order := argsort key in
      Some (mkDF (index_name df) (take order (index df))
              (map (fun c => (fst c, take order (snd c))) (columns df)))
  end.

(** The numbers of a numeric column; [None] when a cell is not a number. *)
Fixpoint numbers (l : list cell) : option (list Q) :=
  match l with
  | [] => Some []
  | Num q :: r => option_map (cons q) (numbers r)
  | Timestamp _ :: _ => None
  end.

Definition Qsum (l : list Q) : Q := fold_right Qplus 0%Q l.

(** [Series.mean()] of a numeric column. *)
Definition mean_of (l : list Q) : pyfloat :=
  match l with
  | [] => None
  | _ => Some (Qsum l / inject_Z (Z.of_nat (length l)))%Q
  end.

(** Round half to even, to an integer. *)
Definition rint (x : Q) : Z :=
  let f := Qfloor x in
  match Qcompare (x - inject_Z f) (1 # 2) with
  | Lt => f
  | Gt => f + 1
  | Eq => if Z.even f then f else f + 1
  end.

(** [round(x, ndigits)] of a numpy float. *)
Definition round_ (x : pyfloat) (ndigits : Z) : pyfloat :=
  match x with
  | None => None
  | Some x =>
      if 0 <=? ndigits
      then Some (inject_Z (rint (x * inject_Z (10 ^ ndigits))) / inject_Z (10 ^ ndigits))%Q
      else Some (inject_Z (rint (x / inject_Z (10 ^ (- ndigits))) * 10 ^ (- ndigits)))
  end.

(** The distinct keys of a column, first occurrences kept. *)
Fixpoint distinct (l : list cell) : list cell :=
  match l with
  | [] => []
  | x :: r => x :: filter (fun y => negb (cell_eqb x y)) (distinct r)
  end.

(** The group keys of [groupby] (sorted, as [sort=True] is the default). *)
Definition group_keys (keys : list cell) : list cell := sort cell_leb (distinct keys).

(** The values of [vals] in the rows whose key is [k]. *)
Definition group_values (keys vals : list cell) (k : cell) : list cell :=
  map snd (filter (fun r => cell_eqb k (fst r)) (combine keys vals)).

(** The [q]-quantile of a non-empty group with linear interpolation, as
    pandas' grouped quantile computes it: position [q * (n - 1)] in the sorted
    values, its integer part the lower neighbour. *)
Definition quantile (q : Q) (xs : list Q) : Q :=
  let s := sort Qle_bool xs in
  let h := (q * inject_Z (Z.of_nat (length s) - 1))%Q in
  let i := Qfloor h in
  let frac := (h - inject_Z i)%Q in
  let lo := nth (Z.to_nat i) s 0%Q in
  if Qeq_bool frac 0 then lo
  else (lo + (nth (Z.to_nat i + 1) s 0%Q - lo) * frac)%Q.

(** [df.groupby(by).count()]: indexed by the group keys, one column of counts
    for every other column. *)
Definition groupby_count (df : DataFrame) (by_ : string) : option DataFrame :=
  match find_column by_ df with
  | None => None
  | Some keys =>
      let ks := group_keys keys in
      Some (mkDF (Some by_) ks
              (map (fun c => (fst c,
                              map (fun k => Num (inject_Z (Z.of_nat
                                     (length (group_values keys (snd c) k))))) ks))
                 (filter (fun c => negb (String.eqb by_ (fst c))) (columns df))))
  end.

Fixpoint sequence {A : Type} (l : list (option A)) : option (list A) :=
  match l with
  | [] => Some []
  | Some x :: r => option_map (cons x) (sequence r)
  | None :: _ => None
  end.

(** [df.groupby(by)[col].quantile(q)]: one value per group key, in the order
    of the keys.  [Raise KeyError] for a missing column, [Raise TypeError]
    for a column that is not numeric. *)
Definition groupby_quantile (df : DataFrame) (by_ col : string) (q : Q)
  : outcome (list cell) :=
  match find_column by_ df, find_column col df with
  | Some keys, Some vals =>
      match sequence (map (fun k => numbers (group_values keys vals k)) (group_keys keys)) with
      | Some groups => Return (map (fun g => Num (quantile q g)) groups)
      | None => Raise TypeError
      end
  | _, _ => Raise KeyError
  end.

(** ** The charting library's handle *)

Record DataSet : Type := mkDS {
  ds_data : list (list cell);
  ds_type : string;
  ds_name : string;
  ds_kwargs : list (string * pyobj)
}.

Inductive chart_kind : Type := Highstock_chart | Highchart_chart.

Record Chart : Type := mkChart {
  kind : chart_kind;
  width : Z;
  height : Z;
  data_sets : list DataSet;
  options : pyobj
}.

(** The y axis a data set is drawn on: the [yAxis] keyword, 0 without one. *)
Definition y_axis (s : DataSet) : pyobj :=
  match filter (fun kv => String.eqb "yAxis" (fst kv)) (ds_kwargs s) with
  | kv :: _ => snd kv
  | [] => PInt 0
  end.

(** ** The store and the monad *)

Definition loc := nat.

Record world : Type := mkWorld {
  frames : list DataFrame;
  charts : list Chart
}.

Fixpoint update {A : Type} (n : nat) (x : A) (l : list A) : list A :=
  match l, n with
  | [], _ => []
  | _ :: r, O => x :: r
  | y :: r, S n' => y :: update n' x r
  end.

Definition M (A : Type) : Type := world -> outcome A * world.

Definition ret {A : Type} (a : A) : M A := fun w => (Return a, w).
Definition raise {A : Type} (e : exn) : M A := fun w => (Raise e, w).
Definition bind {A B : Type} (m : M A) (k : A -> M B) : M B :=
  fun w => match m w with
           | (Return a, w') => k a w'
           | (Raise e, w') => (Raise e, w')
           end.

Notation "x <- m ;; k" := (bind m (fun x => k))
  (at level 61, m at next level, right associativity).
Notation "m ;; k" := (bind m (fun _ => k))
  (at level 61, right associativity).

Definition lift {A : Type} (o : outcome A) : M A :=
  match o with Return a => ret a | Raise e => raise e end.

Definition lift_option {A : Type} (e : exn) (o : option A) : M A :=
  match o with Some a => ret a | None => raise e end.

(** [for x in l: body] *)
Fixpoint for_each {A : Type} (l : list A) (body : A -> M unit) : M unit :=
  match l with
  | [] => ret tt
  | x :: r => body x ;; for_each r body
  end.

(** [enumerate(l)] *)
Definition enumerate {A : Type} (l : list A) : list (nat * A) :=
  combine (seq 0 (length l)) l.

(** [range(start, stop, step)] for a positive step. *)
Definition range (start stop step : Z) : list Z :=
  map (fun k => start + step * Z.of_nat k)
      (seq 0 (Z.to_nat ((stop - start + step - 1) / step))).

Definition read_frame (d : loc) : M DataFrame :=
  fun w => match nth_error (frames w) d with
           | Some df => (Return df, w)
           | None => (Raise ReferenceError, w)
           end.

Definition new_frame (df : DataFrame) : M loc :=
  fun w => (Return (length (frames w)), mkWorld (frames w ++ [df]) (charts w)).

Definition write_frame (d : loc) (df : DataFrame) : M unit :=
  fun w => (Return tt, mkWorld (update d df (frames w)) (charts w)).

Definition read_chart (h : loc) : M Chart :=
  fun w => match nth_error (charts w) h with
           | Some c => (Return c, w)
           | None => (Raise ReferenceError, w)
           end.

Definition new_chart (c : Chart) : M loc :=
  fun w => (Return (length (charts w)), mkWorld (frames w) (charts w ++ [c])).

Definition write_chart (h : loc) (c : Chart) : M unit :=
  fun w => (Return tt, mkWorld (frames w) (update h c (charts w))).

(** *** Data-frame methods on the store *)

(** [data.copy()]: a new object. *)
Definition df_copy (d : loc) : M loc :=
  df <- read_frame d ;; new_frame df.

(** [data.columns.tolist()] *)
Definition df_columns_tolist (d : loc) : M (list string) :=
  df <- read_frame d ;; ret (names df).

(** [data.index] *)
Definition df_index (d : loc) : M (list cell) :=
  df <- read_frame d ;; ret (index df).

(** [data[name] = vals]: changes the object [d] points to. *)
Definition df_setitem (d : loc) (name : string) (vals : list cell) : M unit :=
  df <- read_frame d ;; write_frame d (setitem df name vals).

(** [data.columns = labels]: changes the object; a length mismatch is a
    [ValueError]. *)
Definition df_set_columns (d : loc) (labels : list string) : M unit :=
  df <- read_frame d ;;
  if Nat.eqb (length labels) (length (columns df))
  then write_frame d (mkDF (index_name df) (index df)
                        (combine labels (map snd (columns df))))
  else raise ValueError.

(** [data.reset_index(drop=drop)]: a new object. *)
Definition df_reset_index (d : loc) (drop : bool) : M loc :=
  df <- read_frame d ;;
  if drop then new_frame (reset_index_drop df)
  else df' <- lift (reset_index df) ;; new_frame df'.

(** [data.loc[:, labels].values.tolist()] *)
Definition df_loc_values_tolist (d : loc) (labels : list string) : M (list (list cell)) :=
  df <- read_frame d ;;
  cols <- lift_option KeyError (loc_columns (columns df) labels) ;;
  ret (values_tolist (nrows df) cols).

(** [data[labels].values.tolist()] *)
Definition df_getitem_values_tolist (d : loc) (labels : list string) : M (list (list cell)) :=
  df <- read_frame d ;;
  cols <- lift_option KeyError (loc_columns (columns df) labels) ;;
  ret (values_tolist (nrows df) cols).

(** [data.sort_values(by)]: a new object. *)
Definition df_sort_values (d : loc) (by_ : string) : M loc :=
  df <- read_frame d ;;
  df' <- lift_option KeyError (sort_values df by_) ;;
  new_frame df'.

(** [data.<name>.mean()] *)
Definition df_mean (d : loc) (name : string) : M pyfloat :=
  df <- read_frame d ;;
  col <- lift_option KeyError (find_column name df) ;;
  xs <- lift_option TypeError (numbers col) ;;
  ret (mean_of xs).

(** [data.groupby(by).count()]: a new object. *)
Definition df_groupby_count (d : loc) (by_ : string) : M loc :=
  df <- read_frame d ;;
  df' <- lift_option KeyError (groupby_count df by_) ;;
  new_frame df'.

(** [data.groupby(by).<col>.quantile(q)]: a series over the group keys.  It
    is assigned to a frame that has the same keys as its index, so the
    alignment of the assignment is the identity and the series is
    represented by its values. *)
Definition df_groupby_quantile (d : loc) (by_ col : string) (q : Q) : M (list cell) :=
  df <- read_frame d ;; lift (groupby_quantile df by_ col q).

(** *** Chart methods on the store *)

Definition Highstock (width height : Z) : M loc :=
  new_chart (mkChart Highstock_chart width height [] (PDict [])).

Definition Highchart (width height : Z) : M loc :=
  new_chart (mkChart Highchart_chart width height [] (PDict [])).

(** [H.add_data_set(data, series_type, name, **kwargs)] *)
Definition add_data_set (h : loc) (data : list (list cell)) (series_type name : string)
    (kwargs : list (string * pyobj)) : M unit :=
  c <- read_chart h ;;
  write_chart h (mkChart (kind c) (width c) (height c)
                   (data_sets c ++ [mkDS data series_type name kwargs]) (options c)).

(** [H.set_dict_options(options)] *)
Definition set_dict_options (h : loc) (opts : pyobj) : M unit :=
  c <- read_chart h ;;
  write_chart h (mkChart (kind c) (width c) (height c) (data_sets c) opts).

(** ** The builders *)

(** [_CommonOptions.axisFormatDateTime] *)
Definition axisFormatDateTime : pyobj :=
  PDict [
    ("type", PStr "datetime");
    ("dateTimeLabelFormats", PDict [
       ("millisecond", PStr "%H:%M:%S.%L");
       ("second", PStr "%H:%M:%S");
       ("minute", PStr "%H:%M");
       ("hour", PStr "%H:%M");
       ("day", PStr "%e. %b");
       ("week", PStr "%e. %b");
       ("month", PStr "%b '%y");
       ("year", PStr "%Y")]);
    ("tickmarkPlacement", PStr "on");
    ("title", PDict [("enabled", PBool false)])
  ]%string.

Definition spaces (n : nat) : string := String.concat "" (repeat " "%string n).

(** The axis-label formatter of the area charts: the source's string literal,
    its line continuations keeping the indentation of the next line. *)
Definition value_formatter : string :=
  ("function () {" ++ spaces 36 ++ "return this.value ;" ++ spaces 32 ++ "}")%string.

Definition percent_formatter : string :=
  ("function () {" ++ spaces 32
   ++ "return (this.value > 0 ? ' + ' : '') + this.value + '%';" ++ spaces 28 ++ "}")%string.

Definition series_span : string :=
  ("<span style=" ++ dquote ++ "color:{series.color}" ++ dquote
   ++ ">{series.name}</span>: <b>{point.y}</b> ")%string.

Definition default_palette : list string :=
  ["#7cb5ec"; "#434348"; "#90ed7d"; "#f7a35c"; "#8085e9";
   "#f15c80"; "#e4d354"; "#2b908f"; "#f45b5b"; "#91e8e1"]%string.

(** [palette * 10] *)
Definition default_colors : list string := List.concat (repeat default_palette 10).

Section Builders.

(** [pd.Timestamp(s)]: the nanoseconds of a date string, [None] when pandas
    cannot parse it. *)
Variable pd_Timestamp : string -> option Z.

(** matplotlib: the normalizer classes ([norm(vmin=.., vmax=..)] applied to
    an index), the registered colormaps and [rgb2hex]. *)
Variable norm_class : Type.
Variable normalized : Type.
Variable rgba : Type.
Variable Normalize : norm_class.
Variable norm_call : norm_class -> Z -> Z -> Z -> normalized.
Variable get_cmap : string -> option (normalized -> rgba).
Variable rgb2hex : rgba -> string.

(** ['%s' % x] for a float. *)
Variable float_str : pyfloat -> string.

(** [cmap or 'RdYlBu'] *)
Definition cmap_or_default (cmap : option string) : string :=
  match cmap with
  | None | Some EmptyString => "RdYlBu"%string
  | Some s => s
  end.

(** [ts.asm8.astype("datetime64[ms]").astype("int64")] *)
Definition epoch_ms (ns : Z) : Z := ns / 1000000.

Definition line_chart_options (y_name title : string) (range_sel : range_arg)
    (num_decimals : Z) (legend : bool) : pyobj :=
  PDict [
    ("legend", PDict [("enabled", PBool legend)]);
    ("rangeSelector", PDict [("selected", PInt (int_ range_sel))]);
    ("title", PDict [("text", PStr title);
                     ("style", PDict [("fontSize", PStr "21px")])]);
    ("yAxis", PDict [("title", PDict [("text", PStr y_name);
                                      ("style", PDict [("fontSize", PStr "14px")])])]);
    ("tooltip", PDict [("valueDecimals", PInt num_decimals);
                       ("xDateFormat", PStr "%A, %b %d, %Y");
                       ("shared", PBool true)])
  ]%string.

Definition line_chart (data : loc) (y_name title : string) (range_sel : range_arg)
    (num_decimals : Z) (legend : bool) (figsize_x figsize_y : Z) : M loc :=
  H <- Highstock figsize_x figsize_y ;;
  data <- df_copy data ;;
  groups_name <- df_columns_tolist data ;;
  idx <- df_index data ;;
  df_setitem data "date_field" idx ;;
  data <- df_reset_index data true ;;
  for_each groups_name (fun name =>
    data1 <- df_loc_values_tolist data ["date_field"%string; name] ;;
    add_data_set H data1 "line" name []) ;;
  set_dict_options H (line_chart_options y_name title range_sel num_decimals legend) ;;
  ret H.

Definition line_customline_options (plotline_ms : Z) (y_name title : string)
    (range_sel : range_arg) (num_decimals : Z) (line_text : string) (legend : bool)
  : pyobj :=
  PDict [
    ("legend", PDict [("enabled", PBool legend)]);
    ("rangeSelector", PDict [("selected", PInt (int_ range_sel))]);
    ("title", PDict [("text", PStr title);
                     ("style", PDict [("fontSize", PStr "21px")])]);
    ("xAxis", PDict [("plotLines", PList [PDict [
                        ("value", PInt plotline_ms);
                        ("color", PStr "black");
                        ("width", PInt 2);
                        ("zIndex", PInt 4);
                        ("label", PDict [("text", PStr line_text)])]])]);
    ("yAxis", PDict [("title", PDict [("text", PStr y_name);
                                      ("style", PDict [("fontSize", PStr "14px")])])]);
    ("tooltip", PDict [("valueDecimals", PInt num_decimals);
                       ("xDateFormat", PStr "%A, %b %d, %Y");
                       ("shared", PBool true)])
  ]%string.

Definition line_customline (data : loc) (plotline_date y_name title : string)
    (range_sel : range_arg) (num_decimals : Z) (line_text : string) (legend : bool)
    (figsize_x figsize_y : Z) : M loc :=
  H <- Highstock figsize_x figsize_y ;;
  data <- df_copy data ;;
  groups_name <- df_columns_tolist data ;;
  idx <- df_index data ;;
  df_setitem data "date_field" idx ;;
  data <- df_reset_index data true ;;
  for_each groups_name (fun name =>
    data1 <- df_loc_values_tolist data ["date_field"%string; name] ;;
    add_data_set H data1 "line" name []) ;;
  ts <- lift_option ValueError (pd_Timestamp plotline_date) ;;
  set_dict_options H (line_customline_options (epoch_ms ts) y_name title range_sel
                        num_decimals line_text legend) ;;
  ret H.

(** The colour of series [i] in the two area builders. *)
Definition series_color (cmap : option string) (colormap : normalized -> rgba)
    (normInstance : Z -> normalized) (i : nat) : M string :=
  match cmap with
  | None => lift_option IndexError (nth_error default_colors i)
  | Some _ => ret (rgb2hex (colormap (normInstance (Z.of_nat i))))
  end.

Definition area_stacked_options (y_name title : string) (range_sel : range_arg)
    (num_decimals : Z) (legend : bool) : pyobj :=
  PDict [
    ("legend", PDict [("enabled", PBool legend)]);
    ("rangeSelector", PDict [("selected", PInt (int_ range_sel))]);
    ("title", PDict [("text", PStr title);
                     ("style", PDict [("fontSize", PStr "20px")])]);
    ("xAxis", axisFormatDateTime);
    ("yAxis", PDict [("title", PDict [("text", PStr y_name);
                                      ("style", PDict [("fontSize", PStr "13px")])]);
                     ("labels", PDict [("formatter", PStr value_formatter)])]);
    ("tooltip", PDict [("shared", PBool true);
                       ("xDateFormat", PStr "%A, %b %d, %Y");
                       ("valueDecimals", PInt num_decimals)]);
    ("plotOptions", PDict [("area", PDict [
                              ("stacking", PStr "normal");
                              ("connectNulls", PBool true);
                              ("lineWidth", PInt 1);
                              ("marker", PDict [("lineWidth", PInt 1)])])])
  ]%string.

Definition area_stacked (data : loc) (y_name title : string) (range_sel : range_arg)
    (num_decimals : Z) (legend : bool) (norm : option norm_class)
    (cmap : option string) (figsize_x figsize_y : Z) : M loc :=
  H <- Highstock figsize_x figsize_y ;;
  data <- df_copy data ;;
  groups_name <- df_columns_tolist data ;;
  idx <- df_index data ;;
  df_setitem data "date_field" idx ;;
  data <- df_reset_index data true ;;
  let norm := match norm with None => Normalize | Some n => n end in
  let normInstance := norm_call norm 0 (Z.of_nat (length groups_name)) in
  colormap <- lift_option ValueError (get_cmap (cmap_or_default cmap)) ;;
  for_each (enumerate groups_name) (fun '(i, name) =>
    color <- series_color cmap colormap normInstance i ;;
    data1 <- df_loc_values_tolist data ["date_field"%string; name] ;;
    add_data_set H data1 "area" name [("color"%string, PStr color)]) ;;
  set_dict_options H (area_stacked_options y_name title range_sel num_decimals legend) ;;
  ret H.

Definition area_pct_total_options (y_name title : string) (range_sel : range_arg)
    (num_decimals : Z) (legend : bool) : pyobj :=
  PDict [
    ("legend", PDict [("enabled", PBool legend)]);
    ("rangeSelector", PDict [("selected", PInt (int_ range_sel))]);
    ("title", PDict [("text", PStr title);
                     ("style", PDict [("fontSize", PStr "20px")])]);
    ("xAxis", axisFormatDateTime);
    ("yAxis", PDict [("title", PDict [("text", PStr ("Percent of " ++ y_name));
                                      ("style", PDict [("fontSize", PStr "13px")])]);
                     ("labels", PDict [("formatter", PStr value_formatter)])]);
    ("tooltip", PDict [("shared", PBool true);
                       ("pointFormat",
                        PStr (series_span ++ "({point.percentage:.2f}%)<br/>"));
                       ("valueDecimals", PInt num_decimals)]);
    ("plotOptions", PDict [("area", PDict [
                              ("stacking", PStr "percent");
                              ("connectNulls", PBool true);
                              ("lineWidth", PInt 1);
                              ("marker", PDict [("lineWidth", PInt 1)])])])
  ]%string.

Definition area_pct_total (data : loc) (y_name title : string) (range_sel : range_arg)
    (num_decimals : Z) (legend : bool) (norm : option norm_class)
    (cmap : option string) (figsize_x figsize_y : Z) : M loc :=
  H <- Highstock figsize_x figsize_y ;;
  groups_name <- df_columns_tolist data ;;
  data <- df_copy data ;;
  idx <- df_index data ;;
  df_setitem data "date_field" idx ;;
  data <- df_reset_index data true ;;
  let norm := match norm with None => Normalize | Some n => n end in
  let normInstance := norm_call norm 0 (Z.of_nat (length groups_name)) in
  colormap <- lift_option ValueError (get_cmap (cmap_or_default cmap)) ;;
  for_each (enumerate groups_name) (fun '(i, name) =>
    color <- series_color cmap colormap normInstance i ;;
    data1 <- df_loc_values_tolist data ["date_field"%string; name] ;;
    add_data_set H data1 "area" name [("color"%string, PStr color)]) ;;
  set_dict_options H (area_pct_total_options y_name title range_sel num_decimals legend) ;;
  ret H.

Definition line_secondary_y_options (secondy_axis_name y_name title : string)
    (range_sel : range_arg) (num_decimals : Z) : pyobj :=
  PDict [
    ("legend", PDict [("enabled", PBool true)]);
    ("rangeSelector", PDict [("selected", PInt (int_ range_sel))]);
    ("title", PDict [("text", PStr title);
                     ("style", PDict [("fontSize", PStr "23px")])]);
    ("yAxis", PList [
       PDict [("title", PDict [("text", PStr y_name);
                               ("style", PDict [("fontSize", PStr "14px")])])];
       PDict [("title", PDict [("text", PStr secondy_axis_name);
                               ("style", PDict [("fontSize", PStr "14px")])]);
              ("opposite", PBool false)]]);
    ("tooltip", PDict [("valueDecimals", PInt num_decimals);
                       ("xDateFormat", PStr "%A, %b %d, %Y");
                       ("shared", PBool true)])
  ]%string.

Definition line_secondary_y (data data2 : loc) (secondy_axis_name y_name title : string)
    (range_sel : range_arg) (num_decimals : Z) (figsize_x figsize_y : Z) : M loc :=
  H <- Highstock figsize_x figsize_y ;;
  data <- df_copy data ;;
  data2 <- df_copy data2 ;;
  groups_name <- df_columns_tolist data ;;
  groups_name2 <- df_columns_tolist data2 ;;
  idx <- df_index data ;;
  df_setitem data "date_field" idx ;;
  data <- df_reset_index data true ;;
  idx2 <- df_index data2 ;;
  df_setitem data2 "date_field" idx2 ;;
  data2 <- df_reset_index data2 false ;;
  for_each groups_name (fun name =>
    data1 <- df_loc_values_tolist data ["date_field"%string; name] ;;
    add_data_set H data1 "line" name []) ;;
  for_each groups_name2 (fun name =>
    data3 <- df_loc_values_tolist data2 ["date_field"%string; name] ;;
    add_data_set H data3 "line" name [("yAxis"%string, PInt 1)]) ;;
  set_dict_options H (line_secondary_y_options secondy_axis_name y_name title
                        range_sel num_decimals) ;;
  ret H.

Definition boxplot_options (mean : pyfloat) (y_name title : string) (num_decimals : Z)
    (x_name : string) : pyobj :=
  PDict [
    ("chart", PDict [("type", PStr "boxplot")]);
    ("title", PDict [("text", PStr title)]);
    ("legend", PDict [("enabled", PBool false)]);
    ("xAxis", assoc axisFormatDateTime "title" (PDict [("text", PStr x_name)]));
    ("yAxis", PDict [
       ("title", PDict [("text", PStr y_name)]);
       ("plotLines", PList [PDict [
          ("value", PFloat mean);
          ("color", PStr "red");
          ("width", PInt 1);
          ("zIndex", PInt 4);
          ("label", PDict [
             ("text", PStr ("Mean: " ++ float_str mean ++ "  "));
             ("align", PStr "right");
             ("style", PDict [
                ("color", PStr "gray");
                ("plotOptions", PDict [("series", PDict [("dataLabels", PDict [
                    ("enabled", PBool true);
                    ("crop", PBool false);
                    ("overflow", PStr "none")])])])])])]])]);
    ("tooltip", PDict [("valueDecimals", PInt num_decimals);
                       ("xDateFormat", PStr "%A, %b %d, %Y");
                       ("shared", PBool true)])
  ]%string.

Definition boxplot (data : loc) (y_name title : string) (num_decimals : Z)
    (x_name : string) (figsize_x figsize_y : Z) : M loc :=
  H <- Highchart figsize_x figsize_y ;;
  data <- df_copy data ;;
  df_set_columns data ["date_field"; "column_1"]%string ;;
  data <- df_sort_values data "column_1" ;;
  m <- df_mean data "column_1" ;;
  let mean := round_ m num_decimals in
  data_box_quant <- df_groupby_count data "date_field" ;;
  for_each (range 0 125 25) (fun i =>
    qs <- df_groupby_quantile data "date_field" "column_1" (inject_Z i / 100) ;;
    df_setitem data_box_quant ("quantile_" ++ str i) qs) ;;
  data_box_quant <- df_reset_index data_box_quant false ;;
  data_box_list <- df_getitem_values_tolist data_box_quant
                     ["date_field"; "quantile_0"; "quantile_25";
                      "quantile_50"; "quantile_75"; "quantile_100"]%string ;;
  add_data_set H data_box_list "boxplot" y_name
    [("tooltip"%string,
      PDict [("headerFormat"%string, PStr "<em>Date {point.key}</em><br/>")])] ;;
  set_dict_options H (boxplot_options mean y_name title num_decimals x_name) ;;
  ret H.

Definition line_pct_change_options (y_name title : string) (range_sel : range_arg)
    (num_decimals : Z) (legend : bool) : pyobj :=
  PDict [
    ("legend", PDict [("enabled", PBool legend)]);
    ("rangeSelector", PDict [("selected", PInt (int_ range_sel))]);
    ("title", PDict [("text", PStr title)]);
    ("yAxis", PDict [("title", PDict [("text", PStr y_name)]);
                     ("labels", PDict [("formatter", PStr percent_formatter)]);
                     ("plotLines", PList [PDict [("value", PInt 0);
                                                 ("width", PInt 2);
                                                 ("color", PStr "silver")]])]);
    ("plotOptions", PDict [("series", PDict [("compare", PStr "percent")])]);
    ("tooltip", PDict [("pointFormat", PStr (series_span ++ "({point.change}%)<br/>"));
                       ("valueDecimals", PInt num_decimals)])
  ]%string.

Definition line_pct_change (data : loc) (y_name title : string) (range_sel : range_arg)
    (num_decimals : Z) (legend : bool) (figsize_x figsize_y : Z) : M loc :=
  H <- Highstock figsize_x figsize_y ;;
  data <- df_copy data ;;
  groups_name <- df_columns_tolist data ;;
  idx <- df_index data ;;
  df_setitem data "date_field" idx ;;
  data <- df_reset_index data true ;;
  for_each groups_name (fun name =>
    data1 <- df_loc_values_tolist data ["date_field"%string; name] ;;
    add_data_set H data1 "line" name []) ;;
  set_dict_options H (line_pct_change_options y_name title range_sel num_decimals legend) ;;
  ret H.

End Builders.

(** * Vocabulary of the statements *)

(** The chart [c] with the data sets [l] attached after its own. *)
Definition attach (c : Chart) (l : list DataSet) : Chart :=
  mkChart (kind c) (width c) (height c) (data_sets c ++ l) (options c).

(** With the frames [F], [m] attaches the data set [s] to the chart [h] and
    does nothing else. *)
Definition appends (F : list DataFrame) (h : loc) (m : M unit) (s : DataSet) : Prop :=
  forall (C : list Chart) (c : Chart),
    nth_error C h = Some c ->
    m (mkWorld F C) = (Return tt, mkWorld F (update h (attach c [s]) C)).

(** With the frames [F], [m] raises [e] and changes nothing. *)
Definition fails (F : list DataFrame) (m : M unit) (e : exn) : Prop :=
  forall C : list Chart, m (mkWorld F C) = (Raise e, mkWorld F C).

(** The frame the line and area builders take their series from: the copy,
    with the index stored in the column ["date_field"] and then replaced by a
    range index. *)
Definition reshaped (df : DataFrame) : DataFrame :=
  reset_index_drop (setitem df "date_field" (index df)).

(** [data.loc[:, ('date_field', name)].values.tolist()] on a frame. *)
Definition frame_series (data : DataFrame) (name : string) : list (list cell) :=
  match loc_columns (columns data) ["date_field"%string; name] with
  | Some cols => values_tolist (nrows data) cols
  | None => []
  end.

(** The rows of the series a line or area builder makes of the column
    [name] of the table [df]. *)
Definition series_data (df : DataFrame) (name : string) : list (list cell) :=
  frame_series (reshaped df) name.

(** The data sets of a line builder, one per column name. *)
Definition line_sets (df : DataFrame) (kwargs : list (string * pyobj)) : list DataSet :=
  map (fun name => mkDS (series_data df name) "line" name kwargs) (names df).

(** The data sets of an area builder, coloured by [color]. *)
Definition area_set (df : DataFrame) (color : nat -> string) (p : nat * string) : DataSet :=
  mkDS (series_data df (snd p)) "area" (snd p) [("color"%string, PStr (color (fst p)))].

(** The rows [[x, y]] of an index paired with a column. *)
Definition pairs (idx vals : list cell) : list (list cell) :=
  map (fun p => [fst p; snd p]) (combine idx vals).

(** Every column has one value per row. *)
Definition well_formed (df : DataFrame) : Prop :=
  Forall (fun c => length (snd c) = nrows df) (columns df).

(** Every value cell is a number. *)
Definition numeric (df : DataFrame) : Prop :=
  Forall (fun c => Forall (fun x => is_timestamp x = false) (snd c)) (columns df).

(** The name and the data of each data set of a chart, in order. *)
Definition series_of (c : Chart) : list (string * list (list cell)) :=
  map (fun s => (ds_name s, ds_data s)) (data_sets c).

(** [m] returns a chart handle, and the chart and the store satisfy [P]. *)
Definition returns_chart (m : M loc) (w : world) (P : Chart -> world -> Prop) : Prop :=
  exists (h : loc) (c : Chart) (w' : world),
    m w = (Return h, w') /\ nth_error (charts w') h = Some c /\ P c w'.

(** [m] raises [e], and the chart it was building and the store satisfy [P]. *)
Definition raises_with (m : M loc) (w : world) (e : exn) (P : Chart -> world -> Prop)
  : Prop :=
  exists (c : Chart) (w' : world),
    m w = (Raise e, w') /\ nth_error (charts w') (length (charts w)) = Some c /\ P c w'.

(** The frames a line or area builder allocates: the copy (with its added
    column) and the re-indexed frame. *)
Definition working_frames (df : DataFrame) : list DataFrame :=
  [setitem df "date_field" (index df); reshaped df].

(** The colour the area builders give to series [i]. *)
Definition series_color_of {normalized rgba : Type} (rgb2hex : rgba -> string)
    (cmap : option string) (colormap : normalized -> rgba)
    (normInstance : Z -> normalized) (i : nat) : string :=
  match cmap with
  | None => nth i default_colors ""%string
  | Some _ => rgb2hex (colormap (normInstance (Z.of_nat i)))
  end.

(** How many series an area builder gets to attach to a table of [n]
    columns. *)
Definition attached_count (cmap : option string) (n : nat) : nat :=
  match cmap with
  | None => Nat.min n 100
  | Some _ => n
  end.

(** What an area builder that sets the options [opts] computes on a table
    [df], from the store with frames [F] and charts [C]. *)
Definition area_closed {norm_class normalized rgba : Type} (Normalize : norm_class)
    (norm_call : norm_class -> Z -> Z -> Z -> normalized)
    (get_cmap : string -> option (normalized -> rgba)) (rgb2hex : rgba -> string)
    (df : DataFrame) (F : list DataFrame) (C : list Chart) (norm : option norm_class)
    (cmap : option string) (figsize_x figsize_y : Z) (opts : pyobj)
  : outcome loc * world :=
  match get_cmap (cmap_or_default cmap) with
  | None =>
      (Raise ValueError,
       mkWorld (F ++ working_frames df)
         (C ++ [mkChart Highstock_chart figsize_x figsize_y [] (PDict [])]))
  | Some colormap =>
      let n := length (names df) in
      let normInstance :=
        norm_call (match norm with None => Normalize | Some n => n end) 0 (Z.of_nat n) in
      let sets := map (area_set df (series_color_of rgb2hex cmap colormap normInstance))
                    (firstn (attached_count cmap n) (enumerate (names df))) in
      if Nat.leb n (attached_count cmap n)
      then (Return (length C),
            mkWorld (F ++ working_frames df)
              (C ++ [mkChart Highstock_chart figsize_x figsize_y sets opts]))
      else (Raise IndexError,
            mkWorld (F ++ working_frames df)
              (C ++ [mkChart Highstock_chart figsize_x figsize_y sets (PDict [])]))
  end.

(** How many columns of [df] are called [name]. *)
Definition count_name (name : string) (df : DataFrame) : nat :=
  length (filter (fun c => String.eqb name (fst c)) (columns df)).

(** What [line_secondary_y] computes on the tables [df1] and [df2]. *)
Definition secondary_closed (df1 df2 : DataFrame) (F : list DataFrame) (C : list Chart)
    (figsize_x figsize_y : Z) (opts : pyobj) : outcome loc * world :=
  let a := setitem df1 "date_field" (index df1) in
  let b := setitem df2 "date_field" (index df2) in
  match reset_index b with
  | Raise e =>
      (Raise e,
       mkWorld (F ++ [a; b; reshaped df1])
         (C ++ [mkChart Highstock_chart figsize_x figsize_y [] (PDict [])]))
  | Return b' =>
      (Return (length C),
       mkWorld (F ++ [a; b; reshaped df1; b'])
         (C ++ [mkChart Highstock_chart figsize_x figsize_y
                  (line_sets df1 []
                   ++ map (fun name => mkDS (frame_series b' name) "line" name
                                         [("yAxis"%string, PInt 1)])
                        (names df2))
                  opts]))
  end.

(** The chart a builder was working on: the first chart allocated by [m]
    from the store [w], whatever the outcome. *)
Definition builds {A : Type} (m : M A) (w : world) (P : Chart -> Prop) : Prop :=
  exists c : Chart, nth_error (charts (snd (m w))) (length (charts w)) = Some c /\ P c.

(** The x components of the rows of a data set. *)
Definition x_components (s : DataSet) : list (option cell) :=
  map (@hd_error cell) (ds_data s).

(** The value under a path of keys in nested dictionaries. *)
Fixpoint get_path (p : list string) (o : pyobj) : option pyobj :=
  match p with
  | [] => Some o
  | k :: p' =>
      match o with
      | PDict kv =>
          match filter (fun e => String.eqb k (fst e)) kv with
          | e :: _ => get_path p' (snd e)
          | [] => None
          end
      | _ => None
      end
  end.

(** The dictionary with the value under a path of keys replaced by [v]. *)
Fixpoint set_path (p : list string) (v : pyobj) (o : pyobj) : pyobj :=
  match p with
  | [] => v
  | k :: p' =>
      match o with
      | PDict kv =>
          PDict (map (fun e => if String.eqb k (fst e)
                               then (fst e, set_path p' v (snd e)) else e) kv)
      | _ => o
      end
  end.



(** The store [w'] holds every frame of [w], unchanged and where it was. *)
Definition frames_unchanged (w w' : world) : Prop :=
  forall (l : loc) (df : DataFrame),
    nth_error (frames w) l = Some df -> nth_error (frames w') l = Some df.

(** [line_secondary_y]'s [reset_index()] accepts the second table. *)
Definition secondary_accepts (df : DataFrame) : Prop :=
  match reset_index (setitem df "date_field" (index df)) with
  | Return _ => True
  | Raise _ => False
  end.

(** ** Example inputs *)

Definition day (n : Z) : Z := 1600000000000000000 + n * 86400000000000.

(** Three days, columns ["A"] and ["B"], the index called ["date"]. *)
Definition table_AB : DataFrame :=
  mkDF (Some "date"%string) [Timestamp (day 0); Timestamp (day 1); Timestamp (day 2)]
    [("A"%string, [Num 1; Num (5 # 2); Num 3]);
     ("B"%string, [Num 4; Num 5; Num 6])].

(** A table that has a column ["date_field"] of its own. *)
Definition table_clash : DataFrame :=
  mkDF None [Timestamp (day 0); Timestamp (day 1)]
    [("date_field"%string, [Num 10; Num 20]);
     ("A"%string, [Num 1; Num 2])].

(** A table whose index is called ["date_field"]. *)
Definition table_index_clash : DataFrame :=
  mkDF (Some "date_field"%string) [Timestamp (day 0); Timestamp (day 1)]
    [("C"%string, [Num 7; Num 8])].

(** A table of 101 columns and no rows. *)
Definition table_101 : DataFrame :=
  mkDF None [] (map (fun i => (str (Z.of_nat i), [])) (seq 0 101)).

(** Two groups of measurements, by day. *)
Definition table_box : DataFrame :=
  mkDF None [Num 0; Num 1; Num 2; Num 3; Num 4]
    [("day"%string, [Timestamp (day 1); Timestamp (day 0); Timestamp (day 1);
                     Timestamp (day 0); Timestamp (day 1)]);
     ("value"%string, [Num 5; Num 1; Num 3; Num 2; Num 10])].

Definition store_of (tables : list DataFrame) : world := mkWorld tables [].

(** Stand-ins for the collaborators in the examples. *)
Definition any_date (s : string) : option Z := Some (day 1).
Definition any_cmap (s : string) : option (Z -> Z) := Some (fun x => x).
Definition no_norm (n : unit) (vmin vmax i : Z) : Z := i.
Definition black (c : Z) : string := "#000000"%string.
Definition nan_or_number (f : pyfloat) : string :=
  match f with None => "nan"%string | Some _ => "number"%string end.

(** The tooltip of [area_pct_total]. *)
Definition percent_tooltip (num_decimals : Z) : pyobj :=
  PDict [("shared", PBool true);
         ("pointFormat", PStr (series_span ++ "({point.percentage:.2f}%)<br/>"));
         ("valueDecimals", PInt num_decimals)]%string.

(** The options [o] with the y-axis title text, the area stacking mode and
    the tooltip replaced. *)
Definition patched (text stacking tooltip : pyobj) (o : pyobj) : pyobj :=
  set_path ["yAxis"; "title"; "text"]%string text
    (set_path ["plotOptions"; "area"; "stacking"]%string stacking
       (set_path ["tooltip"%string] tooltip o)).

(** The two y axes of [line_secondary_y]'s options. *)
Definition second_axis (opts : pyobj) : option pyobj :=
  match get_path ["yAxis"%string] opts with
  | Some (PList [_; axis]) => Some axis
  | _ => None
  end.

(** [m] leaves the first [n] frames of the store as they are, whatever its
    outcome, and a value it returns satisfies [Q]. *)
Definition keeps {A : Type} (n : nat) (m : M A) (Q : A -> Prop) : Prop :=
  forall w : world,
    (n <= length (frames w))%nat ->
    firstn n (frames (snd (m w))) = firstn n (frames w)
    /\ (n <= length (frames (snd (m w))))%nat
    /\ (forall a : A, fst (m w) = Return a -> Q a).

(** The numbers of [qs] in the rows whose key is [k]. *)
Definition group_numbers (keys : list cell) (qs : list Q) (k : cell) : list Q :=
  map snd (filter (fun r => cell_eqb k (fst r)) (combine keys qs)).

(** The row of a box-plot data set for the group of key [k]: the key and the
    five quantiles of the group. *)
Definition box_row (keys : list cell) (qs : list Q) (k : cell) : list cell :=
  k :: map (fun i => Num (quantile (inject_Z i / 100) (group_numbers keys qs k)))
         [0; 25; 50; 75; 100].

(** The rows of the box-plot data set of a table with the key column [keys]
    and the value column [qs]: the table is sorted by value, then grouped. *)
Definition box_rows (keys : list cell) (qs : list Q) : list (list cell) :=
  let order := argsort (map Num qs) in
  map (box_row (take order keys) (take order qs)) (group_keys (take order keys)).

(** The keyword arguments of the box-plot data set. *)
Definition box_kwargs : list (string * pyobj) :=
  [("tooltip"%string,
    PDict [("headerFormat"%string, PStr "<em>Date {point.key}</em><br/>")])].


(** * Vocabulary of the further properties *)

(** The store [w'] holds every chart of [w], unchanged and where it was. *)
Definition charts_unchanged (w w' : world) : Prop :=
  forall (h : loc) (c : Chart),
    nth_error (charts w) h = Some c -> nth_error (charts w') h = Some c.

(** [m] leaves the first [n] charts of the store as they are, whatever its
    outcome, and a value it returns satisfies [Q]. *)
Definition spares {A : Type} (n : nat) (m : M A) (Q : A -> Prop) : Prop :=
  forall w : world,
    (n <= length (charts w))%nat ->
    firstn n (charts (snd (m w))) = firstn n (charts w)
    /\ (n <= length (charts (snd (m w))))%nat
    /\ (forall a : A, fst (m w) = Return a -> Q a).

(** The column label under which [reset_index()] keeps the index of a
    frame: the name of the index, and ["index"] (["level_0"] when a column
    has that name) for an index without a name. *)
Definition index_label (df : DataFrame) : string :=
  match index_name df with
  | Some n => n
  | None => if has_column "index" df then "level_0"%string else "index"%string
  end.



(** The box-plot builder reads its two columns under the labels
    ["date_field"] and ["column_1"]; pandas refuses a label that names the
    index as well as a column, so the index of the table has neither name. *)
Definition unambiguous (df : DataFrame) : Prop :=
  index_name df <> Some "date_field"%string /\ index_name df <> Some "column_1"%string.

(** A table of measurements by day whose rows are not in order of day. *)
Definition table_days : DataFrame :=
  mkDF None [Num 0; Num 1; Num 2; Num 3; Num 4; Num 5]
    [("when"%string, [Timestamp (day 2); Timestamp (day 0); Timestamp (day 2);
                      Timestamp (day 1); Timestamp (day 0); Timestamp (day 2)]);
     ("what"%string, [Num 7; Num 4; Num 1; Num 9; Num 6; Num 3])].

(** [table_AB] with its second column called ["A"] as well. *)
Definition table_AA : DataFrame :=
  mkDF (Some "date"%string) (index table_AB)
    [("A"%string, [Num 1; Num (5 # 2); Num 3]);
     ("A"%string, [Num 4; Num 5; Num 6])].

(** A second table for [line_secondary_y], its index without a name. *)
Definition table_C : DataFrame :=
  mkDF None [Timestamp (day 0); Timestamp (day 1)]
    [("C"%string, [Num 7; Num 8])].

(** [table_days] with its rows in reverse order. *)
Definition table_days_reversed : DataFrame :=
  mkDF None [Num 0; Num 1; Num 2; Num 3; Num 4; Num 5]
    [("when"%string, [Timestamp (day 2); Timestamp (day 0); Timestamp (day 1);
                      Timestamp (day 2); Timestamp (day 0); Timestamp (day 2)]);
     ("what"%string, [Num 3; Num 6; Num 9; Num 1; Num 4; Num 7])].




(** A registry of colormaps that knows ["RdYlBu"] only. *)
Definition only_RdYlBu (s : string) : option (Z -> Z) :=
  if String.eqb s "RdYlBu" then Some (fun x => x) else None.

(** A family of normalizers for the examples: the class [n] scales an index
    by [n]. *)
Definition scaling (n vmin vmax i : Z) : Z := n * i.

(** The order of the group keys: before, and not equal. *)
Definition cell_lt (a b : cell) : Prop :=
  cell_leb a b = true /\ cell_eqb a b = false.

(** Two cells that hold the same value: the same timestamp, or the same
    number (a rational has more than one representation). *)
Definition same_cell (a b : cell) : Prop :=
  match a, b with
  | Timestamp s, Timestamp t => s = t
  | Num p, Num q => (p == q)%Q
  | _, _ => False
  end.


(** * Reasoning about the store *)

Section Store.
Context {A : Type}.

Lemma nth_error_snoc (l : list A) (x : A) :
  nth_error (l ++ [x]) (length l) = Some x.
Proof. induction l; simpl; auto. Qed.

Lemma nth_error_snoc2 (l : list A) (x y : A) :
  nth_error (l ++ [x; y]) (S (length l)) = Some y.
Proof. induction l; simpl; auto. Qed.

Lemma nth_error_mid (l r : list A) (x : A) :
  nth_error (l ++ x :: r) (length l) = Some x.
Proof. induction l; simpl; auto. Qed.

Lemma nth_error_app_offset (l r : list A) (k : nat) :
  nth_error (l ++ r) (length l + k) = nth_error r k.
Proof. induction l; simpl; auto. Qed.

Lemma nth_error_app_Some (l r : list A) (n : nat) (x : A) :
  nth_error l n = Some x -> nth_error (l ++ r) n = Some x.
Proof.
  revert n; induction l as [|y l IH]; intros [|n] H; simpl in *; try discriminate; auto.
Qed.

Lemma update_mid (l r : list A) (x y : A) :
  update (length l) y (l ++ x :: r) = l ++ y :: r.
Proof. induction l; simpl; congruence. Qed.

Lemma update_app_offset (l r : list A) (k : nat) (x : A) :
  update (length l + k) x (l ++ r) = l ++ update k x r.
Proof. induction l; simpl; congruence. Qed.

Lemma update_snoc (l : list A) (x y : A) :
  update (length l) y (l ++ [x]) = l ++ [y].
Proof. induction l; simpl; congruence. Qed.

Lemma update_length (n : nat) (x : A) (l : list A) :
  length (update n x l) = length l.
Proof.
  revert n; induction l as [|y l IH]; intros [|n]; simpl; auto.
Qed.

Lemma nth_error_update_eq (n : nat) (x y : A) (l : list A) :
  nth_error l n = Some y -> nth_error (update n x l) n = Some x.
Proof.
  revert n; induction l as [|z l IH]; intros [|n]; simpl; try discriminate; auto.
Qed.

Lemma update_update (n : nat) (x y : A) (l : list A) :
  update n x (update n y l) = update n x l.
Proof.
  revert n; induction l as [|z l IH]; intros [|n]; simpl; auto.
  now rewrite IH.
Qed.

Lemma firstn_update_ge (k n : nat) (x : A) (l : list A) :
  (k <= n)%nat -> firstn k (update n x l) = firstn k l.
Proof.
  revert k n; induction l as [|z l IH]; intros [|k] [|n] Hk; simpl; auto; try lia.
  f_equal. apply IH. lia.
Qed.

Lemma firstn_snoc_le (k : nat) (x : A) (l : list A) :
  (k <= length l)%nat -> firstn k (l ++ [x]) = firstn k l.
Proof.
  intros Hk. rewrite firstn_app.
  replace (k - length l)%nat with 0%nat by lia. simpl. apply app_nil_r.
Qed.
End Store.

Lemma attach_nil (c : Chart) : attach c [] = c.
Proof. destruct c; unfold attach; simpl. now rewrite app_nil_r. Qed.

Lemma attach_attach (c : Chart) (l1 l2 : list DataSet) :
  attach (attach c l1) l2 = attach c (l1 ++ l2).
Proof. unfold attach; simpl. now rewrite app_assoc. Qed.

(** *** One step of a builder *)

Lemma run_bind_ret {A B : Type} (a : A) (k : A -> M B) (w : world) :
  bind (ret a) k w = k a w.
Proof. reflexivity. Qed.

Lemma run_new_chart {B : Type} (c : Chart) (k : loc -> M B) (F : list DataFrame)
    (C : list Chart) :
  bind (new_chart c) k (mkWorld F C) = k (length C) (mkWorld F (C ++ [c])).
Proof. reflexivity. Qed.

Lemma run_df_copy {B : Type} (d : loc) (df : DataFrame) (k : loc -> M B)
    (F : list DataFrame) (C : list Chart) :
  nth_error F d = Some df ->
  bind (df_copy d) k (mkWorld F C) = k (length F) (mkWorld (F ++ [df]) C).
Proof. intros H. unfold df_copy, bind, read_frame; simpl. now rewrite H. Qed.

Lemma run_df_columns_tolist {B : Type} (d : loc) (df : DataFrame)
    (k : list string -> M B) (F : list DataFrame) (C : list Chart) :
  nth_error F d = Some df ->
  bind (df_columns_tolist d) k (mkWorld F C) = k (names df) (mkWorld F C).
Proof. intros H. unfold df_columns_tolist, bind, read_frame; simpl. now rewrite H. Qed.

Lemma run_df_index {B : Type} (d : loc) (df : DataFrame) (k : list cell -> M B)
    (F : list DataFrame) (C : list Chart) :
  nth_error F d = Some df ->
  bind (df_index d) k (mkWorld F C) = k (index df) (mkWorld F C).
Proof. intros H. unfold df_index, bind, read_frame; simpl. now rewrite H. Qed.

Lemma run_df_setitem {B : Type} (d : loc) (df : DataFrame) (name : string)
    (vals : list cell) (k : unit -> M B) (F : list DataFrame) (C : list Chart) :
  nth_error F d = Some df ->
  bind (df_setitem d name vals) k (mkWorld F C)
  = k tt (mkWorld (update d (setitem df name vals) F) C).
Proof. intros H. unfold df_setitem, bind, read_frame; simpl. now rewrite H. Qed.

Lemma run_df_reset_index_drop {B : Type} (d : loc) (df : DataFrame) (k : loc -> M B)
    (F : list DataFrame) (C : list Chart) :
  nth_error F d = Some df ->
  bind (df_reset_index d true) k (mkWorld F C)
  = k (length F) (mkWorld (F ++ [reset_index_drop df]) C).
Proof. intros H. unfold df_reset_index, bind, read_frame; simpl. now rewrite H. Qed.

Lemma run_df_reset_index {B : Type} (d : loc) (df : DataFrame) (k : loc -> M B)
    (F : list DataFrame) (C : list Chart) :
  nth_error F d = Some df ->
  bind (df_reset_index d false) k (mkWorld F C)
  = match reset_index df with
    | Return df' => k (length F) (mkWorld (F ++ [df']) C)
    | Raise e => (Raise e, mkWorld F C)
    end.
Proof.
  intros H. unfold df_reset_index, bind, read_frame; simpl. rewrite H.
  now destruct (reset_index df).
Qed.

Lemma run_set_dict_options {B : Type} (h : loc) (c : Chart) (opts : pyobj)
    (k : unit -> M B) (F : list DataFrame) (C : list Chart) :
  nth_error C h = Some c ->
  bind (set_dict_options h opts) k (mkWorld F C)
  = k tt (mkWorld F (update h (mkChart (kind c) (width c) (height c) (data_sets c) opts) C)).
Proof. intros H. unfold set_dict_options, bind, read_chart; simpl. now rewrite H. Qed.

(** *** Loops that attach one data set per iteration *)

Lemma for_each_appends {A : Type} (F : list DataFrame) (h : loc) (body : A -> M unit)
    (g : A -> DataSet) (xs : list A) :
  (forall x, In x xs -> appends F h (body x) (g x)) ->
  forall (C : list Chart) (c : Chart),
    nth_error C h = Some c ->
    for_each xs body (mkWorld F C)
    = (Return tt, mkWorld F (update h (attach c (map g xs)) C)).
Proof.
  induction xs as [|x xs IH]; intros Hb C c Hc; simpl.
  - rewrite attach_nil. unfold ret. do 2 f_equal.
    clear - Hc. revert h Hc; induction C as [|z C IHC]; intros [|h] Hc;
      simpl in *; try discriminate; [congruence | f_equal; auto].
  - unfold bind. rewrite (Hb x (or_introl eq_refl) C c Hc).
    rewrite (IH (fun y Hy => Hb y (or_intror Hy)) _ (attach c [g x])).
    + now rewrite update_update, attach_attach.
    + eapply nth_error_update_eq; eauto.
Qed.

Lemma for_each_fails {A : Type} (F : list DataFrame) (h : loc) (body : A -> M unit)
    (g : A -> DataSet) (pre : list A) (x : A) (post : list A) (e : exn) :
  (forall y, In y pre -> appends F h (body y) (g y)) ->
  fails F (body x) e ->
  forall (C : list Chart) (c : Chart),
    nth_error C h = Some c ->
    for_each (pre ++ x :: post) body (mkWorld F C)
    = (Raise e, mkWorld F (update h (attach c (map g pre)) C)).
Proof.
  induction pre as [|y pre IH]; intros Hb Hx C c Hc; simpl.
  - unfold bind. rewrite Hx. rewrite attach_nil. do 2 f_equal.
    clear - Hc. revert h Hc; induction C as [|z C IHC]; intros [|h] Hc;
      simpl in *; try discriminate; [congruence | f_equal; auto].
  - unfold bind. rewrite (Hb y (or_introl eq_refl) C c Hc).
    rewrite (IH (fun z Hz => Hb z (or_intror Hz)) Hx _ (attach c [g y])).
    + now rewrite update_update, attach_attach.
    + eapply nth_error_update_eq; eauto.
Qed.

Lemma run_for_each_appends {A B : Type} (F : list DataFrame) (h : loc)
    (body : A -> M unit) (g : A -> DataSet) (xs : list A) (k : unit -> M B)
    (C : list Chart) (c : Chart) :
  (forall x, In x xs -> appends F h (body x) (g x)) ->
  nth_error C h = Some c ->
  bind (for_each xs body) k (mkWorld F C)
  = k tt (mkWorld F (update h (attach c (map g xs)) C)).
Proof.
  intros Hb Hc. unfold bind at 1. now rewrite (for_each_appends F h body g xs Hb C c Hc).
Qed.

Lemma run_for_each_fails {A B : Type} (F : list DataFrame) (h : loc)
    (body : A -> M unit) (g : A -> DataSet) (pre : list A) (x : A) (post : list A)
    (e : exn) (k : unit -> M B) (C : list Chart) (c : Chart) :
  (forall y, In y pre -> appends F h (body y) (g y)) ->
  fails F (body x) e ->
  nth_error C h = Some c ->
  bind (for_each (pre ++ x :: post) body) k (mkWorld F C)
  = (Raise e, mkWorld F (update h (attach c (map g pre)) C)).
Proof.
  intros Hb Hx Hc. unfold bind at 1.
  now rewrite (for_each_fails F h body g pre x post e Hb Hx C c Hc).
Qed.

(** * The reshape step *)

Lemma filter_name_nonempty (name : string) (cols : list (string * list cell)) :
  In name (map fst cols) ->
  filter (fun c => String.eqb name (fst c)) cols <> [].
Proof.
  induction cols as [|c cols IH]; simpl; intros H; [contradiction|].
  destruct (String.eqb_spec name (fst c)) as [E|E]; [discriminate|].
  destruct H as [H|H]; [congruence | auto].
Qed.

Lemma filter_name_absent (name : string) (cols : list (string * list cell)) :
  ~ In name (map fst cols) ->
  filter (fun c => String.eqb name (fst c)) cols = [].
Proof.
  induction cols as [|c cols IH]; simpl; intros H; [reflexivity|].
  destruct (String.eqb_spec name (fst c)) as [E|E].
  - exfalso. apply H. left. congruence.
  - apply IH. tauto.
Qed.

Lemma filter_name_unique (name : string) (vals : list cell)
    (cols : list (string * list cell)) :
  NoDup (map fst cols) -> In (name, vals) cols ->
  filter (fun c => String.eqb name (fst c)) cols = [(name, vals)].
Proof.
  induction cols as [|c cols IH]; simpl; intros Hnd Hin; [contradiction|].
  inversion Hnd as [|? ? Hc Hnd']; subst.
  destruct Hin as [Hin|Hin].
  - subst c; simpl. rewrite String.eqb_refl. f_equal.
    now apply filter_name_absent.
  - destruct (String.eqb_spec name (fst c)) as [E|E].
    + exfalso. apply Hc. rewrite <- E. now apply (in_map fst _ (name, vals)).
    + now apply IH.
Qed.

Lemma has_column_true (name : string) (df : DataFrame) :
  has_column name df = true <-> In name (names df).
Proof.
  unfold has_column. rewrite existsb_exists. split.
  - intros (x & Hx & E). apply String.eqb_eq in E. now subst.
  - intros H. exists name. split; [assumption | apply String.eqb_refl].
Qed.

Lemma has_column_false (name : string) (df : DataFrame) :
  has_column name df = false <-> ~ In name (names df).
Proof.
  rewrite <- has_column_true. destruct (has_column name df); split; intros; congruence.
Qed.

Lemma names_setitem (df : DataFrame) (name : string) (vals : list cell) (x : string) :
  In x (names df) -> In x (names (setitem df name vals)).
Proof.
  unfold names, setitem; simpl. intros H.
  destruct (has_column name df).
  - rewrite map_map. apply in_map_iff in H as (c & <- & Hc).
    apply in_map_iff. exists c. split; [|assumption].
    now destruct (String.eqb name (fst c)).
  - rewrite map_app. apply in_or_app. now left.
Qed.

Lemma date_field_in_setitem (df : DataFrame) (vals : list cell) :
  In "date_field"%string (names (setitem df "date_field" vals)).
Proof.
  destruct (has_column "date_field" df) eqn:E.
  - apply names_setitem. now apply has_column_true.
  - unfold names, setitem; simpl. rewrite E, map_app. apply in_or_app. right. now left.
Qed.

Lemma nrows_reshaped (df : DataFrame) : nrows (reshaped df) = nrows df.
Proof.
  unfold reshaped, reset_index_drop, nrows, range_index; simpl.
  now rewrite length_map, length_seq.
Qed.

Lemma loc_columns_cons (cols : list (string * list cell)) (l : string)
    (rest : list string) :
  filter (fun c => String.eqb l (fst c)) cols <> [] ->
  loc_columns cols (l :: rest)
  = match loc_columns cols rest with
    | Some r => Some (map snd (filter (fun c => String.eqb l (fst c)) cols) ++ r)
    | None => None
    end.
Proof.
  intros H. cbn [loc_columns].
  destruct (filter (fun c => String.eqb l (fst c)) cols); [congruence | reflexivity].
Qed.

(** One iteration of the loop of the line and area builders, on a frame
    that has both columns. *)
Lemma frame_body_appends (F : list DataFrame) (h d : loc) (data : DataFrame)
    (name ty : string) (kw : list (string * pyobj)) :
  nth_error F d = Some data ->
  In "date_field"%string (names data) ->
  In name (names data) ->
  appends F h
    (data1 <- df_loc_values_tolist d ["date_field"%string; name] ;;
     add_data_set h data1 ty name kw)
    (mkDS (frame_series data name) ty name kw).
Proof.
  intros Hd Hdf Hn C c Hc.
  assert (Hcols : exists cols,
             loc_columns (columns data) ["date_field"%string; name] = Some cols).
  { rewrite !loc_columns_cons by now apply filter_name_nonempty. simpl. eauto. }
  destruct Hcols as (cols & Hcols).
  unfold frame_series. rewrite Hcols.
  unfold bind, df_loc_values_tolist, bind, read_frame; simpl frames. rewrite Hd.
  rewrite Hcols. simpl.
  unfold add_data_set, bind, read_chart; simpl. now rewrite Hc.
Qed.

Lemma reshape_body_appends (F : list DataFrame) (h d : loc) (df : DataFrame)
    (name ty : string) (kw : list (string * pyobj)) :
  nth_error F d = Some (reshaped df) ->
  In name (names df) ->
  appends F h
    (data1 <- df_loc_values_tolist d ["date_field"%string; name] ;;
     add_data_set h data1 ty name kw)
    (mkDS (series_data df name) ty name kw).
Proof.
  intros Hd Hn. apply frame_body_appends; [assumption | |].
  - apply date_field_in_setitem.
  - now apply names_setitem.
Qed.

(** * The builders in closed form *)

Ltac lookup :=
  solve [ eassumption
        | apply nth_error_mid
        | rewrite nth_error_app_offset; reflexivity
        | apply nth_error_app_Some; eassumption ].

Ltac norm_store :=
  rewrite <- ?app_assoc; cbn [app]; rewrite ?length_app; cbn [length].

Ltac run_prelude df Hd :=
  unfold Highstock; rewrite run_new_chart;
  rewrite (run_df_copy _ df) by exact Hd;
  rewrite (run_df_columns_tolist _ df) by apply nth_error_snoc;
  rewrite (run_df_index _ df) by apply nth_error_snoc;
  rewrite (run_df_setitem _ df) by apply nth_error_snoc;
  rewrite update_snoc;
  rewrite (run_df_reset_index_drop _ (setitem df "date_field" (index df)))
    by apply nth_error_snoc.

Ltac run_line_loop df C c kw :=
  rewrite (run_for_each_appends _ (length C) _
             (fun name => mkDS (series_data df name) "line" name kw) _ _ _ c);
  [ rewrite update_snoc
  | intros x Hx; apply reshape_body_appends;
    [first [apply nth_error_snoc | lookup] | exact Hx]
  | apply nth_error_snoc ].

Ltac run_options :=
  erewrite run_set_dict_options by apply nth_error_snoc;
  rewrite update_snoc; unfold ret.

Lemma line_chart_run (d : loc) (df : DataFrame) (F : list DataFrame) (C : list Chart)
    (y_name title : string) (range_sel : range_arg) (num_decimals : Z) (legend : bool)
    (figsize_x figsize_y : Z) :
  nth_error F d = Some df ->
  line_chart d y_name title range_sel num_decimals legend figsize_x figsize_y
    (mkWorld F C)
  = (Return (length C),
     mkWorld (F ++ working_frames df)
       (C ++ [mkChart Highstock_chart figsize_x figsize_y (line_sets df [])
                (line_chart_options y_name title range_sel num_decimals legend)])).
Proof.
  intros Hd. unfold line_chart. run_prelude df Hd.
  run_line_loop df C (mkChart Highstock_chart figsize_x figsize_y [] (PDict []))
    (@nil (string * pyobj)).
  run_options. unfold working_frames. now rewrite <- app_assoc.
Qed.

Lemma line_pct_change_run (d : loc) (df : DataFrame) (F : list DataFrame)
    (C : list Chart) (y_name title : string) (range_sel : range_arg) (num_decimals : Z)
    (legend : bool) (figsize_x figsize_y : Z) :
  nth_error F d = Some df ->
  line_pct_change d y_name title range_sel num_decimals legend figsize_x figsize_y
    (mkWorld F C)
  = (Return (length C),
     mkWorld (F ++ working_frames df)
       (C ++ [mkChart Highstock_chart figsize_x figsize_y (line_sets df [])
                (line_pct_change_options y_name title range_sel num_decimals legend)])).
Proof.
  intros Hd. unfold line_pct_change. run_prelude df Hd.
  run_line_loop df C (mkChart Highstock_chart figsize_x figsize_y [] (PDict []))
    (@nil (string * pyobj)).
  run_options. unfold working_frames. now rewrite <- app_assoc.
Qed.


Lemma default_colors_length : length default_colors = 100%nat.
Proof. reflexivity. Qed.

Lemma in_firstn_enumerate {A : Type} (l : list A) (k s : nat) (p : nat * A) :
  In p (firstn k (combine (seq s (length l)) l)) ->
  (fst p < s + k)%nat /\ In (snd p) l.
Proof.
  revert k s; induction l as [|x l IH]; intros k s H.
  - simpl in H. rewrite firstn_nil in H. contradiction.
  - destruct k as [|k]; [contradiction|]. simpl in H. destruct H as [H|H].
    + subst p; simpl. split; [lia | now left].
    + apply IH in H. simpl. split; [lia | tauto].
Qed.

Lemma skipn_enumerate {A : Type} (l : list A) (k s : nat) :
  (k < length l)%nat ->
  exists (x : A) (post : list (nat * A)),
    skipn k (combine (seq s (length l)) l) = ((s + k)%nat, x) :: post.
Proof.
  revert k s; induction l as [|x l IH]; intros k s H; simpl in H; [lia|].
  destruct k as [|k]; simpl.
  - exists x, (combine (seq (S s) (length l)) l). now rewrite Nat.add_0_r.
  - destruct (IH k (S s)) as (y & post & E); [lia|].
    exists y, post. rewrite E. f_equal. f_equal. lia.
Qed.

Section AreaLoop.
Variables normalized rgba : Type.
Variable rgb2hex : rgba -> string.
Variable colormap : normalized -> rgba.
Variable normInstance : Z -> normalized.

Lemma area_body_appends (F : list DataFrame) (h d : loc) (df : DataFrame)
    (cmap : option string) (i : nat) (name : string) :
  nth_error F d = Some (reshaped df) ->
  In name (names df) ->
  (cmap = None -> (i < 100)%nat) ->
  appends F h
    (color <- series_color normalized rgba rgb2hex cmap colormap normInstance i ;;
     data1 <- df_loc_values_tolist d ["date_field"%string; name] ;;
     add_data_set h data1 "area" name [("color"%string, PStr color)])
    (area_set df (series_color_of rgb2hex cmap colormap normInstance) (i, name)).
Proof.
  intros Hd Hn Hi C c Hc. unfold area_set; simpl fst; simpl snd.
  unfold series_color, series_color_of. destruct cmap as [s|].
  - rewrite run_bind_ret.
    now apply (reshape_body_appends F h d df name "area" _ Hd Hn C c Hc).
  - rewrite (nth_error_nth' default_colors ""%string)
      by (rewrite default_colors_length; auto).
    simpl lift_option. rewrite run_bind_ret.
    now apply (reshape_body_appends F h d df name "area" _ Hd Hn C c Hc).
Qed.

Lemma area_body_fails (F : list DataFrame) (h d : loc) (i : nat) (name : string) :
  (100 <= i)%nat ->
  fails F
    (color <- series_color normalized rgba rgb2hex None colormap normInstance i ;;
     data1 <- df_loc_values_tolist d ["date_field"%string; name] ;;
     add_data_set h data1 "area" name [("color"%string, PStr color)])
    IndexError.
Proof.
  intros Hi C. unfold series_color.
  assert (E : nth_error default_colors i = None)
    by (apply nth_error_None; now rewrite default_colors_length).
  unfold bind. now rewrite E.
Qed.

(** The loop of the area builders on the reshaped frame. *)
Lemma area_loop_run {B : Type} (F : list DataFrame) (d : loc) (df : DataFrame)
    (cmap : option string) (k : unit -> M B) (C : list Chart) (c : Chart) :
  nth_error F d = Some (reshaped df) ->
  let body := fun '(i, name) =>
    color <- series_color normalized rgba rgb2hex cmap colormap normInstance i ;;
    data1 <- df_loc_values_tolist d ["date_field"%string; name] ;;
    add_data_set (length C) data1 "area" name [("color"%string, PStr color)] in
  let sets := map (area_set df (series_color_of rgb2hex cmap colormap normInstance))
                (firstn (attached_count cmap (length (names df)))
                   (enumerate (names df))) in
  bind (for_each (enumerate (names df)) body) k (mkWorld F (C ++ [c]))
  = if Nat.leb (length (names df)) (attached_count cmap (length (names df)))
    then k tt (mkWorld F (C ++ [attach c sets]))
    else (Raise IndexError, mkWorld F (C ++ [attach c sets])).
Proof.
  intros Hd body sets.
  assert (Hpre : forall p,
             In p (firstn (attached_count cmap (length (names df)))
                     (enumerate (names df))) ->
             appends F (length C) (body p)
               (area_set df (series_color_of rgb2hex cmap colormap normInstance) p)).
  { intros [i name] Hp. apply area_body_appends; [assumption | |].
    - apply in_firstn_enumerate in Hp. tauto.
    - intros ->. apply in_firstn_enumerate in Hp. simpl in Hp. lia. }
  destruct (Nat.leb_spec (length (names df))
              (attached_count cmap (length (names df)))) as [Hle|Hlt].
  - assert (E : firstn (attached_count cmap (length (names df)))
                  (enumerate (names df)) = enumerate (names df)).
    { apply firstn_all2. unfold enumerate.
      rewrite length_combine, length_seq. lia. }
    subst sets. rewrite E in *.
    rewrite (run_for_each_appends F (length C) body _ _ k _ c Hpre)
      by apply nth_error_snoc.
    now rewrite update_snoc.
  - destruct cmap as [s|]; simpl in Hlt; [lia|].
    assert (H100 : (100 < length (names df))%nat) by lia.
    subst sets.
    replace (attached_count None (length (names df))) with 100%nat in *
      by (simpl; lia).
    destruct (skipn_enumerate (names df) 100 0 H100) as (x & post & E).
    rewrite <- (firstn_skipn 100 (enumerate (names df))) at 1.
    unfold enumerate at 2. rewrite E.
    rewrite (run_for_each_fails F (length C) body _ _ _ post IndexError k _ c Hpre)
      ; [now rewrite update_snoc | | apply nth_error_snoc].
    apply area_body_fails. lia.
Qed.
End AreaLoop.

Section AreaBuilders.
Variables norm_class normalized rgba : Type.
Variable Normalize : norm_class.
Variable norm_call : norm_class -> Z -> Z -> Z -> normalized.
Variable get_cmap : string -> option (normalized -> rgba).
Variable rgb2hex : rgba -> string.

Lemma area_stacked_run (d : loc) (df : DataFrame) (F : list DataFrame)
    (C : list Chart) (y_name title : string) (range_sel : range_arg)
    (num_decimals : Z) (legend : bool) (norm : option norm_class)
    (cmap : option string) (figsize_x figsize_y : Z) :
  nth_error F d = Some df ->
  area_stacked norm_class normalized rgba Normalize norm_call get_cmap rgb2hex
    d y_name title range_sel num_decimals legend norm cmap figsize_x figsize_y
    (mkWorld F C)
  = area_closed Normalize norm_call get_cmap rgb2hex df F C norm cmap
      figsize_x figsize_y
      (area_stacked_options y_name title range_sel num_decimals legend).
Proof.
  intros Hd. unfold area_stacked, area_closed. run_prelude df Hd.
  unfold working_frames. rewrite <- !app_assoc. simpl app.
  destruct (get_cmap (cmap_or_default cmap)) as [cm|]; simpl lift_option;
    [|reflexivity].
  rewrite run_bind_ret.
  replace (length (F ++ [setitem df "date_field" (index df)]))
    with (S (length F)) by (rewrite length_app; simpl; lia).
  rewrite (area_loop_run normalized rgba rgb2hex cm _ _ (S (length F)) df).
  - destruct (Nat.leb _ _); [|reflexivity].
    unfold attach; simpl. run_options. reflexivity.
  - apply nth_error_snoc2.
Qed.

Lemma area_pct_total_run (d : loc) (df : DataFrame) (F : list DataFrame)
    (C : list Chart) (y_name title : string) (range_sel : range_arg)
    (num_decimals : Z) (legend : bool) (norm : option norm_class)
    (cmap : option string) (figsize_x figsize_y : Z) :
  nth_error F d = Some df ->
  area_pct_total norm_class normalized rgba Normalize norm_call get_cmap rgb2hex
    d y_name title range_sel num_decimals legend norm cmap figsize_x figsize_y
    (mkWorld F C)
  = area_closed Normalize norm_call get_cmap rgb2hex df F C norm cmap
      figsize_x figsize_y
      (area_pct_total_options y_name title range_sel num_decimals legend).
Proof.
  intros Hd. unfold area_pct_total, area_closed.
  unfold Highstock; rewrite run_new_chart.
  rewrite (run_df_columns_tolist _ df) by exact Hd.
  rewrite (run_df_copy _ df) by exact Hd.
  rewrite (run_df_index _ df) by apply nth_error_snoc.
  rewrite (run_df_setitem _ df) by apply nth_error_snoc.
  rewrite update_snoc.
  rewrite (run_df_reset_index_drop _ (setitem df "date_field" (index df)))
    by apply nth_error_snoc.
  unfold working_frames. rewrite <- !app_assoc. simpl app.
  destruct (get_cmap (cmap_or_default cmap)) as [cm|]; simpl lift_option;
    [|reflexivity].
  rewrite run_bind_ret.
  replace (length (F ++ [setitem df "date_field" (index df)]))
    with (S (length F)) by (rewrite length_app; simpl; lia).
  rewrite (area_loop_run normalized rgba rgb2hex cm _ _ (S (length F)) df).
  - destruct (Nat.leb _ _); [|reflexivity].
    unfold attach; simpl. run_options. reflexivity.
  - apply nth_error_snoc2.
Qed.
End AreaBuilders.

(** * What the reshape step produces *)

Lemma rows_of_pairs (idx vals : list cell) :
  length vals = length idx ->
  rows_of (length idx) [idx; vals] = pairs idx vals.
Proof.
  revert vals; induction idx as [|x idx IH]; intros [|v vals] H; simpl in H;
    try discriminate; [reflexivity|].
  unfold pairs; simpl. f_equal. apply IH. congruence.
Qed.

Lemma values_tolist_numeric (idx vals : list cell) :
  length vals = length idx ->
  Forall (fun x => is_timestamp x = false) vals ->
  values_tolist (length idx) [idx; vals] = pairs idx vals.
Proof.
  intros Hlen Hnum. unfold values_tolist. rewrite rows_of_pairs by assumption.
  destruct vals as [|v vals].
  - destruct idx; [|discriminate]. now destruct (forallb _ _).
  - inversion Hnum as [|? ? Hv _]; subst. simpl. rewrite Hv. simpl.
    now rewrite andb_false_r.
Qed.






(** A table without a column ["date_field"]: the reshaped frame is the table
    with the index appended as that column. *)
Lemma columns_reshaped_fresh (df : DataFrame) :
  ~ In "date_field"%string (names df) ->
  columns (reshaped df) = columns df ++ [("date_field"%string, index df)].
Proof.
  intros H. unfold reshaped, reset_index_drop, setitem; simpl.
  apply has_column_false in H. now rewrite H.
Qed.


Lemma series_data_lossless (df : DataFrame) (name : string) (vals : list cell) :
  well_formed df -> numeric df -> NoDup (names df) ->
  ~ In "date_field"%string (names df) ->
  In (name, vals) (columns df) ->
  series_data df name = pairs (index df) vals.
Proof.
  intros Hwf Hnum Hnd Hdf Hin.
  assert (Hname : name <> "date_field"%string).
  { intros ->. apply Hdf. now apply (in_map fst _ ("date_field"%string, vals)). }
  unfold series_data, frame_series.
  rewrite nrows_reshaped, columns_reshaped_fresh by assumption.
  cbn [loc_columns]. rewrite !filter_app.
  rewrite (filter_name_absent "date_field" (columns df)) by assumption.
  rewrite (filter_name_unique name vals (columns df)) by assumption.
  cbn [filter fst]. rewrite String.eqb_refl.
  destruct (String.eqb_spec name "date_field") as [E|_]; [contradiction|].
  cbn [app map snd]. unfold well_formed, numeric in *. rewrite Forall_forall in Hwf, Hnum.
  apply values_tolist_numeric.
  - apply (Hwf _ Hin).
  - apply (Hnum _ Hin).
Qed.



Lemma names_reset_index (df df' : DataFrame) (name : string) :
  reset_index df = Return df' -> In name (names df) -> In name (names df').
Proof.
  unfold reset_index. destruct (has_column _ df); intros H; inversion H; subst.
  unfold names; simpl. auto.
Qed.

Lemma line_secondary_y_run (d1 d2 : loc) (df1 df2 : DataFrame) (F : list DataFrame)
    (C : list Chart) (secondy_axis_name y_name title : string) (range_sel : range_arg)
    (num_decimals : Z) (figsize_x figsize_y : Z) :
  nth_error F d1 = Some df1 ->
  nth_error F d2 = Some df2 ->
  line_secondary_y d1 d2 secondy_axis_name y_name title range_sel num_decimals
    figsize_x figsize_y (mkWorld F C)
  = secondary_closed df1 df2 F C figsize_x figsize_y
      (line_secondary_y_options secondy_axis_name y_name title range_sel num_decimals).
Proof.
  intros H1 H2. unfold line_secondary_y, secondary_closed, Highstock.
  rewrite run_new_chart.
  rewrite (run_df_copy _ df1) by lookup.
  rewrite (run_df_copy _ df2) by lookup. norm_store.
  rewrite (run_df_columns_tolist _ df1) by lookup.
  rewrite (run_df_columns_tolist _ df2) by lookup.
  rewrite (run_df_index _ df1) by lookup.
  rewrite (run_df_setitem _ df1) by lookup.
  rewrite update_mid.
  rewrite (run_df_reset_index_drop _ (setitem df1 "date_field" (index df1))) by lookup.
  norm_store.
  rewrite (run_df_index _ df2) by lookup.
  rewrite (run_df_setitem _ df2) by lookup.
  rewrite update_app_offset. cbn [update].
  rewrite (run_df_reset_index _ (setitem df2 "date_field" (index df2))) by lookup.
  destruct (reset_index (setitem df2 "date_field" (index df2))) as [b'|e] eqn:Hb;
    [|reflexivity].
  norm_store.
  run_line_loop df1 C (mkChart Highstock_chart figsize_x figsize_y [] (PDict []))
    (@nil (string * pyobj)).
  rewrite (run_for_each_appends _ (length C) _
             (fun name => mkDS (frame_series b' name) "line" name
                            [("yAxis"%string, PInt 1)]) _ _ _
             (attach (mkChart Highstock_chart figsize_x figsize_y [] (PDict []))
                (map (fun name => mkDS (series_data df1 name) "line" name [])
                   (names df1)))).
  - rewrite update_snoc. run_options. reflexivity.
  - intros x Hx. apply frame_body_appends.
    + lookup.
    + eapply names_reset_index; [eassumption | apply date_field_in_setitem].
    + eapply names_reset_index; [eassumption | now apply names_setitem].
  - apply nth_error_snoc.
Qed.

(** * Series and columns *)

Lemma map_snd_enumerate {A : Type} (l : list A) : map snd (enumerate l) = l.
Proof.
  unfold enumerate. generalize 0%nat.
  induction l as [|x l IH]; intros s; simpl; [reflexivity|]. now rewrite IH.
Qed.

Lemma series_of_line_sets (df : DataFrame) (kw : list (string * pyobj)) :
  map (fun s => (ds_name s, ds_data s)) (line_sets df kw)
  = map (fun name => (name, series_data df name)) (names df).
Proof. unfold line_sets. now rewrite map_map. Qed.


Lemma series_lossless (df : DataFrame) :
  well_formed df -> numeric df -> NoDup (names df) ->
  ~ In "date_field"%string (names df) ->
  map (fun name => (name, series_data df name)) (names df)
  = map (fun c => (fst c, pairs (index df) (snd c))) (columns df).
Proof.
  intros Hwf Hnum Hnd Hdf. unfold names. rewrite map_map.
  apply map_ext_in. intros [name vals] Hin. simpl. f_equal.
  now apply series_data_lossless.
Qed.





(** The frame [line_secondary_y] reads the second table's series from, when
    [reset_index()] accepts it: the index, under a name no column has,
    before the columns and the ["date_field"] column. *)
Lemma reset_index_fresh (df b' : DataFrame) :
  ~ In "date_field"%string (names df) ->
  reset_index (setitem df "date_field" (index df)) = Return b' ->
  exists iname : string,
    ~ In iname (names df) /\ iname <> "date_field"%string
    /\ nrows b' = nrows df
    /\ columns b' = (iname, index df) :: columns df ++ [("date_field"%string, index df)].
Proof.
  intros Hdf. unfold reset_index.
  set (iname := match index_name (setitem df "date_field" (index df)) with
                | Some n => n
                | None => if has_column "index" (setitem df "date_field" (index df))
                          then "level_0"%string else "index"%string
                end).
  destruct (has_column iname (setitem df "date_field" (index df))) eqn:E;
    intros H; [discriminate|].
  apply (f_equal (fun o => match o with Return x => x | Raise _ => b' end)) in H.
  cbv beta iota in H. subst b'.
  exists iname. apply has_column_false in E.
  assert (Hcols : columns (setitem df "date_field" (index df))
                  = columns df ++ [("date_field"%string, index df)]).
  { unfold setitem; simpl. apply has_column_false in Hdf. now rewrite Hdf. }
  unfold names in E. rewrite Hcols, map_app in E. simpl in E.
  repeat split.
  - intros Hin. apply E. apply in_or_app. now left.
  - intros ->. apply E. apply in_or_app. right. now left.
  - unfold nrows, range_index; simpl. now rewrite length_map, length_seq.
  - rewrite <- Hcols. reflexivity.
Qed.

Lemma secondary_series_lossless (df b' : DataFrame) (name : string) (vals : list cell) :
  well_formed df -> numeric df -> NoDup (names df) ->
  ~ In "date_field"%string (names df) ->
  reset_index (setitem df "date_field" (index df)) = Return b' ->
  In (name, vals) (columns df) ->
  frame_series b' name = pairs (index df) vals.
Proof.
  intros Hwf Hnum Hnd Hdf Hb Hin.
  destruct (reset_index_fresh df b' Hdf Hb) as (iname & Hi & Hi' & Hn & Hcols).
  assert (Hname : name <> "date_field"%string).
  { intros ->. apply Hdf. now apply (in_map fst _ ("date_field"%string, vals)). }
  assert (Hname' : name <> iname).
  { intros ->. apply Hi. now apply (in_map fst _ (iname, vals)). }
  unfold frame_series. rewrite Hn, Hcols. cbn [loc_columns filter fst].
  destruct (String.eqb_spec "date_field" iname) as [E|_]; [congruence|].
  destruct (String.eqb_spec name iname) as [E|_]; [congruence|].
  rewrite !filter_app.
  rewrite (filter_name_absent "date_field" (columns df)) by assumption.
  rewrite (filter_name_unique name vals (columns df)) by assumption.
  cbn [filter fst]. rewrite String.eqb_refl.
  destruct (String.eqb_spec name "date_field") as [E|_]; [contradiction|].
  cbn [app map snd]. unfold well_formed, numeric in *.
  rewrite Forall_forall in Hwf, Hnum.
  apply values_tolist_numeric; [apply (Hwf _ Hin) | apply (Hnum _ Hin)].
Qed.

Ltac finish_returns :=
  unfold returns_chart; eexists _, _, _;
  split; [reflexivity|]; split; [apply nth_error_snoc|].





Lemma area_options_patched (y_name title : string) (range_sel : range_arg)
    (num_decimals : Z) (legend : bool) :
  area_pct_total_options y_name title range_sel num_decimals legend
  = patched (PStr ("Percent of " ++ y_name)) (PStr "percent")
      (percent_tooltip num_decimals)
      (area_stacked_options y_name title range_sel num_decimals legend).
Proof. reflexivity. Qed.

(** What C7 says, for the second tables that [reset_index()] accepts: the
    first table's series on y axis 0, the second table's on y axis 1, and
    the second axis with [opposite] set to [False]. *)
Lemma line_secondary_y_axes (w : world) (d1 d2 : loc) (df1 df2 : DataFrame)
    (secondy_axis_name y_name title : string) (range_sel : range_arg)
    (num_decimals fx fy : Z) :
  nth_error (frames w) d1 = Some df1 ->
  nth_error (frames w) d2 = Some df2 ->
  secondary_accepts df2 ->
  returns_chart (line_secondary_y d1 d2 secondy_axis_name y_name title range_sel
                   num_decimals fx fy) w
    (fun c _ =>
       exists s1 s2 axis,
         data_sets c = s1 ++ s2
         /\ map ds_name s1 = names df1 /\ map ds_name s2 = names df2
         /\ Forall (fun s => y_axis s = PInt 0) s1
         /\ Forall (fun s => y_axis s = PInt 1) s2
         /\ second_axis (options c) = Some axis
         /\ get_path ["opposite"%string] axis = Some (PBool false)).
Proof.
  destruct w as [F C]; simpl frames. intros H1 H2 Hacc. unfold returns_chart.
  rewrite (line_secondary_y_run _ _ df1 df2) by assumption.
  unfold secondary_accepts in Hacc. unfold secondary_closed.
  destruct (reset_index (setitem df2 "date_field" (index df2))) as [b'|e];
    [|contradiction].
  eexists _, _, _. split; [reflexivity|]. split; [apply nth_error_snoc|].
  cbn [data_sets options]. eexists _, _, _. split; [reflexivity|].
  split; [|split; [|split; [|split; [|split]]]].
  - unfold line_sets. rewrite map_map. apply map_id.
  - rewrite map_map. apply map_id.
  - apply Forall_forall. intros s Hs. apply in_map_iff in Hs as (n & <- & _).
    reflexivity.
  - apply Forall_forall. intros s Hs. apply in_map_iff in Hs as (n & <- & _).
    reflexivity.
  - reflexivity.
  - reflexivity.
Qed.

(** * The caller's frames *)

Create HintDb keeps.

Lemma keeps_ret {A : Type} (n : nat) (a : A) (Q : A -> Prop) :
  Q a -> keeps n (ret a) Q.
Proof.
  intros H w Hn. simpl. repeat split; auto. intros b Hb. now injection Hb as <-.
Qed.

Lemma keeps_raise {A : Type} (n : nat) (e : exn) (Q : A -> Prop) :
  keeps n (raise e) Q.
Proof. intros w Hn. simpl. repeat split; auto. discriminate. Qed.

Lemma keeps_bind {A B : Type} (n : nat) (m : M A) (k : A -> M B) (P : A -> Prop)
    (Q : B -> Prop) :
  keeps n m P -> (forall a, P a -> keeps n (k a) Q) -> keeps n (bind m k) Q.
Proof.
  intros Hm Hk w Hn. unfold bind.
  destruct (Hm w Hn) as (H1 & H2 & H3).
  destruct (m w) as [[a|e] w1]; simpl in *.
  - destruct (Hk a (H3 a eq_refl) w1 H2) as (K1 & K2 & K3).
    repeat split; [congruence | assumption | assumption].
  - repeat split; auto. discriminate.
Qed.

Lemma keeps_weaken {A : Type} (n : nat) (m : M A) (P Q : A -> Prop) :
  keeps n m P -> (forall a, P a -> Q a) -> keeps n m Q.
Proof.
  intros Hm HPQ w Hn. destruct (Hm w Hn) as (H1 & H2 & H3). repeat split; auto.
Qed.

Lemma keeps_lift {A : Type} (n : nat) (o : outcome A) :
  keeps n (lift o) (fun _ => True).
Proof. destruct o; [now apply keeps_ret | apply keeps_raise]. Qed.

Lemma keeps_lift_option {A : Type} (n : nat) (e : exn) (o : option A) :
  keeps n (lift_option e o) (fun _ => True).
Proof. destruct o; [now apply keeps_ret | apply keeps_raise]. Qed.

Lemma keeps_read_frame (n : nat) (d : loc) : keeps n (read_frame d) (fun _ => True).
Proof.
  intros w Hn. unfold read_frame. destruct (nth_error (frames w) d); simpl; auto.
Qed.

Lemma keeps_new_frame (n : nat) (df : DataFrame) :
  keeps n (new_frame df) (fun l => (n <= l)%nat).
Proof.
  intros w Hn. unfold new_frame; simpl. repeat split.
  - now apply firstn_snoc_le.
  - rewrite length_app. lia.
  - intros a Ha. injection Ha as <-. exact Hn.
Qed.

Lemma keeps_write_frame (n : nat) (d : loc) (df : DataFrame) :
  (n <= d)%nat -> keeps n (write_frame d df) (fun _ => True).
Proof.
  intros Hd w Hn. unfold write_frame; simpl. repeat split.
  - now apply firstn_update_ge.
  - now rewrite update_length.
Qed.

Lemma keeps_read_chart (n : nat) (h : loc) : keeps n (read_chart h) (fun _ => True).
Proof.
  intros w Hn. unfold read_chart. destruct (nth_error (charts w) h); simpl; auto.
Qed.

Lemma keeps_new_chart (n : nat) (c : Chart) : keeps n (new_chart c) (fun _ => True).
Proof. intros w Hn. unfold new_chart; simpl. auto. Qed.

Lemma keeps_write_chart (n : nat) (h : loc) (c : Chart) :
  keeps n (write_chart h c) (fun _ => True).
Proof. intros w Hn. unfold write_chart; simpl. auto. Qed.

Lemma keeps_for_each {A : Type} (n : nat) (l : list A) (body : A -> M unit) :
  (forall x, keeps n (body x) (fun _ => True)) ->
  keeps n (for_each l body) (fun _ => True).
Proof.
  intros Hb. induction l as [|x l IH]; simpl.
  - now apply keeps_ret.
  - eapply keeps_bind; [apply Hb | intros _ _; exact IH].
Qed.

#[local] Hint Resolve keeps_raise keeps_lift keeps_lift_option keeps_read_frame
  keeps_new_frame keeps_write_frame keeps_read_chart keeps_new_chart
  keeps_write_chart : keeps.

(** One statement of a builder: the rule of its first call, then the rest
    with what the call returned. *)
Ltac keeps_step :=
  match goal with
  | |- keeps _ (bind (for_each _ _) _) _ =>
      eapply keeps_bind; [apply keeps_for_each; intros ?; cbv beta | intros ? ?]
  | |- keeps _ (bind _ _) _ => eapply keeps_bind; [solve [eauto with keeps] | intros ? ?]
  | |- keeps _ (ret _) _ => apply keeps_ret; exact I
  | |- keeps _ (for_each _ _) _ => apply keeps_for_each; intros ?; cbv beta
  | |- keeps _ (if ?b then _ else _) _ => destruct b
  | |- keeps _ (let '(_, _) := ?p in _) _ => destruct p
  | |- keeps _ (match ?c with None => _ | Some _ => _ end) _ => destruct c
  | |- keeps _ _ (fun _ => True) =>
      solve [eauto with keeps
            | eapply keeps_weaken; [solve [eauto with keeps] | intros; exact I]]
  end.

Ltac keeps_auto := repeat keeps_step.

Lemma keeps_df_copy (n : nat) (d : loc) : keeps n (df_copy d) (fun l => (n <= l)%nat).
Proof. unfold df_copy. eapply keeps_bind; [apply keeps_read_frame | intros; auto with keeps]. Qed.

Lemma keeps_df_columns_tolist (n : nat) (d : loc) :
  keeps n (df_columns_tolist d) (fun _ => True).
Proof. unfold df_columns_tolist. keeps_auto. Qed.

Lemma keeps_df_index (n : nat) (d : loc) : keeps n (df_index d) (fun _ => True).
Proof. unfold df_index. keeps_auto. Qed.

Lemma keeps_df_setitem (n : nat) (d : loc) (name : string) (vals : list cell) :
  (n <= d)%nat -> keeps n (df_setitem d name vals) (fun _ => True).
Proof. intros H. unfold df_setitem. keeps_auto. Qed.

Lemma keeps_df_set_columns (n : nat) (d : loc) (labels : list string) :
  (n <= d)%nat -> keeps n (df_set_columns d labels) (fun _ => True).
Proof. intros H. unfold df_set_columns. keeps_auto. Qed.

Lemma keeps_df_reset_index (n : nat) (d : loc) (drop : bool) :
  keeps n (df_reset_index d drop) (fun l => (n <= l)%nat).
Proof.
  unfold df_reset_index. eapply keeps_bind; [apply keeps_read_frame | intros df _].
  destruct drop; [auto with keeps|].
  eapply keeps_bind; [apply keeps_lift | intros; auto with keeps].
Qed.

Lemma keeps_df_loc_values_tolist (n : nat) (d : loc) (labels : list string) :
  keeps n (df_loc_values_tolist d labels) (fun _ => True).
Proof. unfold df_loc_values_tolist. keeps_auto. Qed.

Lemma keeps_df_getitem_values_tolist (n : nat) (d : loc) (labels : list string) :
  keeps n (df_getitem_values_tolist d labels) (fun _ => True).
Proof. unfold df_getitem_values_tolist. keeps_auto. Qed.

Lemma keeps_df_sort_values (n : nat) (d : loc) (by_ : string) :
  keeps n (df_sort_values d by_) (fun l => (n <= l)%nat).
Proof.
  unfold df_sort_values. eapply keeps_bind; [apply keeps_read_frame | intros df _].
  eapply keeps_bind; [apply keeps_lift_option | intros; auto with keeps].
Qed.

Lemma keeps_df_mean (n : nat) (d : loc) (name : string) :
  keeps n (df_mean d name) (fun _ => True).
Proof. unfold df_mean. keeps_auto. Qed.

Lemma keeps_df_groupby_count (n : nat) (d : loc) (by_ : string) :
  keeps n (df_groupby_count d by_) (fun l => (n <= l)%nat).
Proof.
  unfold df_groupby_count. eapply keeps_bind; [apply keeps_read_frame | intros df _].
  eapply keeps_bind; [apply keeps_lift_option | intros; auto with keeps].
Qed.

Lemma keeps_df_groupby_quantile (n : nat) (d : loc) (by_ col : string) (q : Q) :
  keeps n (df_groupby_quantile d by_ col q) (fun _ => True).
Proof. unfold df_groupby_quantile. keeps_auto. Qed.

Lemma keeps_Highstock (n : nat) (x y : Z) : keeps n (Highstock x y) (fun _ => True).
Proof. unfold Highstock. auto with keeps. Qed.

Lemma keeps_Highchart (n : nat) (x y : Z) : keeps n (Highchart x y) (fun _ => True).
Proof. unfold Highchart. auto with keeps. Qed.

Lemma keeps_add_data_set (n : nat) (h : loc) (data : list (list cell))
    (ty name : string) (kw : list (string * pyobj)) :
  keeps n (add_data_set h data ty name kw) (fun _ => True).
Proof. unfold add_data_set. keeps_auto. Qed.

Lemma keeps_set_dict_options (n : nat) (h : loc) (opts : pyobj) :
  keeps n (set_dict_options h opts) (fun _ => True).
Proof. unfold set_dict_options. keeps_auto. Qed.

Lemma keeps_series_color (normalized rgba : Type) (rgb2hex : rgba -> string)
    (n : nat) (cmap : option string) (cm : normalized -> rgba)
    (ni : Z -> normalized) (i : nat) :
  keeps n (series_color normalized rgba rgb2hex cmap cm ni i) (fun _ => True).
Proof. unfold series_color. destruct cmap; [now apply keeps_ret | auto with keeps]. Qed.

#[local] Hint Resolve keeps_df_copy keeps_df_columns_tolist keeps_df_index
  keeps_df_setitem keeps_df_set_columns keeps_df_reset_index
  keeps_df_loc_values_tolist keeps_df_getitem_values_tolist keeps_df_sort_values
  keeps_df_mean keeps_df_groupby_count keeps_df_groupby_quantile keeps_Highstock
  keeps_Highchart keeps_add_data_set keeps_set_dict_options keeps_series_color
  : keeps.

(** From the rule to the statement about the frames of the caller. *)
Lemma keeps_frames_unchanged {A : Type} (m : M A) (w : world) :
  keeps (length (frames w)) m (fun _ => True) -> frames_unchanged w (snd (m w)).
Proof.
  intros H l df Hl. destruct (H w (le_n _)) as (H1 & _ & _).
  rewrite firstn_all in H1.
  rewrite <- (firstn_skipn (length (frames w)) (frames (snd (m w)))), H1.
  now apply nth_error_app_Some.
Qed.

(** * The box plot *)

Lemma run_df_set_columns {B : Type} (d : loc) (df : DataFrame) (labels : list string)
    (k : unit -> M B) (F : list DataFrame) (C : list Chart) :
  nth_error F d = Some df ->
  bind (df_set_columns d labels) k (mkWorld F C)
  = if Nat.eqb (length labels) (length (columns df))
    then k tt (mkWorld (update d (mkDF (index_name df) (index df)
                                    (combine labels (map snd (columns df)))) F) C)
    else (Raise ValueError, mkWorld F C).
Proof.
  intros H. unfold df_set_columns, bind, read_frame; simpl. rewrite H.
  now destruct (Nat.eqb _ _).
Qed.

Lemma run_df_sort_values {B : Type} (d : loc) (df df' : DataFrame) (by_ : string)
    (k : loc -> M B) (F : list DataFrame) (C : list Chart) :
  nth_error F d = Some df ->
  sort_values df by_ = Some df' ->
  bind (df_sort_values d by_) k (mkWorld F C) = k (length F) (mkWorld (F ++ [df']) C).
Proof.
  intros H E. unfold df_sort_values, bind, read_frame; cbn [frames]. now rewrite H, E.
Qed.

Lemma run_df_mean {B : Type} (d : loc) (df : DataFrame) (name : string)
    (col : list cell) (xs : list Q) (k : pyfloat -> M B) (F : list DataFrame)
    (C : list Chart) :
  nth_error F d = Some df ->
  find_column name df = Some col ->
  numbers col = Some xs ->
  bind (df_mean d name) k (mkWorld F C) = k (mean_of xs) (mkWorld F C).
Proof.
  intros H E1 E2. unfold df_mean, bind, read_frame; cbn [frames].
  rewrite H, E1. cbn [lift_option ret]. now rewrite E2.
Qed.

Lemma run_df_groupby_count {B : Type} (d : loc) (df df' : DataFrame) (by_ : string)
    (k : loc -> M B) (F : list DataFrame) (C : list Chart) :
  nth_error F d = Some df ->
  groupby_count df by_ = Some df' ->
  bind (df_groupby_count d by_) k (mkWorld F C) = k (length F) (mkWorld (F ++ [df']) C).
Proof.
  intros H E. unfold df_groupby_count, bind, read_frame; cbn [frames]. now rewrite H, E.
Qed.

Lemma run_df_groupby_quantile {B : Type} (d : loc) (df : DataFrame) (by_ col : string)
    (q : Q) (qs : list cell) (k : list cell -> M B) (F : list DataFrame)
    (C : list Chart) :
  nth_error F d = Some df ->
  groupby_quantile df by_ col q = Return qs ->
  bind (df_groupby_quantile d by_ col q) k (mkWorld F C) = k qs (mkWorld F C).
Proof.
  intros H E. unfold df_groupby_quantile, bind, read_frame; cbn [frames]. now rewrite H, E.
Qed.

Lemma run_df_getitem_values_tolist {B : Type} (d : loc) (df : DataFrame)
    (labels : list string) (cols : list (list cell)) (k : list (list cell) -> M B)
    (F : list DataFrame) (C : list Chart) :
  nth_error F d = Some df ->
  loc_columns (columns df) labels = Some cols ->
  bind (df_getitem_values_tolist d labels) k (mkWorld F C)
  = k (values_tolist (nrows df) cols) (mkWorld F C).
Proof.
  intros H E. unfold df_getitem_values_tolist, bind, read_frame; cbn [frames].
  now rewrite H, E.
Qed.

Lemma run_add_data_set {B : Type} (h : loc) (c : Chart) (data : list (list cell))
    (ty name : string) (kw : list (string * pyobj)) (k : unit -> M B)
    (F : list DataFrame) (C : list Chart) :
  nth_error C h = Some c ->
  bind (add_data_set h data ty name kw) k (mkWorld F C)
  = k tt (mkWorld F (update h (attach c [mkDS data ty name kw]) C)).
Proof.
  intros H. unfold add_data_set, bind, read_chart; simpl. now rewrite H.
Qed.

Lemma take_map {A B : Type} (f : A -> B) (order : list nat) (l : list A) :
  take order (map f l) = map f (take order l).
Proof.
  unfold take. induction order as [|i order IH]; simpl; [reflexivity|].
  rewrite map_app, IH, nth_error_map. now destruct (nth_error l i).
Qed.

Lemma numbers_map_Num (qs : list Q) : numbers (map Num qs) = Some qs.
Proof. induction qs as [|q qs IH]; simpl; [reflexivity|]. now rewrite IH. Qed.

Lemma group_values_map_Num (keys : list cell) (qs : list Q) (k : cell) :
  group_values keys (map Num qs) k = map Num (group_numbers keys qs k).
Proof.
  unfold group_values, group_numbers. revert qs.
  induction keys as [|x keys IH]; intros [|q qs]; simpl; try reflexivity.
  destruct (cell_eqb k x); simpl; now rewrite IH.
Qed.

Lemma sequence_map_Some {A B : Type} (f : A -> B) (l : list A) :
  sequence (map (fun x => Some (f x)) l) = Some (map f l).
Proof. induction l as [|x l IH]; simpl; [reflexivity|]. now rewrite IH. Qed.

(** The grouped quantile of a frame with a numeric value column. *)
Lemma groupby_quantile_numeric (iname : option string) (idx keys : list cell)
    (qs : list Q) (q : Q) :
  groupby_quantile
    (mkDF iname idx [("date_field"%string, keys); ("column_1"%string, map Num qs)])
    "date_field" "column_1" q
  = Return (map (fun k => Num (quantile q (group_numbers keys qs k))) (group_keys keys)).
Proof.
  unfold groupby_quantile.
  change (find_column "date_field"
            (mkDF iname idx [("date_field"%string, keys);
                             ("column_1"%string, map Num qs)])) with (Some keys).
  change (find_column "column_1"
            (mkDF iname idx [("date_field"%string, keys);
                             ("column_1"%string, map Num qs)]))
    with (Some (map Num qs)).
  cbv beta iota.
  rewrite (map_ext _ (fun k => Some (group_numbers keys qs k))).
  - rewrite sequence_map_Some. now rewrite map_map.
  - intros k. now rewrite group_values_map_Num, numbers_map_Num.
Qed.

Lemma heads_maps (x : cell) (l : list cell) (fs : list (cell -> cell)) :
  heads (map (fun f => map f (x :: l)) fs) = map (fun f => f x) fs.
Proof.
  unfold heads. induction fs as [|f fs IH]; [reflexivity|].
  simpl in *. now f_equal.
Qed.

Lemma tails_maps (x : cell) (l : list cell) (fs : list (cell -> cell)) :
  map (@tl cell) (map (fun f => map f (x :: l)) fs) = map (fun f => map f l) fs.
Proof. rewrite map_map. reflexivity. Qed.

Lemma rows_of_keyed (l : list cell) (fs : list (cell -> cell)) :
  rows_of (length l) (l :: map (fun f => map f l) fs)
  = map (fun x => x :: map (fun f => f x) fs) l.
Proof.
  induction l as [|x l IH]; [reflexivity|].
  cbn [length rows_of].
  change (heads ((x :: l) :: map (fun f => map f (x :: l)) fs))
    with (x :: heads (map (fun f => map f (x :: l)) fs)).
  change (map (@tl cell) ((x :: l) :: map (fun f => map f (x :: l)) fs))
    with (l :: map (@tl cell) (map (fun f => map f (x :: l)) fs)).
  rewrite heads_maps, tails_maps, IH. reflexivity.
Qed.

Lemma values_tolist_keyed (l : list cell) (f : cell -> cell) (fs : list (cell -> cell)) :
  (forall x, is_timestamp (f x) = false) ->
  values_tolist (length l) (l :: map (fun g => map g l) (f :: fs))
  = map (fun x => x :: map (fun g => g x) (f :: fs)) l.
Proof.
  intros Hf. unfold values_tolist. rewrite rows_of_keyed.
  destruct l as [|x l]; [now destruct (forallb _ _)|].
  cbn [forallb map]. rewrite Hf. cbn [andb]. now rewrite andb_false_r.
Qed.

Lemma run_bind_assoc {A B D : Type} (m : M A) (f : A -> M B) (g : B -> M D)
    (w : world) :
  bind (bind m f) g w = bind m (fun x => bind (f x) g) w.
Proof. unfold bind. now destruct (m w) as [[a|e] w']. Qed.

(** The frame of counts and quantiles, after [reset_index()]. *)
Lemma box_frame_reset (ks c q0 q25 q50 q75 q100 : list cell) :
  reset_index
    (setitem (setitem (setitem (setitem (setitem
       (mkDF (Some "date_field"%string) ks [("column_1"%string, c)])
       "quantile_0" q0) "quantile_25" q25) "quantile_50" q50) "quantile_75" q75)
       "quantile_100" q100)
  = Return (mkDF None (range_index (length ks))
              [("date_field"%string, ks); ("column_1"%string, c);
               ("quantile_0"%string, q0); ("quantile_25"%string, q25);
               ("quantile_50"%string, q50); ("quantile_75"%string, q75);
               ("quantile_100"%string, q100)]).
Proof. reflexivity. Qed.

Lemma boxplot_run (float_str : pyfloat -> string) (d : loc) (df : DataFrame)
    (n1 n2 : string) (keys : list cell) (qs : list Q) (F : list DataFrame)
    (C : list Chart) (y_name title : string) (num_decimals : Z) (x_name : string)
    (fx fy : Z) :
  nth_error F d = Some df ->
  columns df = [(n1, keys); (n2, map Num qs)] ->
  exists L : list DataFrame,
    boxplot float_str d y_name title num_decimals x_name fx fy (mkWorld F C)
    = (Return (length C),
       mkWorld (F ++ L)
         (C ++ [mkChart Highchart_chart fx fy
                  [mkDS (box_rows keys qs) "boxplot" y_name box_kwargs]
                  (boxplot_options float_str
                     (round_ (mean_of (take (argsort (map Num qs)) qs)) num_decimals)
                     y_name title num_decimals x_name)])).
Proof.
  intros Hd Hcols. unfold boxplot, Highchart. rewrite run_new_chart.
  rewrite (run_df_copy _ df) by exact Hd.
  rewrite (run_df_set_columns _ df) by apply nth_error_snoc.
  rewrite Hcols. cbn [length Nat.eqb map snd combine]. rewrite update_snoc.
  set (o := argsort (map Num qs)).
  set (keys' := take o keys). set (qs' := take o qs).
  set (ks := group_keys keys').
  set (data := mkDF (index_name df) (take o (index df))
                 [("date_field"%string, keys'); ("column_1"%string, map Num qs')]).
  rewrite (run_df_sort_values _
             (mkDF (index_name df) (index df)
                [("date_field"%string, keys); ("column_1"%string, map Num qs)]) data);
    [ | apply nth_error_snoc
      | subst data qs'; rewrite <- take_map; reflexivity ].
  norm_store.
  rewrite (run_df_mean _ data "column_1" (map Num qs') qs');
    [ | lookup | reflexivity | apply numbers_map_Num ].
  set (counts := map (fun k => Num (inject_Z (Z.of_nat
                        (length (group_values keys' (map Num qs') k))))) ks).
  rewrite (run_df_groupby_count _ data
             (mkDF (Some "date_field"%string) ks [("column_1"%string, counts)]));
    [ | lookup | reflexivity ].
  norm_store.
  change (range 0 125 25) with [0; 25; 50; 75; 100]. cbn [for_each].
  repeat (rewrite !run_bind_assoc;
          erewrite (run_df_groupby_quantile _ data)
            by (lookup || apply groupby_quantile_numeric);
          erewrite run_df_setitem by lookup;
          rewrite update_app_offset; cbn [update]).
  rewrite run_bind_ret.
  change ("quantile_" ++ str 0)%string with "quantile_0"%string.
  change ("quantile_" ++ str 25)%string with "quantile_25"%string.
  change ("quantile_" ++ str 50)%string with "quantile_50"%string.
  change ("quantile_" ++ str 75)%string with "quantile_75"%string.
  change ("quantile_" ++ str 100)%string with "quantile_100"%string.
  erewrite run_df_reset_index by lookup.
  rewrite box_frame_reset. norm_store.
  erewrite run_df_getitem_values_tolist; [ | lookup | reflexivity ].
  erewrite run_add_data_set by apply nth_error_snoc. rewrite update_snoc.
  erewrite run_set_dict_options by apply nth_error_snoc. rewrite update_snoc.
  unfold ret. eexists. f_equal. f_equal. f_equal. f_equal.
  unfold attach; cbn [kind width height data_sets options app].
  f_equal. f_equal. f_equal.
  unfold nrows, range_index; cbn [index]. rewrite length_map, length_seq.
  unfold box_rows. fold o. fold keys'. fold qs'. fold ks.
  exact (values_tolist_keyed ks
           (fun k => Num (quantile (inject_Z 0 / 100) (group_numbers keys' qs' k)))
           [fun k => Num (quantile (inject_Z 25 / 100) (group_numbers keys' qs' k));
            fun k => Num (quantile (inject_Z 50 / 100) (group_numbers keys' qs' k));
            fun k => Num (quantile (inject_Z 75 / 100) (group_numbers keys' qs' k));
            fun k => Num (quantile (inject_Z 100 / 100) (group_numbers keys' qs' k))]
           (fun _ => eq_refl)).
Qed.

(** ** Sorting is a permutation *)

Section SortPermutation.
Context {A : Type} (leb : A -> A -> bool).

Lemma insert_perm (x : A) (l : list A) : Permutation (insert leb x l) (x :: l).
Proof.
  induction l as [|y l IH]; simpl; [reflexivity|].
  destruct (leb x y); [reflexivity|].
  rewrite IH. apply perm_swap.
Qed.

Lemma sort_perm (l : list A) : Permutation (sort leb l) l.
Proof.
  induction l as [|x l IH]; simpl; [reflexivity|].
  rewrite insert_perm. now constructor.
Qed.
End SortPermutation.

Lemma map_fst_combine_seq {A : Type} (l : list A) (s : nat) :
  map fst (combine (seq s (length l)) l) = seq s (length l).
Proof.
  revert s; induction l as [|x l IH]; intros s; simpl; [reflexivity|].
  now rewrite IH.
Qed.

Lemma argsort_perm (key : list cell) :
  Permutation (argsort key) (seq 0 (length key)).
Proof.
  unfold argsort. rewrite sort_perm. now rewrite map_fst_combine_seq.
Qed.

Lemma take_cons_shift {A : Type} (x : A) (l : list A) (order : list nat) :
  take (map S order) (x :: l) = take order l.
Proof.
  unfold take. induction order as [|i order IH]; simpl; [reflexivity|].
  now rewrite IH.
Qed.

Lemma take_all {A : Type} (l : list A) : take (seq 0 (length l)) l = l.
Proof.
  induction l as [|x l IH]; [reflexivity|].
  cbn [length seq]. rewrite <- seq_shift.
  change (take (0%nat :: map S (seq 0 (length l))) (x :: l))
    with (x :: take (map S (seq 0 (length l))) (x :: l)).
  now rewrite take_cons_shift, IH.
Qed.

Lemma take_perm {A : Type} (order : list nat) (l : list A) :
  Permutation order (seq 0 (length l)) -> Permutation (take order l) l.
Proof.
  intros H. rewrite <- (take_all l) at 2. unfold take.
  now apply Permutation_flat_map.
Qed.

Lemma take_combine {A B : Type} (order : list nat) (l : list A) (r : list B) :
  length l = length r ->
  take order (combine l r) = combine (take order l) (take order r).
Proof.
  intros Hlen. unfold take. induction order as [|i order IH]; [reflexivity|].
  cbn [flat_map]. rewrite IH.
  destruct (nth_error l i) as [a|] eqn:Ea; destruct (nth_error r i) as [b|] eqn:Eb.
  - assert (E : nth_error (combine l r) i = Some (a, b)).
    { clear - Ea Eb. revert l r Ea Eb.
      induction i as [|i IHi]; intros [|x l] [|y r] Ea Eb; simpl in *;
        try discriminate; [congruence | auto]. }
    now rewrite E.
  - exfalso. apply nth_error_None in Eb.
    assert (i < length l)%nat by (apply nth_error_Some; congruence). lia.
  - exfalso. apply nth_error_None in Ea.
    assert (i < length r)%nat by (apply nth_error_Some; congruence). lia.
  - assert (E : nth_error (combine l r) i = None).
    { apply nth_error_None. rewrite length_combine.
      apply nth_error_None in Ea. lia. }
    now rewrite E.
Qed.

Lemma filter_perm {A : Type} (f : A -> bool) (l l' : list A) :
  Permutation l l' -> Permutation (filter f l) (filter f l').
Proof.
  induction 1 as [|x l l' _ IH|x y l|l l' l'' _ IH1 _ IH2]; simpl.
  - reflexivity.
  - destruct (f x); [now constructor | assumption].
  - destruct (f x), (f y); try reflexivity. apply perm_swap.
  - now rewrite IH1.
Qed.

(** The group of a key in the table sorted by value holds the values the
    group has in the table as it came. *)
Lemma group_numbers_sorted (keys : list cell) (qs : list Q) (k : cell) :
  length keys = length qs ->
  Permutation
    (group_numbers (take (argsort (map Num qs)) keys) (take (argsort (map Num qs)) qs) k)
    (group_numbers keys qs k).
Proof.
  intros Hlen. unfold group_numbers.
  rewrite <- take_combine by assumption.
  apply Permutation_map, filter_perm, take_perm.
  rewrite length_combine, Hlen, Nat.min_id.
  rewrite <- (length_map Num qs). apply argsort_perm.
Qed.

(** ** The mean *)

Lemma Qsum_perm (l l' : list Q) : Permutation l l' -> (Qsum l == Qsum l')%Q.
Proof.
  induction 1 as [|x l l' _ IH|x y l|l l' l'' _ IH1 _ IH2]; simpl.
  - reflexivity.
  - now rewrite IH.
  - ring.
  - now rewrite IH1.
Qed.

Lemma rint_comp (x y : Q) : (x == y)%Q -> rint x = rint y.
Proof.
  intros H. unfold rint. cbv zeta.
  assert (Hf : Qfloor x = Qfloor y) by now rewrite H.
  assert (Hc : (x - inject_Z (Qfloor x) ?= 1 # 2)%Q = (y - inject_Z (Qfloor y) ?= 1 # 2)%Q)
    by (rewrite Hf; now rewrite H).
  now rewrite Hc, Hf.
Qed.

Lemma round_perm (l l' : list Q) (ndigits : Z) :
  Permutation l l' -> round_ (mean_of l) ndigits = round_ (mean_of l') ndigits.
Proof.
  intros H. pose proof (Permutation_length H) as Hlen.
  pose proof (Qsum_perm l l' H) as Hsum.
  destruct l as [|x l]; destruct l' as [|x' l']; try discriminate; [reflexivity|].
  unfold mean_of, round_. rewrite Hlen.
  destruct (0 <=? ndigits).
  - f_equal. f_equal. f_equal. apply rint_comp. now rewrite Hsum.
  - f_equal. f_equal. f_equal. apply rint_comp. now rewrite Hsum.
Qed.




(** ** Quantiles *)






(** ** Group keys *)

Lemma cell_eqb_refl (a : cell) : cell_eqb a a = true.
Proof.
  destruct a; simpl; [apply Z.eqb_refl | apply Qeq_bool_iff; reflexivity].
Qed.

Lemma cell_eqb_sym (a b : cell) : cell_eqb a b = cell_eqb b a.
Proof.
  destruct a, b; simpl; try reflexivity; [apply Z.eqb_sym|].
  destruct (Qeq_bool q q0) eqn:E1, (Qeq_bool q0 q) eqn:E2; try reflexivity.
  - apply Qeq_bool_iff in E1. apply Qeq_bool_neq in E2. exfalso. apply E2. now symmetry.
  - apply Qeq_bool_iff in E2. apply Qeq_bool_neq in E1. exfalso. apply E1. now symmetry.
Qed.

Lemma cell_eqb_trans (a b c : cell) :
  cell_eqb a b = true -> cell_eqb b c = true -> cell_eqb a c = true.
Proof.
  destruct a, b, c; simpl; try discriminate.
  - rewrite !Z.eqb_eq. congruence.
  - rewrite !Qeq_bool_iff. intros H1 H2. now rewrite H1.
Qed.

Lemma distinct_incl (k : cell) (l : list cell) : In k (distinct l) -> In k l.
Proof.
  induction l as [|x l IH]; simpl; [auto|].
  intros [H|H]; [now left|]. apply filter_In in H. right. tauto.
Qed.

Lemma distinct_rep (k : cell) (l : list cell) :
  In k l -> exists k', In k' (distinct l) /\ cell_eqb k' k = true.
Proof.
  induction l as [|x l IH]; simpl; [contradiction|].
  intros [->|H].
  - exists k. split; [now left | apply cell_eqb_refl].
  - destruct (IH H) as (k' & Hin & E).
    destruct (cell_eqb x k') eqn:Ex.
    + exists x. split; [now left | now apply (cell_eqb_trans x k' k)].
    + exists k'. split; [|assumption]. right. apply filter_In. now rewrite Ex.
Qed.

Lemma group_keys_incl (k : cell) (l : list cell) : In k (group_keys l) -> In k l.
Proof.
  unfold group_keys. intros H. apply distinct_incl.
  now apply (Permutation_in _ (sort_perm cell_leb (distinct l))).
Qed.

Lemma group_keys_rep (k : cell) (l : list cell) :
  In k l -> exists k', In k' (group_keys l) /\ cell_eqb k' k = true.
Proof.
  intros H. destruct (distinct_rep k l H) as (k' & Hin & E).
  exists k'. split; [|assumption]. unfold group_keys.
  now apply (Permutation_in _ (Permutation_sym (sort_perm cell_leb (distinct l)))).
Qed.





(** * Further lemmas *)

(** ** The charts of the caller *)

Create HintDb spares.

Lemma spares_ret {A : Type} (n : nat) (a : A) (Q : A -> Prop) :
  Q a -> spares n (ret a) Q.
Proof.
  intros H w Hn. simpl. repeat split; auto. intros b Hb. now injection Hb as <-.
Qed.

Lemma spares_raise {A : Type} (n : nat) (e : exn) (Q : A -> Prop) :
  spares n (raise e) Q.
Proof. intros w Hn. simpl. repeat split; auto. discriminate. Qed.

Lemma spares_bind {A B : Type} (n : nat) (m : M A) (k : A -> M B) (P : A -> Prop)
    (Q : B -> Prop) :
  spares n m P -> (forall a, P a -> spares n (k a) Q) -> spares n (bind m k) Q.
Proof.
  intros Hm Hk w Hn. unfold bind.
  destruct (Hm w Hn) as (H1 & H2 & H3).
  destruct (m w) as [[a|e] w1]; simpl in *.
  - destruct (Hk a (H3 a eq_refl) w1 H2) as (K1 & K2 & K3).
    repeat split; [congruence | assumption | assumption].
  - repeat split; auto. discriminate.
Qed.

Lemma spares_weaken {A : Type} (n : nat) (m : M A) (P Q : A -> Prop) :
  spares n m P -> (forall a, P a -> Q a) -> spares n m Q.
Proof.
  intros Hm HPQ w Hn. destruct (Hm w Hn) as (H1 & H2 & H3). repeat split; auto.
Qed.

Lemma spares_lift {A : Type} (n : nat) (o : outcome A) :
  spares n (lift o) (fun _ => True).
Proof. destruct o; [now apply spares_ret | apply spares_raise]. Qed.

Lemma spares_lift_option {A : Type} (n : nat) (e : exn) (o : option A) :
  spares n (lift_option e o) (fun _ => True).
Proof. destruct o; [now apply spares_ret | apply spares_raise]. Qed.

Lemma spares_read_frame (n : nat) (d : loc) : spares n (read_frame d) (fun _ => True).
Proof.
  intros w Hn. unfold read_frame. destruct (nth_error (frames w) d); simpl; auto.
Qed.

Lemma spares_new_frame (n : nat) (df : DataFrame) :
  spares n (new_frame df) (fun _ => True).
Proof. intros w Hn. unfold new_frame; simpl. auto. Qed.

Lemma spares_write_frame (n : nat) (d : loc) (df : DataFrame) :
  spares n (write_frame d df) (fun _ => True).
Proof. intros w Hn. unfold write_frame; simpl. auto. Qed.

Lemma spares_read_chart (n : nat) (h : loc) : spares n (read_chart h) (fun _ => True).
Proof.
  intros w Hn. unfold read_chart. destruct (nth_error (charts w) h); simpl; auto.
Qed.

Lemma spares_new_chart (n : nat) (c : Chart) :
  spares n (new_chart c) (fun h => (n <= h)%nat).
Proof.
  intros w Hn. unfold new_chart; simpl. repeat split.
  - now apply firstn_snoc_le.
  - rewrite length_app. lia.
  - intros a Ha. injection Ha as <-. exact Hn.
Qed.

Lemma spares_write_chart (n : nat) (h : loc) (c : Chart) :
  (n <= h)%nat -> spares n (write_chart h c) (fun _ => True).
Proof.
  intros Hh w Hn. unfold write_chart; simpl. repeat split.
  - now apply firstn_update_ge.
  - now rewrite update_length.
Qed.

Lemma spares_for_each {A : Type} (n : nat) (l : list A) (body : A -> M unit) :
  (forall x, spares n (body x) (fun _ => True)) ->
  spares n (for_each l body) (fun _ => True).
Proof.
  intros Hb. induction l as [|x l IH]; simpl.
  - now apply spares_ret.
  - eapply spares_bind; [apply Hb | intros _ _; exact IH].
Qed.

#[local] Hint Resolve spares_raise spares_lift spares_lift_option spares_read_frame
  spares_new_frame spares_write_frame spares_read_chart spares_new_chart
  spares_write_chart : spares.

(** One statement of a builder: the rule of its first call, then the rest
    with what the call returned. *)
Ltac spares_step :=
  match goal with
  | |- spares _ (bind (for_each _ _) _) _ =>
      eapply spares_bind; [apply spares_for_each; intros ?; cbv beta | intros ? ?]
  | |- spares _ (bind _ _) _ => eapply spares_bind; [solve [eauto with spares] | intros ? ?]
  | |- spares _ (ret _) _ => apply spares_ret; first [assumption | exact I]
  | |- spares _ (for_each _ _) _ => apply spares_for_each; intros ?; cbv beta
  | |- spares _ (if ?b then _ else _) _ => destruct b
  | |- spares _ (let '(_, _) := ?p in _) _ => destruct p
  | |- spares _ (match ?c with None => _ | Some _ => _ end) _ => destruct c
  | |- spares _ _ (fun _ => True) =>
      solve [eauto with spares
            | eapply spares_weaken; [solve [eauto with spares] | intros; exact I]]
  end.

Ltac spares_auto := repeat spares_step.

Lemma spares_df_copy (n : nat) (d : loc) : spares n (df_copy d) (fun _ => True).
Proof. unfold df_copy. spares_auto. Qed.

Lemma spares_df_columns_tolist (n : nat) (d : loc) :
  spares n (df_columns_tolist d) (fun _ => True).
Proof. unfold df_columns_tolist. spares_auto. Qed.

Lemma spares_df_index (n : nat) (d : loc) : spares n (df_index d) (fun _ => True).
Proof. unfold df_index. spares_auto. Qed.

Lemma spares_df_setitem (n : nat) (d : loc) (name : string) (vals : list cell) :
  spares n (df_setitem d name vals) (fun _ => True).
Proof. unfold df_setitem. spares_auto. Qed.

Lemma spares_df_set_columns (n : nat) (d : loc) (labels : list string) :
  spares n (df_set_columns d labels) (fun _ => True).
Proof. unfold df_set_columns. spares_auto. Qed.

Lemma spares_df_reset_index (n : nat) (d : loc) (drop : bool) :
  spares n (df_reset_index d drop) (fun _ => True).
Proof. unfold df_reset_index. spares_auto. Qed.

Lemma spares_df_loc_values_tolist (n : nat) (d : loc) (labels : list string) :
  spares n (df_loc_values_tolist d labels) (fun _ => True).
Proof. unfold df_loc_values_tolist. spares_auto. Qed.

Lemma spares_df_getitem_values_tolist (n : nat) (d : loc) (labels : list string) :
  spares n (df_getitem_values_tolist d labels) (fun _ => True).
Proof. unfold df_getitem_values_tolist. spares_auto. Qed.

Lemma spares_df_sort_values (n : nat) (d : loc) (by_ : string) :
  spares n (df_sort_values d by_) (fun _ => True).
Proof. unfold df_sort_values. spares_auto. Qed.

Lemma spares_df_mean (n : nat) (d : loc) (name : string) :
  spares n (df_mean d name) (fun _ => True).
Proof. unfold df_mean. spares_auto. Qed.

Lemma spares_df_groupby_count (n : nat) (d : loc) (by_ : string) :
  spares n (df_groupby_count d by_) (fun _ => True).
Proof. unfold df_groupby_count. spares_auto. Qed.

Lemma spares_df_groupby_quantile (n : nat) (d : loc) (by_ col : string) (q : Q) :
  spares n (df_groupby_quantile d by_ col q) (fun _ => True).
Proof. unfold df_groupby_quantile. spares_auto. Qed.

Lemma spares_Highstock (n : nat) (x y : Z) :
  spares n (Highstock x y) (fun h => (n <= h)%nat).
Proof. unfold Highstock. apply spares_new_chart. Qed.

Lemma spares_Highchart (n : nat) (x y : Z) :
  spares n (Highchart x y) (fun h => (n <= h)%nat).
Proof. unfold Highchart. apply spares_new_chart. Qed.

Lemma spares_add_data_set (n : nat) (h : loc) (data : list (list cell))
    (ty name : string) (kw : list (string * pyobj)) :
  (n <= h)%nat -> spares n (add_data_set h data ty name kw) (fun _ => True).
Proof. intros H. unfold add_data_set. spares_auto. Qed.

Lemma spares_set_dict_options (n : nat) (h : loc) (opts : pyobj) :
  (n <= h)%nat -> spares n (set_dict_options h opts) (fun _ => True).
Proof. intros H. unfold set_dict_options. spares_auto. Qed.

Lemma spares_series_color (normalized rgba : Type) (rgb2hex : rgba -> string)
    (n : nat) (cmap : option string) (cm : normalized -> rgba)
    (ni : Z -> normalized) (i : nat) :
  spares n (series_color normalized rgba rgb2hex cmap cm ni i) (fun _ => True).
Proof. unfold series_color. destruct cmap; [now apply spares_ret | auto with spares]. Qed.

#[local] Hint Resolve spares_df_copy spares_df_columns_tolist spares_df_index
  spares_df_setitem spares_df_set_columns spares_df_reset_index
  spares_df_loc_values_tolist spares_df_getitem_values_tolist spares_df_sort_values
  spares_df_mean spares_df_groupby_count spares_df_groupby_quantile spares_Highstock
  spares_Highchart spares_add_data_set spares_set_dict_options spares_series_color
  : spares.

(** From the rule to the statement about the charts of the caller. *)
Lemma spares_charts_unchanged {A : Type} (m : M A) (w : world) (Q : A -> Prop) :
  spares (length (charts w)) m Q ->
  charts_unchanged w (snd (m w)) /\ (forall a : A, fst (m w) = Return a -> Q a).
Proof.
  intros H. destruct (H w (le_n _)) as (H1 & _ & H3). split; [|exact H3].
  intros l c Hl. rewrite firstn_all in H1.
  rewrite <- (firstn_skipn (length (charts w)) (charts (snd (m w)))), H1.
  now apply nth_error_app_Some.
Qed.

(** ** The second table of [line_secondary_y] *)

Lemma has_column_setitem (df : DataFrame) (name : string) (vals : list cell)
    (x : string) :
  has_column x (setitem df name vals) = has_column x df || String.eqb x name.
Proof.
  unfold has_column at 1. unfold names, setitem; cbn [columns].
  destruct (has_column name df) eqn:E.
  - rewrite map_map.
    replace (map (fun c => fst (if String.eqb name (fst c) then (fst c, vals) else c))
               (columns df))
      with (names df)
      by (unfold names; apply map_ext; intros c; now destruct (String.eqb name (fst c))).
    fold (has_column x df).
    destruct (String.eqb_spec x name) as [->|_];
      [rewrite E; reflexivity | now rewrite orb_false_r].
  - rewrite map_app, existsb_app. cbn [map fst existsb]. now rewrite orb_false_r.
Qed.

Lemma index_label_setitem (df : DataFrame) (vals : list cell) :
  index_label (setitem df "date_field" vals) = index_label df.
Proof.
  unfold index_label. cbn [setitem index_name].
  destruct (index_name df); [reflexivity|].
  rewrite has_column_setitem. cbn [String.eqb Ascii.eqb Bool.eqb].
  now rewrite orb_false_r.
Qed.

(** [reset_index()] on the working copy of a table, by the label of its
    index. *)
Lemma reset_index_outcome (df : DataFrame) :
  let b := setitem df "date_field" (index df) in
  reset_index b
  = if has_column (index_label df) df || String.eqb (index_label df) "date_field"
    then Raise ValueError
    else Return (mkDF None (range_index (nrows b)) ((index_label df, index b) :: columns b)).
Proof.
  intros b. unfold reset_index. fold (index_label b). subst b.
  rewrite index_label_setitem, has_column_setitem. reflexivity.
Qed.

Lemma secondary_accepts_iff (df : DataFrame) :
  secondary_accepts df
  <-> index_label df <> "date_field"%string /\ ~ In (index_label df) (names df).
Proof.
  unfold secondary_accepts. rewrite reset_index_outcome.
  destruct (has_column (index_label df) df) eqn:E1; cbn [orb].
  - apply has_column_true in E1. tauto.
  - apply has_column_false in E1.
    destruct (String.eqb_spec (index_label df) "date_field") as [E2|E2]; tauto.
Qed.

(** ** The keys of the box plot in order *)

Lemma cell_leb_total (a b : cell) : cell_leb a b = true \/ cell_leb b a = true.
Proof.
  destruct a as [s|p], b as [t|q]; simpl; auto.
  - destruct (Z.leb_spec s t); [now left | right; apply Z.leb_le; lia].
  - destruct (Qlt_le_dec q p) as [H|H].
    + right. apply Qle_bool_iff. now apply Qlt_le_weak.
    + left. now apply Qle_bool_iff.
Qed.

Lemma cell_leb_trans (a b c : cell) :
  cell_leb a b = true -> cell_leb b c = true -> cell_leb a c = true.
Proof.
  destruct a as [s|p], b as [t|q], c as [u|r]; simpl; try discriminate; auto.
  - rewrite !Z.leb_le. lia.
  - rewrite !Qle_bool_iff. apply Qle_trans.
Qed.

Lemma insert_ascending (x : cell) (l : list cell) :
  StronglySorted cell_lt l ->
  Forall (fun y => cell_eqb x y = false) l ->
  StronglySorted cell_lt (insert cell_leb x l).
Proof.
  induction 1 as [|y l Hs IH Hall]; intros Hx; simpl.
  - repeat constructor.
  - inversion Hx as [|? ? Hxy Hxl]; subst.
    destruct (cell_leb x y) eqn:E.
    + constructor; [now constructor|]. constructor; [now split|].
      rewrite Forall_forall in *. intros z Hz. split; [|now apply Hxl].
      apply (cell_leb_trans x y z); [assumption | apply (Hall z Hz)].
    + constructor; [now apply IH|].
      apply (Permutation_Forall (Permutation_sym (insert_perm cell_leb x l))).
      constructor; [|assumption]. split.
      * destruct (cell_leb_total x y); congruence.
      * now rewrite cell_eqb_sym.
Qed.

Lemma sort_ascending (l : list cell) :
  StronglySorted (fun a b => cell_eqb a b = false) l ->
  StronglySorted cell_lt (sort cell_leb l).
Proof.
  induction 1 as [|x l Hs IH Hall]; simpl; [constructor|].
  apply insert_ascending; [assumption|].
  now apply (Permutation_Forall (Permutation_sym (sort_perm cell_leb l))).
Qed.

Lemma filter_apart {A : Type} (R : A -> A -> Prop) (f : A -> bool) (l : list A) :
  StronglySorted R l -> StronglySorted R (filter f l).
Proof.
  induction 1 as [|x l Hs IH Hall]; simpl; [constructor|].
  destruct (f x); [|assumption]. constructor; [assumption|].
  rewrite Forall_forall in *. intros y Hy. apply Hall.
  apply filter_In in Hy. tauto.
Qed.

Lemma distinct_apart (l : list cell) :
  StronglySorted (fun a b => cell_eqb a b = false) (distinct l).
Proof.
  induction l as [|x l IH]; simpl; constructor.
  - now apply filter_apart.
  - apply Forall_forall. intros y Hy. apply filter_In in Hy as (_ & Hy).
    now apply negb_true_iff in Hy.
Qed.

Lemma group_keys_ascending (keys : list cell) :
  StronglySorted cell_lt (group_keys keys).
Proof. unfold group_keys. apply sort_ascending, distinct_apart. Qed.

Lemma timestamps_only (l : list cell) :
  Forall (fun c => is_timestamp c = true) l -> exists ks, l = map Timestamp ks.
Proof.
  induction 1 as [|c l Hc _ (ks & ->)].
  - now exists [].
  - destruct c as [t|q]; [|discriminate]. now exists (t :: ks).
Qed.

Lemma ascending_timestamps (ks : list Z) :
  StronglySorted cell_lt (map Timestamp ks) -> StronglySorted Z.lt ks.
Proof.
  induction ks as [|t ks IH]; simpl; intros H; [constructor|].
  inversion H as [|? ? Hs Hall]; subst. constructor; [now apply IH|].
  rewrite Forall_forall in *. intros u Hu.
  destruct (Hall (Timestamp u) (in_map _ _ _ Hu)) as (H1 & H2). simpl in *.
  apply Z.leb_le in H1. apply Z.eqb_neq in H2. lia.
Qed.

(** The group keys of a table of dated measurements, sorted by value: the
    dates of the table, each once, in ascending order. *)
Lemma group_keys_dates (ts : list Z) (qs : list Q) :
  length ts = length qs ->
  exists ks : list Z,
    group_keys (take (argsort (map Num qs)) (map Timestamp ts)) = map Timestamp ks
    /\ StronglySorted Z.lt ks
    /\ (forall t, In t ks <-> In t ts).
Proof.
  intros Hlen.
  set (o := argsort (map Num qs)).
  assert (Hperm : Permutation (take o (map Timestamp ts)) (map Timestamp ts)).
  { apply take_perm. rewrite length_map, Hlen, <- (length_map Num qs).
    apply argsort_perm. }
  set (K := take o (map Timestamp ts)) in *.
  destruct (timestamps_only (group_keys K)) as (ks & Hks).
  { apply Forall_forall. intros k Hk. apply group_keys_incl in Hk.
    apply (Permutation_in _ Hperm) in Hk. apply in_map_iff in Hk as (t & <- & _).
    reflexivity. }
  exists ks. split; [assumption|]. split.
  - apply ascending_timestamps. rewrite <- Hks. apply group_keys_ascending.
  - intros t. split; intros Ht.
    + assert (Hin : In (Timestamp t) (group_keys K))
        by (rewrite Hks; now apply in_map).
      apply group_keys_incl in Hin. apply (Permutation_in _ Hperm) in Hin.
      apply in_map_iff in Hin as (u & E & Hu). now injection E as <-.
    + assert (Hin : In (Timestamp t) K).
      { apply (Permutation_in _ (Permutation_sym Hperm)). now apply in_map. }
      destruct (group_keys_rep _ _ Hin) as (k' & Hk' & E).
      rewrite Hks in Hk'. apply in_map_iff in Hk' as (u & <- & Hu).
      simpl in E. apply Z.eqb_eq in E. now subst.
Qed.

Lemma box_rows_dates (ts : list Z) (qs : list Q) :
  length ts = length qs ->
  exists ks : list Z,
    map (@hd_error cell) (box_rows (map Timestamp ts) qs)
    = map (fun t => Some (Timestamp t)) ks
    /\ StronglySorted Z.lt ks
    /\ (forall t, In t ks <-> In t ts).
Proof.
  intros Hlen. destruct (group_keys_dates ts qs Hlen) as (ks & Hks & Hs & Hin).
  exists ks. split; [|now split].
  unfold box_rows. cbv zeta. rewrite Hks, !map_map. reflexivity.
Qed.

(** ** The five numbers of a group *)






(** ** Dictionaries *)



(** ** The shape of a selection *)

Lemma heads_length (cols : list (list cell)) :
  Forall (fun col => col <> []) cols -> length (heads cols) = length cols.
Proof.
  induction 1 as [|col cols Hc _ IH]; [reflexivity|].
  destruct col; [congruence|]. simpl in *. now rewrite IH.
Qed.

Lemma rows_of_shape (n : nat) (cols : list (list cell)) :
  Forall (fun col => length col = n) cols ->
  length (rows_of n cols) = n
  /\ Forall (fun row => length row = length cols) (rows_of n cols).
Proof.
  revert cols. induction n as [|n IH]; intros cols H; simpl.
  - split; [reflexivity | constructor].
  - destruct (IH (map (@tl cell) cols)) as (H1 & H2).
    { apply Forall_forall. intros col Hcol. apply in_map_iff in Hcol as (c & <- & Hc).
      rewrite Forall_forall in H. specialize (H c Hc). destruct c; simpl in *; lia. }
    split; [now rewrite H1|]. constructor.
    + apply heads_length. apply Forall_forall. intros c Hc.
      rewrite Forall_forall in H. specialize (H c Hc). destruct c; [discriminate|].
      discriminate.
    + now rewrite length_map in H2.
Qed.

Lemma values_tolist_shape (n : nat) (cols : list (list cell)) :
  Forall (fun col => length col = n) cols ->
  length (values_tolist n cols) = n
  /\ Forall (fun row => length row = length cols) (values_tolist n cols).
Proof.
  intros H. destruct (rows_of_shape n cols H) as (H1 & H2). unfold values_tolist.
  destruct (forallb _ cols); [|now split]. split; [now rewrite length_map|].
  apply Forall_forall. intros row Hrow. apply in_map_iff in Hrow as (r & <- & Hr).
  rewrite length_map. rewrite Forall_forall in H2. now apply H2.
Qed.

(** The series of a column label in a table without a column
    ["date_field"]: one row per row of the table, each with the index entry
    and one value for every column of that label. *)
Lemma series_data_shape (df : DataFrame) (name : string) :
  well_formed df -> ~ In "date_field"%string (names df) -> In name (names df) ->
  length (series_data df name) = nrows df
  /\ Forall (fun row => length row = S (count_name name df)) (series_data df name).
Proof.
  intros Hwf Hdf Hin.
  assert (Hname : name <> "date_field"%string) by (intros ->; contradiction).
  unfold series_data, frame_series.
  rewrite nrows_reshaped, columns_reshaped_fresh by assumption.
  cbn [loc_columns]. rewrite !filter_app.
  rewrite (filter_name_absent "date_field" (columns df)) by assumption.
  cbn [filter fst]. rewrite String.eqb_refl.
  destruct (String.eqb_spec name "date_field") as [E|_]; [contradiction|].
  cbn [app]. rewrite app_nil_r.
  pose proof (filter_name_nonempty name (columns df) Hin) as Hne.
  destruct (filter (fun c => String.eqb name (fst c)) (columns df)) as [|c0 found] eqn:Ef;
    [congruence|].
  rewrite <- Ef. cbn [map snd app]. rewrite app_nil_r.
  replace (S (count_name name df))
    with (length (index df
                  :: map snd (filter (fun c => String.eqb name (fst c)) (columns df))))
    by (cbn [length]; now rewrite length_map).
  apply values_tolist_shape. constructor; [reflexivity|].
  apply Forall_forall. intros col Hcol. apply in_map_iff in Hcol as (c & <- & Hc).
  apply filter_In in Hc as (Hc & _).
  unfold well_formed in Hwf. rewrite Forall_forall in Hwf. now apply Hwf.
Qed.


(** ** The order of the rows and the box plot *)

Lemma Qle_bool_false (x y : Q) : Qle_bool x y = false -> (y < x)%Q.
Proof.
  intros H. destruct (Qlt_le_dec y x) as [Hlt|Hle]; [assumption|].
  apply Qle_bool_iff in Hle. congruence.
Qed.

Lemma same_numbers_refl (l : list Q) : Forall2 Qeq l l.
Proof. induction l; constructor; [reflexivity | assumption]. Qed.

Lemma same_numbers_trans (l1 l2 l3 : list Q) :
  Forall2 Qeq l1 l2 -> Forall2 Qeq l2 l3 -> Forall2 Qeq l1 l3.
Proof.
  intros H. revert l3. induction H as [|x y l1 l2 Hxy _ IH]; intros l3 H3;
    inversion H3; subst; constructor.
  - now rewrite Hxy.
  - now apply IH.
Qed.

Lemma insert_same (x : Q) (s s' : list Q) :
  Forall2 Qeq s s' -> Forall2 Qeq (insert Qle_bool x s) (insert Qle_bool x s').
Proof.
  induction 1 as [|z z' s s' Hz Hs IH]; cbn [insert].
  - constructor; [reflexivity | constructor].
  - assert (E : Qle_bool x z = Qle_bool x z')
      by (apply Qleb_comp; [reflexivity | assumption]).
    rewrite E. destruct (Qle_bool x z').
    + constructor; [reflexivity|]. now constructor.
    + now constructor.
Qed.

Lemma insert_swap (x y : Q) (s : list Q) :
  Forall2 Qeq (insert Qle_bool y (insert Qle_bool x s))
    (insert Qle_bool x (insert Qle_bool y s)).
Proof.
  assert (Hxy : forall r,
             Forall2 Qeq (if Qle_bool y x then y :: x :: r else x :: y :: r)
               (if Qle_bool x y then x :: y :: r else y :: x :: r)).
  { intros r. destruct (Qle_bool y x) eqn:Eyx, (Qle_bool x y) eqn:Exy.
    - apply Qle_bool_iff in Eyx, Exy.
      assert (E : (y == x)%Q) by now apply Qle_antisym.
      constructor; [assumption|]. constructor; [now symmetry|].
      apply same_numbers_refl.
    - apply same_numbers_refl.
    - apply same_numbers_refl.
    - apply Qle_bool_false in Eyx, Exy. lra. }
  induction s as [|z s IH]; cbn [insert].
  - apply Hxy.
  - destruct (Qle_bool x z) eqn:Exz, (Qle_bool y z) eqn:Eyz; cbn [insert].
    + rewrite Exz, Eyz. apply Hxy.
    + rewrite Exz, Eyz.
      replace (Qle_bool y x) with false; [apply same_numbers_refl|].
      symmetry. apply not_true_is_false. intros Eyx.
      apply Qle_bool_iff in Exz, Eyx. apply Qle_bool_false in Eyz. lra.
    + rewrite Exz, Eyz.
      replace (Qle_bool x y) with false; [apply same_numbers_refl|].
      symmetry. apply not_true_is_false. intros Exy.
      apply Qle_bool_iff in Eyz, Exy. apply Qle_bool_false in Exz. lra.
    + rewrite Exz, Eyz. constructor; [reflexivity | exact IH].
Qed.

(** Sorting two arrangements of the same numbers gives the same numbers in
    every position. *)
Lemma sort_same (l l' : list Q) :
  Permutation l l' -> Forall2 Qeq (sort Qle_bool l) (sort Qle_bool l').
Proof.
  induction 1 as [|x l l' _ IH|x y l|l l' l'' _ IH1 _ IH2]; cbn [sort].
  - constructor.
  - now apply insert_same.
  - apply insert_swap.
  - now apply (same_numbers_trans _ (sort Qle_bool l')).
Qed.

Lemma nth_same (s s' : list Q) (i : nat) :
  Forall2 Qeq s s' -> (nth i s 0 == nth i s' 0)%Q.
Proof.
  intros H. revert i. induction H as [|x y s s' Hxy _ IH]; intros [|i]; simpl;
    try reflexivity; [assumption | apply IH].
Qed.

Lemma same_numbers_length (s s' : list Q) :
  Forall2 Qeq s s' -> length s = length s'.
Proof. induction 1; simpl; congruence. Qed.

(** A quantile depends on the numbers of the group, not on their order. *)
Lemma quantile_perm (q : Q) (xs ys : list Q) :
  Permutation xs ys -> (quantile q xs == quantile q ys)%Q.
Proof.
  intros H. pose proof (sort_same xs ys H) as Hs. unfold quantile. cbv zeta.
  rewrite (same_numbers_length _ _ Hs).
  destruct (Qeq_bool _ 0).
  - now apply nth_same.
  - now rewrite !(nth_same _ _ _ Hs).
Qed.

Lemma ascending_unique (l1 l2 : list Z) :
  StronglySorted Z.lt l1 -> StronglySorted Z.lt l2 ->
  (forall t, In t l1 <-> In t l2) -> l1 = l2.
Proof.
  intros H1. revert l2. induction H1 as [|a r1 Hs1 IH Ha]; intros l2 H2 Hin.
  - destruct l2 as [|b r2]; [reflexivity|].
    exfalso. apply (proj2 (Hin b)). now left.
  - destruct H2 as [|b r2 Hs2 Hb].
    + exfalso. apply (proj1 (Hin a)). now left.
    + rewrite Forall_forall in Ha, Hb.
      assert (Hab : a = b).
      { destruct (proj1 (Hin a) (or_introl eq_refl)) as [E|Ea]; [now symmetry|].
        destruct (proj2 (Hin b) (or_introl eq_refl)) as [E|Eb]; [assumption|].
        specialize (Ha b Eb). specialize (Hb a Ea). lia. }
      subst b. f_equal. apply IH; [assumption|].
      intros t. split; intros Ht.
      * destruct (proj1 (Hin t) (or_intror Ht)) as [E|E]; [|assumption].
        specialize (Ha t Ht). lia.
      * destruct (proj2 (Hin t) (or_intror Ht)) as [E|E]; [|assumption].
        specialize (Hb t Ht). lia.
Qed.

Lemma combine_fst {A B : Type} (l : list A) (r : list B) :
  length l = length r -> map fst (combine l r) = l.
Proof.
  revert r. induction l as [|x l IH]; intros [|y r] H; simpl in *; try discriminate;
    [reflexivity|]. f_equal. apply IH. congruence.
Qed.

Lemma combine_snd {A B : Type} (l : list A) (r : list B) :
  length l = length r -> map snd (combine l r) = r.
Proof.
  revert r. induction l as [|x l IH]; intros [|y r] H; simpl in *; try discriminate;
    [reflexivity|]. f_equal. apply IH. congruence.
Qed.

Lemma combine_map_fst {A B C : Type} (f : A -> C) (l : list A) (r : list B) :
  combine (map f l) r = map (fun p => (f (fst p), snd p)) (combine l r).
Proof.
  revert r. induction l as [|x l IH]; intros [|y r]; simpl; try reflexivity.
  now rewrite IH.
Qed.

(** The groups of two arrangements of the same rows hold the same
    numbers. *)
Lemma group_numbers_rows (keys keys' : list cell) (qs qs' : list Q) (k : cell) :
  Permutation (combine keys qs) (combine keys' qs') ->
  Permutation (group_numbers keys qs k) (group_numbers keys' qs' k).
Proof.
  intros H. unfold group_numbers. now apply Permutation_map, filter_perm.
Qed.

(** The rows of the box plots of two arrangements of the same dated
    measurements. *)
Lemma box_rows_same (ts ts' : list Z) (qs qs' : list Q) :
  length ts = length qs -> length ts' = length qs' ->
  Permutation (combine ts qs) (combine ts' qs') ->
  Forall2 (Forall2 same_cell) (box_rows (map Timestamp ts) qs)
    (box_rows (map Timestamp ts') qs').
Proof.
  intros Hlen Hlen' Hperm.
  destruct (group_keys_dates ts qs Hlen) as (ks & Hks & Hs & Hin).
  destruct (group_keys_dates ts' qs' Hlen') as (ks' & Hks' & Hs' & Hin').
  assert (Hts : forall t, In t ts <-> In t ts').
  { intros t. rewrite <- (combine_fst ts qs Hlen), <- (combine_fst ts' qs' Hlen').
    split; apply Permutation_in, Permutation_map;
      [assumption | now apply Permutation_sym]. }
  assert (E : ks = ks').
  { apply ascending_unique; try assumption.
    intros t. now rewrite Hin, Hin', Hts. }
  subst ks'. unfold box_rows. cbv zeta. rewrite Hks, Hks'.
  assert (Hrows : Permutation (combine (map Timestamp ts) qs)
                    (combine (map Timestamp ts') qs')).
  { rewrite !combine_map_fst. now apply Permutation_map. }
  clear Hks Hks' Hs Hs' Hin Hin'.
  induction ks as [|t ks IH]; cbn [map]; constructor; [|exact IH].
  unfold box_row. constructor; [reflexivity|].
  assert (HG : Permutation
                 (group_numbers (take (argsort (map Num qs)) (map Timestamp ts))
                    (take (argsort (map Num qs)) qs) (Timestamp t))
                 (group_numbers (take (argsort (map Num qs')) (map Timestamp ts'))
                    (take (argsort (map Num qs')) qs') (Timestamp t))).
  { rewrite group_numbers_sorted by (now rewrite length_map).
    rewrite group_numbers_sorted by (now rewrite length_map).
    now apply group_numbers_rows. }
  cbn [map]. repeat (constructor; [now apply quantile_perm|]). constructor.
Qed.

(** ** Calling a builder twice *)


(** ** Columns of dates *)



(** * The properties of the builders *)

Section Properties.
Variable pd_Timestamp : string -> option Z.
Variables norm_class normalized rgba : Type.
Variable Normalize : norm_class.
Variable norm_call : norm_class -> Z -> Z -> Z -> normalized.
Variable get_cmap : string -> option (normalized -> rgba).
Variable rgb2hex : rgba -> string.
Variable float_str : pyfloat -> string.








(** C5 (amended).  On the same inputs [area_stacked] and [area_pct_total]
    have the same outcome and leave the same frames; their charts carry
    the same data sets (data, names and colours); and the options of
    [area_pct_total] are those of [area_stacked] with three entries
    replaced: the text of the y-axis title, the stacking mode of the area
    plot option, and the tooltip (which has a point format where
    [area_stacked] has an x date format). *)
Theorem area_pct_total_vs_area_stacked (w : world) (d : loc) (df : DataFrame)
    (y_name title : string) (range_sel : range_arg) (num_decimals : Z)
    (legend : bool) (norm : option norm_class) (cmap : option string) (fx fy : Z) :
  nth_error (frames w) d = Some df ->
  let r1 := area_stacked norm_class normalized rgba Normalize norm_call get_cmap
              rgb2hex d y_name title range_sel num_decimals legend norm cmap fx fy w in
  let r2 := area_pct_total norm_class normalized rgba Normalize norm_call get_cmap
              rgb2hex d y_name title range_sel num_decimals legend norm cmap fx fy w in
  fst r1 = fst r2
  /\ frames (snd r1) = frames (snd r2)
  /\ exists c1 c2 : Chart,
      nth_error (charts (snd r1)) (length (charts w)) = Some c1
      /\ nth_error (charts (snd r2)) (length (charts w)) = Some c2
      /\ data_sets c1 = data_sets c2
      /\ (forall h : loc, fst r1 = Return h ->
            options c1
            = area_stacked_options y_name title range_sel num_decimals legend
            /\ options c2
               = patched (PStr ("Percent of " ++ y_name)) (PStr "percent")
                   (percent_tooltip num_decimals) (options c1)).
Proof.
  destruct w as [F C]; simpl frames. intros Hd r1 r2. subst r1 r2.
  rewrite (area_stacked_run _ _ _ _ _ _ _ _ df) by exact Hd.
  rewrite (area_pct_total_run _ _ _ _ _ _ _ _ df) by exact Hd.
  rewrite area_options_patched. unfold area_closed. cbn [charts].
  destruct (get_cmap (cmap_or_default cmap)) as [cm|]; cbv zeta.
  - destruct (Nat.leb _ _); cbn [fst snd frames charts];
      (split; [reflexivity|]); (split; [reflexivity|]);
      eexists _, _; rewrite !nth_error_snoc;
      (split; [reflexivity|]); (split; [reflexivity|]);
      (split; [reflexivity|]); intros h Hh; [now split | discriminate].
  - cbn [fst snd frames charts].
    (split; [reflexivity|]); (split; [reflexivity|]).
    eexists _, _; rewrite !nth_error_snoc.
    (split; [reflexivity|]); (split; [reflexivity|]);
      (split; [reflexivity|]); intros h Hh; discriminate.
Qed.

(** C8.  Whatever a builder does, returning or raising, every frame of the
    store it started from, the caller's tables among them, is afterwards
    what it was: same index, same columns, same values. *)
Theorem builders_leave_tables_unchanged (w : world) :
  (forall d y_name title range_sel num_decimals legend fx fy,
      frames_unchanged w
        (snd (line_chart d y_name title range_sel num_decimals legend fx fy w)))
  /\ (forall d plotline_date y_name title range_sel num_decimals line_text legend fx fy,
         frames_unchanged w
           (snd (line_customline pd_Timestamp d plotline_date y_name title range_sel
                   num_decimals line_text legend fx fy w)))
  /\ (forall d y_name title range_sel num_decimals legend norm cmap fx fy,
         frames_unchanged w
           (snd (area_stacked norm_class normalized rgba Normalize norm_call get_cmap
                   rgb2hex d y_name title range_sel num_decimals legend norm cmap
                   fx fy w)))
  /\ (forall d y_name title range_sel num_decimals legend norm cmap fx fy,
         frames_unchanged w
           (snd (area_pct_total norm_class normalized rgba Normalize norm_call
                   get_cmap rgb2hex d y_name title range_sel num_decimals legend
                   norm cmap fx fy w)))
  /\ (forall d d2 secondy_axis_name y_name title range_sel num_decimals fx fy,
         frames_unchanged w
           (snd (line_secondary_y d d2 secondy_axis_name y_name title range_sel
                   num_decimals fx fy w)))
  /\ (forall d y_name title num_decimals x_name fx fy,
         frames_unchanged w
           (snd (boxplot float_str d y_name title num_decimals x_name fx fy w)))
  /\ (forall d y_name title range_sel num_decimals legend fx fy,
         frames_unchanged w
           (snd (line_pct_change d y_name title range_sel num_decimals legend
                   fx fy w))).
Proof.
  repeat split; intros; apply keeps_frames_unchanged.
  - unfold line_chart. keeps_auto.
  - unfold line_customline. keeps_auto.
  - unfold area_stacked. cbv zeta. keeps_auto.
  - unfold area_pct_total. cbv zeta. keeps_auto.
  - unfold line_secondary_y. keeps_auto.
  - unfold boxplot. cbv zeta. keeps_auto.
  - unfold line_pct_change. keeps_auto.
Qed.

(** C10.  On a frame whose number of columns is not two, [boxplot] raises
    at the assignment of the two column labels: the outcome is the
    exception, not a handle; the store holds the copy, its columns as they
    were, and a chart with no data set and no option. *)
Theorem boxplot_needs_two_columns (w : world) (d : loc) (df : DataFrame)
    (y_name title : string) (num_decimals : Z) (x_name : string) (fx fy : Z) :
  nth_error (frames w) d = Some df ->
  length (columns df) <> 2%nat ->
  raises_with (boxplot float_str d y_name title num_decimals x_name fx fy) w
    ValueError
    (fun c w' =>
       data_sets c = [] /\ options c = PDict []
       /\ frames w' = frames w ++ [df]
       /\ length (charts w') = S (length (charts w))).
Proof.
  destruct w as [F C]; cbn [frames charts]. intros Hd Hn. unfold raises_with.
  unfold boxplot, Highchart. rewrite run_new_chart.
  rewrite (run_df_copy _ df) by exact Hd.
  rewrite (run_df_set_columns _ df) by apply nth_error_snoc.
  cbn [length]. apply Nat.eqb_neq in Hn. rewrite Nat.eqb_sym, Hn.
  eexists _, _. split; [reflexivity|]. cbn [charts frames].
  split; [apply nth_error_snoc|].
  repeat split. rewrite length_app. simpl. lia.
Qed.



End Properties.

(** * The properties at the example inputs *)

Ltac decide_names :=
  repeat match goal with
         | |- NoDup _ => constructor
         | |- Forall _ _ => constructor
         | |- ~ _ => simpl; intuition discriminate
         | |- _ => reflexivity
         end.








(** The amended C5 at [table_AB]. *)
Lemma area_pct_total_vs_area_stacked_witness :
  nth_error (frames (store_of [table_AB])) 0 = Some table_AB
  /\ let r1 := area_stacked unit Z Z tt no_norm any_cmap black 0%nat "y" "Chart title"
                 (Enum three_month) 2 true None None 900 700 (store_of [table_AB]) in
     let r2 := area_pct_total unit Z Z tt no_norm any_cmap black 0%nat "y" "Chart title"
                 (Enum three_month) 2 true None None 900 700 (store_of [table_AB]) in
     fst r1 = fst r2
     /\ frames (snd r1) = frames (snd r2)
     /\ exists c1 c2 : Chart,
         nth_error (charts (snd r1)) 0 = Some c1
         /\ nth_error (charts (snd r2)) 0 = Some c2
         /\ data_sets c1 = data_sets c2
         /\ (forall h : loc, fst r1 = Return h ->
               options c1
               = area_stacked_options "y" "Chart title" (Enum three_month) 2 true
               /\ options c2
                  = patched (PStr "Percent of y") (PStr "percent") (percent_tooltip 2)
                      (options c1)).
Proof.
  assert (H1 : nth_error (frames (store_of [table_AB])) 0 = Some table_AB)
    by reflexivity.
  split; [assumption|].
  exact (area_pct_total_vs_area_stacked unit Z Z tt no_norm any_cmap black
           (store_of [table_AB]) 0%nat table_AB "y"%string "Chart title"%string
           (Enum three_month) 2 true None None 900 700 H1).
Defined.

(** C5 as stated fails at [table_AB]: no choice of y-axis title text and
    stacking mode turns the options of [area_stacked] into those of
    [area_pct_total]; the tooltips differ as well. *)
Lemma tooltip_differs_too :
  ~ exists (c1 c2 : Chart) (text stacking : pyobj),
      nth_error (charts (snd (area_stacked unit Z Z tt no_norm any_cmap black 0%nat
                                "y" "Chart title" (Enum three_month) 2 true None None
                                900 700 (store_of [table_AB])))) 0 = Some c1
      /\ nth_error (charts (snd (area_pct_total unit Z Z tt no_norm any_cmap black 0%nat
                                   "y" "Chart title" (Enum three_month) 2 true None None
                                   900 700 (store_of [table_AB])))) 0 = Some c2
      /\ options c2
         = set_path ["yAxis"; "title"; "text"]%string text
             (set_path ["plotOptions"; "area"; "stacking"]%string stacking (options c1)).
Proof.
  intros (c1 & c2 & text & stacking & H1 & H2 & H).
  vm_compute in H1. injection H1 as <-.
  vm_compute in H2. injection H2 as <-.
  apply (f_equal (get_path ["tooltip"; "xDateFormat"]%string)) in H.
  vm_compute in H. discriminate H.
Qed.

(** C7: [line_secondary_y] on a second table whose index is called
    ["date_field"] raises [ValueError] at [reset_index()], with no series
    attached; the same table passed as the first table, which is re-indexed
    with [drop=True], is accepted. *)
Lemma line_secondary_y_index_name_clash :
  let w := store_of [table_AB; table_index_clash] in
  fst (line_secondary_y 0%nat 1%nat "second" "first" "Chart title" (Enum three_month)
         2 900 700 w) = Raise ValueError
  /\ builds (line_secondary_y 0%nat 1%nat "second" "first" "Chart title"
               (Enum three_month) 2 900 700) w
       (fun c => data_sets c = [])
  /\ fst (line_secondary_y 1%nat 0%nat "second" "first" "Chart title" (Enum three_month)
            2 900 700 w) = Return 0%nat.
Proof.
  cbv zeta. split; [vm_compute; reflexivity|]. split; [|vm_compute; reflexivity].
  unfold builds. eexists. split; [vm_compute; reflexivity | reflexivity].
Qed.

(** C8 at [table_AB] and [table_clash]: the caller's tables are in the store
    as they were after [line_chart], which overwrites ["date_field"] in its
    copy, and after [boxplot], which renames and sorts its copy. *)
Lemma builders_leave_tables_unchanged_witness :
  nth_error (frames (snd (line_chart 1%nat "" "Chart Title" (Enum three_month) 2 true
                            900 700 (store_of [table_AB; table_clash])))) 1
  = Some table_clash
  /\ nth_error (frames (snd (boxplot nan_or_number 0%nat "y" "Chart title" 2 "Date"
                               900 700 (store_of [table_box])))) 0
     = Some table_box.
Proof.
  split.
  - exact (proj1 (builders_leave_tables_unchanged any_date unit Z Z tt no_norm any_cmap
                    black nan_or_number (store_of [table_AB; table_clash]))
             1%nat ""%string "Chart Title"%string (Enum three_month) 2 true 900 700
             1%nat table_clash eq_refl).
  - exact (proj1 (proj2 (proj2 (proj2 (proj2 (proj2
             (builders_leave_tables_unchanged any_date unit Z Z tt no_norm any_cmap
                black nan_or_number (store_of [table_box])))))))
             0%nat "y"%string "Chart title"%string 2 "Date"%string 900 700
             0%nat table_box eq_refl).
Defined.

(** C10 at [table_AB] with a third column: [boxplot] raises. *)
Lemma boxplot_needs_two_columns_witness :
  let three := mkDF None (index table_AB)
                 (("C"%string, [Num 7; Num 8; Num 9]) :: columns table_AB) in
  nth_error (frames (store_of [three])) 0 = Some three
  /\ length (columns three) <> 2%nat
  /\ raises_with (boxplot nan_or_number 0%nat "y" "Chart title" 2 "Date" 900 700)
       (store_of [three]) ValueError
       (fun c w' =>
          data_sets c = [] /\ options c = PDict []
          /\ frames w' = frames (store_of [three]) ++ [three]
          /\ length (charts w') = S (length (charts (store_of [three])))).
Proof.
  intros three.
  assert (H1 : nth_error (frames (store_of [three])) 0 = Some three) by reflexivity.
  assert (H2 : length (columns three) <> 2%nat) by (simpl; lia).
  repeat (split; [assumption|]).
  exact (boxplot_needs_two_columns nan_or_number (store_of [three]) 0%nat three
           "y"%string "Chart title"%string 2 "Date"%string 900 700 H1 H2).
Defined.



(** Why C1 asks for distinct column names: with two columns called ["A"]
    the selection of ["A"] has both, and the rows of each series three
    entries. *)
Lemma duplicate_names_widen_rows :
  let twice := mkDF None [Timestamp (day 0)]
                 [("A"%string, [Num 1]); ("A"%string, [Num 2])] in
  builds (line_chart 0%nat "" "Chart Title" (Enum three_month) 2 true 900 700)
    (store_of [twice])
    (fun c => map ds_data (data_sets c)
              = [[[Timestamp (day 0); Num 1; Num 2]];
                 [[Timestamp (day 0); Num 1; Num 2]]]).
Proof.
  cbv zeta. unfold builds. eexists. split; [vm_compute; reflexivity | reflexivity].
Qed.

(** Why C1 asks for a plot-line date that parses: [line_customline] raises
    on one that does not, after the series were attached. *)
Lemma unparsed_date_raises :
  let m := line_customline (fun _ => None) 0%nat "soon" "" "Chart Title"
             (Enum three_month) 2 "" true 900 700 in
  fst (m (store_of [table_AB])) = Raise ValueError
  /\ builds m (store_of [table_AB])
       (fun c => map ds_name (data_sets c) = ["A"; "B"]%string
                 /\ options c = PDict []).
Proof.
  cbv zeta. split; [vm_compute; reflexivity|].
  unfold builds. eexists. split; [vm_compute; reflexivity | split; reflexivity].
Qed.

(** * Further properties of the builders *)

Section Further.
Variable pd_Timestamp : string -> option Z.
Variables norm_class normalized rgba : Type.
Variable Normalize : norm_class.
Variable norm_call : norm_class -> Z -> Z -> Z -> normalized.
Variable get_cmap : string -> option (normalized -> rgba).
Variable rgb2hex : rgba -> string.
Variable float_str : pyfloat -> string.



(** X3.  [line_secondary_y] fails exactly on the second tables whose index
    label is taken: with [label] the name of the index of [data2]
    (["index"] for an index without a name, ["level_0"] when [data2] has a
    column ["index"]), the call raises [ValueError] at [reset_index()],
    with no data set attached and no option set, when [label] is
    ["date_field"] or a column of [data2]; for every other second table,
    and every first table, it returns a chart with one data set per column
    of [data], then one per column of [data2]. *)
Theorem line_secondary_y_outcome (w : world) (d1 d2 : loc) (df1 df2 : DataFrame)
    (secondy_axis_name y_name title : string) (range_sel : range_arg)
    (num_decimals fx fy : Z) :
  nth_error (frames w) d1 = Some df1 ->
  nth_error (frames w) d2 = Some df2 ->
  (index_label df2 = "date_field"%string \/ In (index_label df2) (names df2) ->
   raises_with (line_secondary_y d1 d2 secondy_axis_name y_name title range_sel
                  num_decimals fx fy) w ValueError
     (fun c _ => data_sets c = [] /\ options c = PDict []))
  /\ (index_label df2 <> "date_field"%string -> ~ In (index_label df2) (names df2) ->
      returns_chart (line_secondary_y d1 d2 secondy_axis_name y_name title range_sel
                       num_decimals fx fy) w
        (fun c _ => map ds_name (data_sets c) = names df1 ++ names df2)).
Proof.
  destruct w as [F C]; simpl frames. intros H1 H2.
  unfold raises_with, returns_chart.
  rewrite (line_secondary_y_run _ _ df1 df2) by assumption.
  unfold secondary_closed. rewrite reset_index_outcome. split.
  - intros Hbad.
    assert (E : has_column (index_label df2) df2
                || String.eqb (index_label df2) "date_field" = true).
    { destruct Hbad as [Hbad|Hbad].
      - rewrite Hbad. apply orb_true_r.
      - apply has_column_true in Hbad. now rewrite Hbad. }
    rewrite E. eexists _, _. split; [reflexivity|]. cbn [charts].
    split; [apply nth_error_snoc|]. now split.
  - intros Hn Hin.
    assert (E : has_column (index_label df2) df2
                || String.eqb (index_label df2) "date_field" = false).
    { apply has_column_false in Hin. rewrite Hin. cbn [orb].
      now apply String.eqb_neq. }
    rewrite E. eexists _, _, _. split; [reflexivity|].
    split; [apply nth_error_snoc|]. cbn [data_sets].
    unfold line_sets. rewrite map_app, !map_map. cbn [ds_name].
    now rewrite !map_id.
Qed.

(** X4.  The reshape step of [line_secondary_y] loses nothing of either
    table: for two tables with numeric values and distinct column names,
    none of them ["date_field"], the second with a free index label, the
    data sets are, in column order and under the column's name, the pairs
    of the first table's index with each of its columns, then the pairs
    of the second table's index with each of its columns; the column that
    [reset_index()] adds to the second frame is in no series. *)
Theorem line_secondary_y_lossless (w : world) (d1 d2 : loc) (df1 df2 : DataFrame)
    (secondy_axis_name y_name title : string) (range_sel : range_arg)
    (num_decimals fx fy : Z) :
  nth_error (frames w) d1 = Some df1 ->
  nth_error (frames w) d2 = Some df2 ->
  well_formed df1 -> numeric df1 ->
  NoDup (names df1) -> ~ In "date_field"%string (names df1) ->
  well_formed df2 -> numeric df2 ->
  NoDup (names df2) -> ~ In "date_field"%string (names df2) ->
  index_label df2 <> "date_field"%string -> ~ In (index_label df2) (names df2) ->
  returns_chart (line_secondary_y d1 d2 secondy_axis_name y_name title range_sel
                   num_decimals fx fy) w
    (fun c _ =>
       series_of c
       = map (fun col => (fst col, pairs (index df1) (snd col))) (columns df1)
         ++ map (fun col => (fst col, pairs (index df2) (snd col))) (columns df2)).
Proof.
  destruct w as [F C]; simpl frames.
  intros H1 H2 Hwf1 Hnum1 Hnd1 Hdf1 Hwf2 Hnum2 Hnd2 Hdf2 Hl Hl'.
  assert (Hacc : secondary_accepts df2) by (apply secondary_accepts_iff; now split).
  unfold returns_chart.
  rewrite (line_secondary_y_run _ _ df1 df2) by assumption.
  unfold secondary_accepts in Hacc. unfold secondary_closed.
  destruct (reset_index (setitem df2 "date_field" (index df2))) as [b'|e] eqn:Hb;
    [|contradiction].
  eexists _, _, _. split; [reflexivity|]. split; [apply nth_error_snoc|].
  unfold series_of. cbn [data_sets]. rewrite map_app. f_equal.
  - rewrite series_of_line_sets. now apply series_lossless.
  - rewrite map_map. cbn [ds_name ds_data]. unfold names. rewrite map_map.
    apply map_ext_in. intros [name vals] Hin. cbn [fst snd]. f_equal.
    now apply (secondary_series_lossless df2 b' name vals).
Qed.

(** X5.  With a colormap the area builders colour series [i] of the [n]
    columns with [rgb2hex(colormap(norm(vmin=0, vmax=n)(i)))], where
    [norm] is [Normalize] unless the caller passes a class and [colormap]
    is the registered map of the given name, ["RdYlBu"] for the empty
    name; the call returns for any number of columns (the limit of the
    default palette does not apply). *)
Theorem colormap_colours_every_series (w : world) (d : loc) (df : DataFrame)
    (s : string) (cm : normalized -> rgba) :
  nth_error (frames w) d = Some df ->
  get_cmap (if String.eqb s "" then "RdYlBu"%string else s) = Some cm ->
  let coloured := fun (norm : option norm_class) (c : Chart) (_ : world) =>
    map ds_kwargs (data_sets c)
    = map (fun i =>
             [("color"%string,
               PStr (rgb2hex (cm (norm_call
                                    (match norm with None => Normalize | Some n => n end)
                                    0 (Z.of_nat (length (columns df)))
                                    (Z.of_nat i)))))])
        (seq 0 (length (columns df))) in
  (forall y_name title range_sel num_decimals legend norm fx fy,
      returns_chart (area_stacked norm_class normalized rgba Normalize norm_call
                       get_cmap rgb2hex d y_name title range_sel num_decimals legend
                       norm (Some s) fx fy) w (coloured norm))
  /\ (forall y_name title range_sel num_decimals legend norm fx fy,
         returns_chart (area_pct_total norm_class normalized rgba Normalize norm_call
                          get_cmap rgb2hex d y_name title range_sel num_decimals
                          legend norm (Some s) fx fy) w (coloured norm)).
Proof.
  destruct w as [F C]; simpl frames. intros Hd Hcm coloured.
  assert (Hcm' : get_cmap (cmap_or_default (Some s)) = Some cm).
  { destruct s; exact Hcm. }
  assert (Hsets : forall (norm : option norm_class) (fx fy : Z) (opts : pyobj),
             area_closed Normalize norm_call get_cmap rgb2hex df F C norm (Some s)
               fx fy opts
             = (Return (length C),
                mkWorld (F ++ working_frames df)
                  (C ++ [mkChart Highstock_chart fx fy
                           (map (area_set df
                                   (series_color_of rgb2hex (Some s) cm
                                      (norm_call
                                         (match norm with
                                          | None => Normalize
                                          | Some n => n
                                          end) 0 (Z.of_nat (length (names df))))))
                              (enumerate (names df)))
                           opts]))).
  { intros. unfold area_closed. rewrite Hcm'. cbv zeta. cbn [attached_count].
    rewrite Nat.leb_refl.
    rewrite firstn_all2
      by (unfold enumerate; rewrite length_combine, length_seq; lia).
    reflexivity. }
  assert (Hcol : forall (norm : option norm_class) (k : chart_kind) (fx fy : Z)
                   (opts : pyobj) (w' : world),
             coloured norm
               (mkChart k fx fy
                  (map (area_set df
                          (series_color_of rgb2hex (Some s) cm
                             (norm_call
                                (match norm with None => Normalize | Some n => n end)
                                0 (Z.of_nat (length (names df))))))
                     (enumerate (names df)))
                  opts) w').
  { intros. subst coloured; cbv beta. cbn [data_sets].
    rewrite map_map. unfold area_set, series_color_of. cbn [ds_kwargs].
    replace (length (columns df)) with (length (names df))
      by (unfold names; apply length_map).
    rewrite <- (map_fst_combine_seq (names df) 0). fold (enumerate (names df)).
    now rewrite map_map. }
  split; intros; unfold returns_chart.
  - rewrite (area_stacked_run _ _ _ _ _ _ _ _ df) by exact Hd. rewrite Hsets.
    eexists _, _, _. split; [reflexivity|]. split; [apply nth_error_snoc|].
    apply Hcol.
  - rewrite (area_pct_total_run _ _ _ _ _ _ _ _ df) by exact Hd. rewrite Hsets.
    eexists _, _, _. split; [reflexivity|]. split; [apply nth_error_snoc|].
    apply Hcol.
Qed.

(** X6.  The area builders look their colormap up before the loop over
    the columns, also when [cmap] is [None] and the map (then ["RdYlBu"])
    is not used: when no colormap is registered under the name, both
    raise [ValueError] with no data set attached and no option set. *)
Theorem unknown_colormap_raises_before_any_series (w : world) (d : loc)
    (df : DataFrame) (cmap : option string) :
  nth_error (frames w) d = Some df ->
  get_cmap (cmap_or_default cmap) = None ->
  (forall y_name title range_sel num_decimals legend norm fx fy,
      raises_with (area_stacked norm_class normalized rgba Normalize norm_call
                     get_cmap rgb2hex d y_name title range_sel num_decimals legend
                     norm cmap fx fy) w ValueError
        (fun c _ => data_sets c = [] /\ options c = PDict []))
  /\ (forall y_name title range_sel num_decimals legend norm fx fy,
         raises_with (area_pct_total norm_class normalized rgba Normalize norm_call
                        get_cmap rgb2hex d y_name title range_sel num_decimals legend
                        norm cmap fx fy) w ValueError
           (fun c _ => data_sets c = [] /\ options c = PDict [])).
Proof.
  destruct w as [F C]; simpl frames. intros Hd Hcm.
  split; intros; unfold raises_with.
  - rewrite (area_stacked_run _ _ _ _ _ _ _ _ df) by exact Hd.
    unfold area_closed. rewrite Hcm.
    eexists _, _. split; [reflexivity|]. cbn [charts].
    split; [apply nth_error_snoc|]. now split.
  - rewrite (area_pct_total_run _ _ _ _ _ _ _ _ df) by exact Hd.
    unfold area_closed. rewrite Hcm.
    eexists _, _. split; [reflexivity|]. cbn [charts].
    split; [apply nth_error_snoc|]. now split.
Qed.

(** X7.  With the default palette a table of more than 100 columns makes
    the area builders raise [IndexError] at the 101st column: the series
    of the first 100 columns are attached by then, and no option is
    set. *)
Theorem default_palette_overflow (w : world) (d : loc) (df : DataFrame)
    (cm : normalized -> rgba) :
  nth_error (frames w) d = Some df ->
  get_cmap "RdYlBu" = Some cm ->
  (100 < length (columns df))%nat ->
  (forall y_name title range_sel num_decimals legend norm fx fy,
      raises_with (area_stacked norm_class normalized rgba Normalize norm_call
                     get_cmap rgb2hex d y_name title range_sel num_decimals legend
                     norm None fx fy) w IndexError
        (fun c _ => map ds_name (data_sets c) = firstn 100 (names df)
                    /\ options c = PDict []))
  /\ (forall y_name title range_sel num_decimals legend norm fx fy,
         raises_with (area_pct_total norm_class normalized rgba Normalize norm_call
                        get_cmap rgb2hex d y_name title range_sel num_decimals legend
                        norm None fx fy) w IndexError
           (fun c _ => map ds_name (data_sets c) = firstn 100 (names df)
                       /\ options c = PDict [])).
Proof.
  destruct w as [F C]; simpl frames. intros Hd Hcm Hn.
  assert (Hlen : length (names df) = length (columns df))
    by (unfold names; apply length_map).
  assert (Hsets : forall (norm : option norm_class) (fx fy : Z) (opts : pyobj),
             exists sets : list DataSet,
               area_closed Normalize norm_call get_cmap rgb2hex df F C norm None
                 fx fy opts
               = (Raise IndexError,
                  mkWorld (F ++ working_frames df)
                    (C ++ [mkChart Highstock_chart fx fy sets (PDict [])]))
               /\ map ds_name sets = firstn 100 (names df)).
  { intros. unfold area_closed. cbn [cmap_or_default]. rewrite Hcm. cbv zeta.
    cbn [attached_count].
    replace (Nat.min (length (names df)) 100) with 100%nat by lia.
    replace (Nat.leb (length (names df)) 100) with false
      by (symmetry; apply Nat.leb_gt; lia).
    eexists. split; [reflexivity|].
    rewrite map_map. unfold area_set. cbn [ds_name].
    rewrite <- (map_snd_enumerate (names df)) at 2.
    now rewrite firstn_map. }
  split; intros; unfold raises_with.
  - rewrite (area_stacked_run _ _ _ _ _ _ _ _ df) by exact Hd.
    destruct (Hsets norm fx fy
                (area_stacked_options y_name title range_sel num_decimals legend))
      as (sets & -> & Hnames).
    eexists _, _. split; [reflexivity|]. cbn [charts].
    split; [apply nth_error_snoc|]. now split.
  - rewrite (area_pct_total_run _ _ _ _ _ _ _ _ df) by exact Hd.
    destruct (Hsets norm fx fy
                (area_pct_total_options y_name title range_sel num_decimals legend))
      as (sets & -> & Hnames).
    eexists _, _. split; [reflexivity|]. cbn [charts].
    split; [apply nth_error_snoc|]. now split.
Qed.

(** X8.  No builder touches a chart that existed before the call: whatever
    the outcome, every chart of the store it started from is afterwards
    what it was, and the handle a builder returns is a new one. *)
Theorem builders_leave_charts_unchanged (w : world) :
  let apart := fun r : outcome loc * world =>
    charts_unchanged w (snd r)
    /\ (forall h : loc, fst r = Return h -> (length (charts w) <= h)%nat) in
  (forall d y_name title range_sel num_decimals legend fx fy,
      apart (line_chart d y_name title range_sel num_decimals legend fx fy w))
  /\ (forall d plotline_date y_name title range_sel num_decimals line_text legend fx fy,
         apart (line_customline pd_Timestamp d plotline_date y_name title range_sel
                  num_decimals line_text legend fx fy w))
  /\ (forall d y_name title range_sel num_decimals legend norm cmap fx fy,
         apart (area_stacked norm_class normalized rgba Normalize norm_call get_cmap
                  rgb2hex d y_name title range_sel num_decimals legend norm cmap
                  fx fy w))
  /\ (forall d y_name title range_sel num_decimals legend norm cmap fx fy,
         apart (area_pct_total norm_class normalized rgba Normalize norm_call
                  get_cmap rgb2hex d y_name title range_sel num_decimals legend
                  norm cmap fx fy w))
  /\ (forall d d2 secondy_axis_name y_name title range_sel num_decimals fx fy,
         apart (line_secondary_y d d2 secondy_axis_name y_name title range_sel
                  num_decimals fx fy w))
  /\ (forall d y_name title num_decimals x_name fx fy,
         apart (boxplot float_str d y_name title num_decimals x_name fx fy w))
  /\ (forall d y_name title range_sel num_decimals legend fx fy,
         apart (line_pct_change d y_name title range_sel num_decimals legend
                  fx fy w)).
Proof.
  intros apart.
  assert (H : forall m : M loc,
             spares (length (charts w)) m (fun h => (length (charts w) <= h)%nat) ->
             apart (m w)).
  { intros m Hm. now apply spares_charts_unchanged. }
  repeat apply conj; intros; apply H.
  - unfold line_chart. spares_auto.
  - unfold line_customline. spares_auto.
  - unfold area_stacked. cbv zeta. spares_auto.
  - unfold area_pct_total. cbv zeta. spares_auto.
  - unfold line_secondary_y. spares_auto.
  - unfold boxplot. cbv zeta. spares_auto.
  - unfold line_pct_change. spares_auto.
Qed.

(** X9.  The rows of the box plot are in order of date, whatever the order
    of the rows of the table: for a table of dates and numbers the data
    set has one row for each date of the first column, each date once,
    the dates strictly ascending from row to row. *)
Theorem boxplot_rows_ascend_by_date (w : world) (d : loc) (df : DataFrame)
    (n1 n2 : string) (ts : list Z) (qs : list Q) (y_name title : string)
    (num_decimals : Z) (x_name : string) (fx fy : Z) :
  nth_error (frames w) d = Some df ->
  unambiguous df ->
  columns df = [(n1, map Timestamp ts); (n2, map Num qs)] ->
  length ts = length qs ->
  returns_chart (boxplot float_str d y_name title num_decimals x_name fx fy) w
    (fun c _ =>
       exists (s : DataSet) (ks : list Z),
         data_sets c = [s]
         /\ x_components s = map (fun t => Some (Timestamp t)) ks
         /\ StronglySorted Z.lt ks
         /\ (forall t, In t ks <-> In t ts)).
Proof.
  destruct w as [F C]; cbn [frames]. intros Hd _ Hcols Hlen. unfold returns_chart.
  destruct (boxplot_run float_str d df n1 n2 (map Timestamp ts) qs F C y_name title
              num_decimals x_name fx fy Hd Hcols) as (L & ->).
  eexists _, _, _. split; [reflexivity|]. split; [apply nth_error_snoc|].
  cbn [data_sets].
  destruct (box_rows_dates ts qs Hlen) as (ks & Hx & Hs & Hin).
  eexists _, ks. split; [reflexivity|]. unfold x_components. cbn [ds_data].
  now split.
Qed.




(** X13.  Column labels are not checked for duplicates.  For a table
    without a column ["date_field"], every data set of [line_chart] and
    [line_pct_change] has one row per row of the table, and each row has
    the index entry and one value for every column of the data set's
    label: a label that [m] columns share gives [m] data sets, each with
    rows of [1 + m] entries. *)
Theorem duplicate_labels_widen_rows (w : world) (d : loc) (df : DataFrame) :
  nth_error (frames w) d = Some df ->
  well_formed df ->
  ~ In "date_field"%string (names df) ->
  let widened := fun (c : Chart) (_ : world) =>
    map ds_name (data_sets c) = names df
    /\ Forall (fun s => length (ds_data s) = nrows df
                        /\ Forall (fun row => length row = S (count_name (ds_name s) df))
                             (ds_data s))
         (data_sets c) in
  (forall y_name title range_sel num_decimals legend fx fy,
      returns_chart (line_chart d y_name title range_sel num_decimals legend fx fy)
        w widened)
  /\ (forall y_name title range_sel num_decimals legend fx fy,
         returns_chart (line_pct_change d y_name title range_sel num_decimals legend
                          fx fy) w widened).
Proof.
  destruct w as [F C]; simpl frames. intros Hd Hwf Hdf widened.
  assert (Hsets : forall (k : chart_kind) (fx fy : Z) (opts : pyobj) (w' : world),
             widened (mkChart k fx fy (line_sets df []) opts) w').
  { intros. subst widened; cbv beta. cbn [data_sets]. unfold line_sets. split.
    - rewrite map_map. apply map_id.
    - apply Forall_forall. intros s Hs. apply in_map_iff in Hs as (name & <- & Hin).
      cbn [ds_data ds_name]. now apply series_data_shape. }
  split; intros; unfold returns_chart.
  - rewrite (line_chart_run _ df) by exact Hd. finish_returns. apply Hsets.
  - rewrite (line_pct_change_run _ df) by exact Hd. finish_returns. apply Hsets.
Qed.

(** X14.  The box plot does not depend on the order of the rows of the
    table: two tables of dated measurements that hold the same rows in
    different orders give charts with the same options, the mean line
    among them, and data sets whose rows agree entry by entry, the dates
    and the five numbers of each date. *)
Theorem boxplot_ignores_row_order (w : world) (d d' : loc) (df df' : DataFrame)
    (n1 n2 m1 m2 : string) (ts ts' : list Z) (qs qs' : list Q)
    (y_name title : string) (num_decimals : Z) (x_name : string) (fx fy : Z) :
  nth_error (frames w) d = Some df ->
  nth_error (frames w) d' = Some df' ->
  unambiguous df -> unambiguous df' ->
  columns df = [(n1, map Timestamp ts); (n2, map Num qs)] ->
  columns df' = [(m1, map Timestamp ts'); (m2, map Num qs')] ->
  length ts = length qs -> length ts' = length qs' ->
  Permutation (combine ts qs) (combine ts' qs') ->
  exists (c c' : Chart) (s s' : DataSet),
    returns_chart (boxplot float_str d y_name title num_decimals x_name fx fy) w
      (fun c1 _ => c1 = c)
    /\ returns_chart (boxplot float_str d' y_name title num_decimals x_name fx fy) w
         (fun c2 _ => c2 = c')
    /\ options c = options c'
    /\ data_sets c = [s] /\ data_sets c' = [s']
    /\ Forall2 (Forall2 same_cell) (ds_data s) (ds_data s').
Proof.
  destruct w as [F C]; cbn [frames].
  intros Hd Hd' _ _ Hcols Hcols' Hlen Hlen' Hperm. unfold returns_chart.
  destruct (boxplot_run float_str d df n1 n2 (map Timestamp ts) qs F C y_name title
              num_decimals x_name fx fy Hd Hcols) as (L & ->).
  destruct (boxplot_run float_str d' df' m1 m2 (map Timestamp ts') qs' F C y_name
              title num_decimals x_name fx fy Hd' Hcols') as (L' & ->).
  eexists _, _, _, _. split; [|split; [|split; [|split; [|split]]]].
  - eexists _, _, _. split; [reflexivity|]. split; [apply nth_error_snoc|].
    reflexivity.
  - eexists _, _, _. split; [reflexivity|]. split; [apply nth_error_snoc|].
    reflexivity.
  - cbn [options]. f_equal. apply round_perm.
    assert (Hq : Permutation qs qs').
    { rewrite <- (combine_snd ts qs Hlen), <- (combine_snd ts' qs' Hlen').
      now apply Permutation_map. }
    rewrite (take_perm (argsort (map Num qs)) qs)
      by (rewrite <- (length_map Num qs); apply argsort_perm).
    rewrite (take_perm (argsort (map Num qs')) qs')
      by (rewrite <- (length_map Num qs'); apply argsort_perm).
    exact Hq.
  - reflexivity.
  - reflexivity.
  - cbn [ds_data]. now apply box_rows_same.
Qed.

(** X15.  Without a colormap the [norm] argument of the area builders has
    no effect: whatever normalizer class the caller passes, the outcome,
    the chart and the store are the same (the colours are taken from the
    default palette; the normalizer is applied to no index). *)
Theorem norm_has_no_effect_without_colormap (w : world) (d : loc) (df : DataFrame)
    (y_name title : string) (range_sel : range_arg) (num_decimals : Z)
    (legend : bool) (norm norm' : option norm_class) (fx fy : Z) :
  nth_error (frames w) d = Some df ->
  area_stacked norm_class normalized rgba Normalize norm_call get_cmap rgb2hex
    d y_name title range_sel num_decimals legend norm None fx fy w
  = area_stacked norm_class normalized rgba Normalize norm_call get_cmap rgb2hex
      d y_name title range_sel num_decimals legend norm' None fx fy w
  /\ area_pct_total norm_class normalized rgba Normalize norm_call get_cmap rgb2hex
       d y_name title range_sel num_decimals legend norm None fx fy w
     = area_pct_total norm_class normalized rgba Normalize norm_call get_cmap rgb2hex
         d y_name title range_sel num_decimals legend norm' None fx fy w.
Proof.
  destruct w as [F C]; simpl frames. intros Hd.
  rewrite !(area_stacked_run _ _ _ _ _ _ _ _ df) by exact Hd.
  rewrite !(area_pct_total_run _ _ _ _ _ _ _ _ df) by exact Hd.
  split; reflexivity.
Qed.




End Further.

(** * The further properties at the example inputs *)



(** X3 at [table_index_clash] as the second table: its index is called
    ["date_field"]. *)
Lemma line_secondary_y_outcome_witness :
  let w := store_of [table_AB; table_index_clash] in
  nth_error (frames w) 0 = Some table_AB
  /\ nth_error (frames w) 1 = Some table_index_clash
  /\ (index_label table_index_clash = "date_field"%string
      \/ In (index_label table_index_clash) (names table_index_clash))
  /\ raises_with (line_secondary_y 0%nat 1%nat "second" "first" "Chart title"
                    (Enum three_month) 2 900 700) w ValueError
       (fun c _ => data_sets c = [] /\ options c = PDict []).
Proof.
  intros w.
  assert (H1 : nth_error (frames w) 0 = Some table_AB) by reflexivity.
  assert (H2 : nth_error (frames w) 1 = Some table_index_clash) by reflexivity.
  assert (H3 : index_label table_index_clash = "date_field"%string
               \/ In (index_label table_index_clash) (names table_index_clash))
    by (left; reflexivity).
  repeat (split; [assumption|]).
  exact (proj1 (line_secondary_y_outcome w 0%nat 1%nat table_AB table_index_clash
                  "second"%string "first"%string "Chart title"%string
                  (Enum three_month) 2 900 700 H1 H2) H3).
Defined.

(** X4 at [table_AB] and [table_C]. *)
Lemma line_secondary_y_lossless_witness :
  let w := store_of [table_AB; table_C] in
  nth_error (frames w) 0 = Some table_AB
  /\ nth_error (frames w) 1 = Some table_C
  /\ well_formed table_AB /\ numeric table_AB
  /\ NoDup (names table_AB) /\ ~ In "date_field"%string (names table_AB)
  /\ well_formed table_C /\ numeric table_C
  /\ NoDup (names table_C) /\ ~ In "date_field"%string (names table_C)
  /\ index_label table_C <> "date_field"%string
  /\ ~ In (index_label table_C) (names table_C)
  /\ returns_chart (line_secondary_y 0%nat 1%nat "second" "first" "Chart title"
                      (Enum three_month) 2 900 700) w
       (fun c _ =>
          series_of c
          = map (fun col => (fst col, pairs (index table_AB) (snd col)))
              (columns table_AB)
            ++ map (fun col => (fst col, pairs (index table_C) (snd col)))
                 (columns table_C)).
Proof.
  intros w.
  assert (H1 : nth_error (frames w) 0 = Some table_AB) by reflexivity.
  assert (H2 : nth_error (frames w) 1 = Some table_C) by reflexivity.
  assert (H3 : well_formed table_AB) by (unfold well_formed; decide_names).
  assert (H4 : numeric table_AB) by (unfold numeric; decide_names).
  assert (H5 : NoDup (names table_AB)) by decide_names.
  assert (H6 : ~ In "date_field"%string (names table_AB)) by decide_names.
  assert (H7 : well_formed table_C) by (unfold well_formed; decide_names).
  assert (H8 : numeric table_C) by (unfold numeric; decide_names).
  assert (H9 : NoDup (names table_C)) by decide_names.
  assert (H10 : ~ In "date_field"%string (names table_C)) by decide_names.
  assert (H11 : index_label table_C <> "date_field"%string) by discriminate.
  assert (H12 : ~ In (index_label table_C) (names table_C)) by decide_names.
  repeat (split; [assumption|]).
  exact (line_secondary_y_lossless w 0%nat 1%nat table_AB table_C "second"%string
           "first"%string "Chart title"%string (Enum three_month) 2 900 700
           H1 H2 H3 H4 H5 H6 H7 H8 H9 H10 H11 H12).
Defined.

(** X5 at [table_AB] with the empty colormap name, which selects
    ["RdYlBu"]. *)
Lemma colormap_colours_every_series_witness :
  nth_error (frames (store_of [table_AB])) 0 = Some table_AB
  /\ only_RdYlBu (if String.eqb "" "" then "RdYlBu"%string else ""%string)
     = Some (fun x => x)
  /\ returns_chart (area_stacked unit Z Z tt no_norm only_RdYlBu black 0%nat ""
                      "Chart title" (Enum three_month) 2 true None (Some ""%string)
                      900 700)
       (store_of [table_AB])
       (fun c _ =>
          map ds_kwargs (data_sets c)
          = map (fun i =>
                   [("color"%string,
                     PStr (black (no_norm tt 0 (Z.of_nat (length (columns table_AB)))
                                    (Z.of_nat i))))])
              (seq 0 (length (columns table_AB)))).
Proof.
  assert (H1 : nth_error (frames (store_of [table_AB])) 0 = Some table_AB)
    by reflexivity.
  assert (H2 : only_RdYlBu (if String.eqb "" "" then "RdYlBu"%string else ""%string)
               = Some (fun x => x)) by reflexivity.
  repeat (split; [assumption|]).
  exact (proj1 (colormap_colours_every_series unit Z Z tt no_norm only_RdYlBu black
                  (store_of [table_AB]) 0%nat table_AB ""%string (fun x => x) H1 H2)
           ""%string "Chart title"%string (Enum three_month) 2 true None 900 700).
Defined.

(** X6 at [table_AB] with a colormap name that is not registered. *)
Lemma unknown_colormap_raises_before_any_series_witness :
  nth_error (frames (store_of [table_AB])) 0 = Some table_AB
  /\ only_RdYlBu (cmap_or_default (Some "viridis"%string)) = None
  /\ raises_with (area_pct_total unit Z Z tt no_norm only_RdYlBu black 0%nat ""
                    "Chart title" (Enum three_month) 2 true None
                    (Some "viridis"%string) 900 700)
       (store_of [table_AB]) ValueError
       (fun c _ => data_sets c = [] /\ options c = PDict []).
Proof.
  assert (H1 : nth_error (frames (store_of [table_AB])) 0 = Some table_AB)
    by reflexivity.
  assert (H2 : only_RdYlBu (cmap_or_default (Some "viridis"%string)) = None)
    by reflexivity.
  repeat (split; [assumption|]).
  exact (proj2 (unknown_colormap_raises_before_any_series unit Z Z tt no_norm
                  only_RdYlBu black (store_of [table_AB]) 0%nat table_AB
                  (Some "viridis"%string) H1 H2)
           ""%string "Chart title"%string (Enum three_month) 2 true None 900 700).
Defined.

(** X7 at [table_101]. *)
Lemma default_palette_overflow_witness :
  nth_error (frames (store_of [table_101])) 0 = Some table_101
  /\ only_RdYlBu "RdYlBu" = Some (fun x => x)
  /\ (100 < length (columns table_101))%nat
  /\ raises_with (area_stacked unit Z Z tt no_norm only_RdYlBu black 0%nat ""
                    "Chart title" (Enum three_month) 2 true None None 900 700)
       (store_of [table_101]) IndexError
       (fun c _ => map ds_name (data_sets c) = firstn 100 (names table_101)
                   /\ options c = PDict []).
Proof.
  assert (H1 : nth_error (frames (store_of [table_101])) 0 = Some table_101)
    by reflexivity.
  assert (H2 : only_RdYlBu "RdYlBu" = Some (fun x => x)) by reflexivity.
  assert (H3 : (100 < length (columns table_101))%nat)
    by (unfold table_101; cbn [columns]; rewrite length_map, length_seq; lia).
  repeat (split; [assumption|]).
  exact (proj1 (default_palette_overflow unit Z Z tt no_norm only_RdYlBu black
                  (store_of [table_101]) 0%nat table_101 (fun x => x) H1 H2 H3)
           ""%string "Chart title"%string (Enum three_month) 2 true None 900 700).
Defined.

(** X9 at [table_days], whose rows are not in order of day. *)
Lemma boxplot_rows_ascend_by_date_witness :
  nth_error (frames (store_of [table_days])) 0 = Some table_days
  /\ unambiguous table_days
  /\ columns table_days
     = [("when"%string, map Timestamp [day 2; day 0; day 2; day 1; day 0; day 2]);
        ("what"%string, map Num [7; 4; 1; 9; 6; 3]%Q)]
  /\ length [day 2; day 0; day 2; day 1; day 0; day 2]
     = length [7; 4; 1; 9; 6; 3]%Q
  /\ returns_chart (boxplot nan_or_number 0%nat "y" "Chart title" 2 "Date" 900 700)
       (store_of [table_days])
       (fun c _ =>
          exists (s : DataSet) (ks : list Z),
            data_sets c = [s]
            /\ x_components s = map (fun t => Some (Timestamp t)) ks
            /\ StronglySorted Z.lt ks
            /\ (forall t, In t ks
                          <-> In t [day 2; day 0; day 2; day 1; day 0; day 2])).
Proof.
  assert (H1 : nth_error (frames (store_of [table_days])) 0 = Some table_days)
    by reflexivity.
  assert (H2 : unambiguous table_days) by (split; discriminate).
  repeat (split; [first [assumption | reflexivity]|]).
  exact (boxplot_rows_ascend_by_date nan_or_number (store_of [table_days]) 0%nat
           table_days "when"%string "what"%string
           [day 2; day 0; day 2; day 1; day 0; day 2] [7; 4; 1; 9; 6; 3]%Q
           "y"%string "Chart title"%string 2 "Date"%string 900 700
           H1 H2 eq_refl eq_refl).
Defined.




(** X13 at [table_AA], whose two columns are both called ["A"]. *)
Lemma duplicate_labels_widen_rows_witness :
  nth_error (frames (store_of [table_AA])) 0 = Some table_AA
  /\ well_formed table_AA
  /\ ~ In "date_field"%string (names table_AA)
  /\ returns_chart (line_chart 0%nat "" "Chart Title" (Enum three_month) 2 true 900 700)
       (store_of [table_AA])
       (fun c _ =>
          map ds_name (data_sets c) = names table_AA
          /\ Forall (fun s =>
                       length (ds_data s) = nrows table_AA
                       /\ Forall (fun row =>
                                    length row = S (count_name (ds_name s) table_AA))
                            (ds_data s))
               (data_sets c)).
Proof.
  assert (H1 : nth_error (frames (store_of [table_AA])) 0 = Some table_AA)
    by reflexivity.
  assert (H2 : well_formed table_AA) by (unfold well_formed; decide_names).
  assert (H3 : ~ In "date_field"%string (names table_AA)) by decide_names.
  repeat (split; [assumption|]).
  exact (proj1 (duplicate_labels_widen_rows (store_of [table_AA]) 0%nat table_AA
                  H1 H2 H3)
           ""%string "Chart Title"%string (Enum three_month) 2 true 900 700).
Defined.

(** X14 at [table_days] and [table_days_reversed]. *)
Lemma boxplot_ignores_row_order_witness :
  let w := store_of [table_days; table_days_reversed] in
  let ts := [day 2; day 0; day 2; day 1; day 0; day 2] in
  let qs := [7; 4; 1; 9; 6; 3]%Q in
  nth_error (frames w) 0 = Some table_days
  /\ nth_error (frames w) 1 = Some table_days_reversed
  /\ unambiguous table_days /\ unambiguous table_days_reversed
  /\ Permutation (combine ts qs) (combine (rev ts) (rev qs))
  /\ exists (c c' : Chart) (s s' : DataSet),
       returns_chart (boxplot nan_or_number 0%nat "y" "Chart title" 2 "Date" 900 700) w
         (fun c1 _ => c1 = c)
       /\ returns_chart (boxplot nan_or_number 1%nat "y" "Chart title" 2 "Date" 900 700)
            w (fun c2 _ => c2 = c')
       /\ options c = options c'
       /\ data_sets c = [s] /\ data_sets c' = [s']
       /\ Forall2 (Forall2 same_cell) (ds_data s) (ds_data s').
Proof.
  intros w ts qs.
  assert (H1 : nth_error (frames w) 0 = Some table_days) by reflexivity.
  assert (H2 : nth_error (frames w) 1 = Some table_days_reversed) by reflexivity.
  assert (H3 : unambiguous table_days) by (split; discriminate).
  assert (H4 : unambiguous table_days_reversed) by (split; discriminate).
  assert (H5 : Permutation (combine ts qs) (combine (rev ts) (rev qs)))
    by (change (combine (rev ts) (rev qs)) with (rev (combine ts qs));
        apply Permutation_rev).
  repeat (split; [assumption|]).
  exact (boxplot_ignores_row_order nan_or_number w 0%nat 1%nat table_days
           table_days_reversed "when"%string "what"%string "when"%string
           "what"%string ts (rev ts) qs (rev qs)
           "y"%string "Chart title"%string 2 "Date"%string 900 700
           H1 H2 H3 H4 eq_refl eq_refl eq_refl eq_refl H5).
Defined.

(** X15 at [table_AB]: with the default normalizer and with one that
    scales by seven. *)
Lemma norm_has_no_effect_without_colormap_witness :
  nth_error (frames (store_of [table_AB])) 0 = Some table_AB
  /\ area_stacked Z Z Z 1 scaling any_cmap str 0%nat "" "Chart title"
       (Enum three_month) 2 true None None 900 700 (store_of [table_AB])
     = area_stacked Z Z Z 1 scaling any_cmap str 0%nat "" "Chart title"
         (Enum three_month) 2 true (Some 7) None 900 700 (store_of [table_AB]).
Proof.
  assert (H1 : nth_error (frames (store_of [table_AB])) 0 = Some table_AB)
    by reflexivity.
  split; [assumption|].
  exact (proj1 (norm_has_no_effect_without_colormap Z Z Z 1 scaling any_cmap str
                  (store_of [table_AB]) 0%nat table_AB ""%string "Chart title"%string
                  (Enum three_month) 2 true None (Some 7) 900 700 H1)).
Defined.



